(** * Mock clients of the Senzing G2 SDK: tracing, notification, observers

    A shallow embedding of the three mock clients ([g2engine], [g2configmgr],
    [g2product]).  Every method of a mock reads a canned field and wraps that
    read in the same decorator: an optional trace entry, a goroutine that
    notifies the observers, an optional deferred trace exit.

    A method is a computation in a small monad over the client struct.  It
    returns a value or panics, it may update the struct, and it leaves a trace
    of the calls it makes on its collaborators (logger, observer registry,
    [fmt]), of the goroutines it launches and of its assignments to the
    [observers] field, in program order. *)

From Stdlib Require Import ZArith.
From stdpp Require Import base strings gmap list pretty.

Local Open Scope Z_scope.
Local Open Scope string_scope.

(** ** Go values *)

(** An [error] is nil or carries the text its [Error()] returns. *)
Definition error := option string.

(** What [traceEntry] and [traceExit] pass to the logger ([...interface{}]).
    The mocks pass [int], [int64] and [uintptr] values around and never
    compute with them, so they are integers with no width here. *)
Inductive Value :=
| VString (s : string)
| VInt (n : Z)
| VInt64 (n : Z)
| VUintptr (h : Z)
| VLevel (l : Z)
| VError (e : error)
| VDuration (d : Z).

(** The two clock readings a call can make: [time.Now().UnixNano()] inside
    [notify], and [time.Since(entryTime)] where the trace exit is deferred. *)
Record Clock := { UnixNano : Z; Since : Z }.

Module strconv.
Definition Itoa (i : Z) : string := pretty i.
(** The mocks call it with base 10 only, and only that base is modelled:
    the result is the decimal text whatever the base. *)
Definition FormatInt (i : Z) (base : Z) : string := pretty i.
End strconv.

(** ** Collaborators

    The mocks reach them through Go interfaces; their packages are not part of
    the repository, so they are type classes here. *)

Module observer.
(** An observer, not nil: the mocks use it through its identifier only. *)
Record Observer := { GetObserverId : string }.
End observer.

Module subject.
Import observer.
(** [Reg] is the state of the registry behind a [subject.Subject].
    [SubjectImpl] is [&subject.SubjectImpl{}].  [NotifyObservers] lists the
    [UpdateObserver] deliveries the call launches, as observer id and
    message. *)
Class Subject (Reg : Type) := {
  SubjectImpl : Reg;
  RegisterObserver : Reg → Observer → Reg * error;
  UnregisterObserver : Reg → Observer → Reg * error;
  HasObservers : Reg → bool;
  NotifyObservers : Reg → string → list (string * string)
}.
End subject.

Module messagelogger.
Definition Level := Z.
(** [NewSenzingApiLogger] takes the product id and the initial level; the
    message catalogues it also takes are fixed per package and only shape
    the text of a log line.  The mocks drop the error it returns with the
    logger, and so does the model: the logger is always there. *)
Class MessageLoggerInterface (Lg : Type) := {
  LevelTrace : Level;
  LevelInfo : Level;
  NewSenzingApiLogger : Z → Level → Lg;
  SetLogLevel : Lg → Level → Lg;
  GetLogLevel : Lg → Level
}.
End messagelogger.

Module logger.
Class Levels := { LevelToTextMap : gmap Z string }.
End logger.

Module json.
(** [json.Marshal] on a [map[string]string]: the text and the error. *)
Class Marshaler := { Marshal : gmap string string → string * error }.
End json.

(** ** Computations *)

Section exec.
Context {Reg St : Type}.

(** One entry per call on a collaborator, per [go] statement and per
    assignment to the field [observers].  A goroutine of the mocks always
    builds a details map and calls [client.notify] with it; it reads the
    client when it runs, so its details are a function of the client.
    [NotifyObservers], [RegistryRegister] and [RegistryUnregister] record
    the registry the call is made on, as it is at the time of the call.
    [AssignObservers] records the value that [client.observers = ...]
    stores: the field is what [notify] and the pending goroutines read, so
    the place of the assignment among the calls is part of what a method
    does. *)
Inductive Event :=
| Log (errorNumber : Z) (details : list Value)
| Go (messageId : Z) (err : error) (details : St → gmap string string)
| NotifyObservers (registry : Reg) (message : string)
| Printf (text : string)
| RegistryRegister (registry : Reg) (o : observer.Observer)
| RegistryUnregister (registry : Reg) (o : observer.Observer)
| AssignObservers (registry : option Reg).

Inductive Outcome (A : Type) :=
| Returned (a : A) (st : St) (tr : list Event)
| Panicked (st : St) (tr : list Event).
Global Arguments Returned {A} a st tr.
Global Arguments Panicked {A} st tr.

Definition M (A : Type) : Type := Clock → St → Outcome A.

Definition ret {A} (a : A) : M A := λ _ st, Returned a st [].

Definition bind {A B} (m : M A) (k : A → M B) : M B := λ ck st,
  match m ck st with
  | Returned a st1 tr1 =>
      match k a ck st1 with
      | Returned b st2 tr2 => Returned b st2 (tr1 ++ tr2)
      | Panicked st2 tr2 => Panicked st2 (tr1 ++ tr2)
      end
  | Panicked st1 tr1 => Panicked st1 tr1
  end.

Definition get : M St := λ _ st, Returned st st [].
Definition put (st : St) : M unit := λ _ _, Returned () st [].
Definition emit (e : Event) : M unit := λ _ st, Returned () st [e].
Definition clock : M Clock := λ ck st, Returned ck st [].
(** A method call through a nil interface value. *)
Definition panic {A} : M A := λ _ st, Panicked st [].
Definition skip : M unit := ret ().
Definition fmap_ {A B} (f : A → B) (m : M A) : M B :=
  λ ck st,
    match m ck st with
    | Returned a st1 tr => Returned (f a) st1 tr
    | Panicked st1 tr => Panicked st1 tr
    end.

Definition trace_of {A} (o : Outcome A) : list Event :=
  match o with Returned _ _ tr | Panicked _ tr => tr end.
Definition state_of {A} (o : Outcome A) : St :=
  match o with Returned _ st _ | Panicked st _ => st end.
Definition value_of {A} (o : Outcome A) : option A :=
  match o with Returned a _ _ => Some a | Panicked _ _ => None end.

Definition is_Log (e : Event) : bool :=
  match e with Log _ _ => true | _ => false end.
(** The calls on the logger in a trace: the trace entries and exits. *)
Definition logged (tr : list Event) : list Event := List.filter is_Log tr.
(** The message ids of the notifications a trace launches as goroutines. *)
Definition launched (tr : list Event) : list Z :=
  omap (λ e, match e with Go messageId _ _ => Some messageId | _ => None end)
    tr.
(** The goroutines a trace launches, and the messages it publishes itself,
    each with the registry it is handed to. *)
Definition is_Go (e : Event) : bool :=
  match e with Go _ _ _ => true | _ => false end.
Definition goroutines (tr : list Event) : list Event := List.filter is_Go tr.
Definition published (tr : list Event) : list (Reg * string) :=
  omap (λ e, match e with
             | NotifyObservers registry message => Some (registry, message)
             | _ => None
             end) tr.
End exec.
Global Arguments Event : clear implicits.
Global Arguments Outcome : clear implicits.
Global Arguments M : clear implicits.

(** The shapes of the result tuples of the façade methods. *)
Inductive Return :=
| Ret_error (err : error)
| Ret_string (s : string)
| Ret_string_error (s : string) (err : error)
| Ret_int64_error (n : Z) (err : error)
| Ret_uintptr_error (h : Z) (err : error)
| Ret_string_string_error (s1 s2 : string) (err : error)
| Ret_string_int64_error (s : string) (n : Z) (err : error).

(** The error a result tuple ends with, if it has one. *)
Definition error_of (r : Return) : option error :=
  match r with
  | Ret_string _ => None
  | Ret_error err | Ret_string_error _ err | Ret_int64_error _ err
  | Ret_uintptr_error _ err | Ret_string_string_error _ _ err
  | Ret_string_int64_error _ _ err => Some err
  end.

(** A canned field of a client struct [St], by the type of its value. *)
Inductive Canned (St : Type) :=
| Canned_string (field : St → string)
| Canned_int64 (field : St → Z).
Global Arguments Canned_string {St} field.
Global Arguments Canned_int64 {St} field.

(** The mapping a notification carries, as the specification words it: the
    context fields, plus the three injected fields, plus the text of the
    error when there is one.  An added field replaces a context field of the
    same name. *)
Definition notification (productId now messageId : Z) (err : error)
    (contextFields : gmap string string) : gmap string string :=
  (if err is Some text then {[ "error" := text ]} else ∅) ∪
  ({[ "messageTime" := strconv.FormatInt now 10;
      "messageId" := strconv.Itoa messageId;
      "subjectId" := strconv.Itoa productId ]} ∪ contextFields).

Definition uncurry3 {A B C D} (f : A → B → C → D) (p : A * B * C) : D :=
  f p.1.1 p.1.2 p.2.

Declare Scope go_scope.
Delimit Scope go_scope with go.
Notation "x <- m ;; k" := (bind m (λ x, k))
  (at level 100, m at next level, right associativity) : go_scope.
Notation "m ;; k" := (bind m (λ _, k))
  (at level 100, right associativity) : go_scope.
Local Open Scope go_scope.

(** ** Package g2engine *)

Module g2engine.
Section g2engine.
Context {Reg Lg : Type}
        `{!subject.Subject Reg, !messagelogger.MessageLoggerInterface Lg,
          !logger.Levels, !json.Marshaler}.
(** The constant [ProductId] is declared in another file of the package. *)
Variable ProductId : Z.
Import observer.

Record G2engine := {
  isTrace : bool;
  logger : option Lg;
  observers : option Reg;
  AddRecordWithInfoResult : string;
  AddRecordWithInfoWithReturnedRecordIDResultGetWithInfo : string;
  AddRecordWithInfoWithReturnedRecordIDResultRecordID : string;
  AddRecordWithReturnedRecordIDResult : string;
  CheckRecordResult : string;
  CountRedoRecordsResult : Z;
  DeleteRecordWithInfoResult : string;
  ExportConfigResult : string;
  ExportConfigAndConfigIDResultConfig : string;
  ExportConfigAndConfigIDResultConfigID : Z;
  ExportCSVEntityReportResult : Z;
  ExportJSONEntityReportResult : Z;
  FetchNextResult : string;
  FindInterestingEntitiesByEntityIDResult : string;
  FindInterestingEntitiesByRecordIDResult : string;
  FindNetworkByEntityID_V2Result : string;
  FindNetworkByEntityIDResult : string;
  FindNetworkByRecordID_V2Result : string;
  FindNetworkByRecordIDResult : string;
  FindPathByEntityID_V2Result : string;
  FindPathByEntityIDResult : string;
  FindPathByRecordID_V2Result : string;
  FindPathByRecordIDResult : string;
  FindPathExcludingByEntityID_V2Result : string;
  FindPathExcludingByEntityIDResult : string;
  FindPathExcludingByRecordID_V2Result : string;
  FindPathExcludingByRecordIDResult : string;
  FindPathIncludingSourceByEntityID_V2Result : string;
  FindPathIncludingSourceByEntityIDResult : string;
  FindPathIncludingSourceByRecordID_V2Result : string;
  FindPathIncludingSourceByRecordIDResult : string;
  GetActiveConfigIDResult : Z;
  GetEntityByEntityID_V2Result : string;
  GetEntityByEntityIDResult : string;
  GetEntityByRecordID_V2Result : string;
  GetEntityByRecordIDResult : string;
  GetRecord_V2Result : string;
  GetRecordResult : string;
  GetRedoRecordResult : string;
  GetRepositoryLastModifiedTimeResult : Z;
  GetVirtualEntityByRecordID_V2Result : string;
  GetVirtualEntityByRecordIDResult : string;
  HowEntityByEntityID_V2Result : string;
  HowEntityByEntityIDResult : string;
  ProcessRedoRecordResult : string;
  ProcessRedoRecordWithInfoResult : string;
  ProcessRedoRecordWithInfoResultWithInfo : string;
  ProcessWithInfoResult : string;
  ProcessWithResponseResult : string;
  ProcessWithResponseResizeResult : string;
  ReevaluateEntityWithInfoResult : string;
  ReevaluateRecordWithInfoResult : string;
  ReplaceRecordWithInfoResult : string;
  SearchByAttributes_V2Result : string;
  SearchByAttributesResult : string;
  StatsResult : string;
  WhyEntities_V2Result : string;
  WhyEntitiesResult : string;
  WhyEntityByEntityID_V2Result : string;
  WhyEntityByEntityIDResult : string;
  WhyEntityByRecordID_V2Result : string;
  WhyEntityByRecordIDResult : string;
  WhyRecords_V2Result : string;
  WhyRecordsResult : string
}.

(** The zero value of the struct. *)
Definition zero : G2engine :=
  {| isTrace := false; logger := None; observers := None;
     AddRecordWithInfoResult := "";
     AddRecordWithInfoWithReturnedRecordIDResultGetWithInfo := "";
     AddRecordWithInfoWithReturnedRecordIDResultRecordID := "";
     AddRecordWithReturnedRecordIDResult := "";
     CheckRecordResult := "";
     CountRedoRecordsResult := 0;
     DeleteRecordWithInfoResult := "";
     ExportConfigResult := "";
     ExportConfigAndConfigIDResultConfig := "";
     ExportConfigAndConfigIDResultConfigID := 0;
     ExportCSVEntityReportResult := 0;
     ExportJSONEntityReportResult := 0;
     FetchNextResult := "";
     FindInterestingEntitiesByEntityIDResult := "";
     FindInterestingEntitiesByRecordIDResult := "";
     FindNetworkByEntityID_V2Result := "";
     FindNetworkByEntityIDResult := "";
     FindNetworkByRecordID_V2Result := "";
     FindNetworkByRecordIDResult := "";
     FindPathByEntityID_V2Result := "";
     FindPathByEntityIDResult := "";
     FindPathByRecordID_V2Result := "";
     FindPathByRecordIDResult := "";
     FindPathExcludingByEntityID_V2Result := "";
     FindPathExcludingByEntityIDResult := "";
     FindPathExcludingByRecordID_V2Result := "";
     FindPathExcludingByRecordIDResult := "";
     FindPathIncludingSourceByEntityID_V2Result := "";
     FindPathIncludingSourceByEntityIDResult := "";
     FindPathIncludingSourceByRecordID_V2Result := "";
     FindPathIncludingSourceByRecordIDResult := "";
     GetActiveConfigIDResult := 0;
     GetEntityByEntityID_V2Result := "";
     GetEntityByEntityIDResult := "";
     GetEntityByRecordID_V2Result := "";
     GetEntityByRecordIDResult := "";
     GetRecord_V2Result := "";
     GetRecordResult := "";
     GetRedoRecordResult := "";
     GetRepositoryLastModifiedTimeResult := 0;
     GetVirtualEntityByRecordID_V2Result := "";
     GetVirtualEntityByRecordIDResult := "";
     HowEntityByEntityID_V2Result := "";
     HowEntityByEntityIDResult := "";
     ProcessRedoRecordResult := "";
     ProcessRedoRecordWithInfoResult := "";
     ProcessRedoRecordWithInfoResultWithInfo := "";
     ProcessWithInfoResult := "";
     ProcessWithResponseResult := "";
     ProcessWithResponseResizeResult := "";
     ReevaluateEntityWithInfoResult := "";
     ReevaluateRecordWithInfoResult := "";
     ReplaceRecordWithInfoResult := "";
     SearchByAttributes_V2Result := "";
     SearchByAttributesResult := "";
     StatsResult := "";
     WhyEntities_V2Result := "";
     WhyEntitiesResult := "";
     WhyEntityByEntityID_V2Result := "";
     WhyEntityByEntityIDResult := "";
     WhyEntityByRecordID_V2Result := "";
     WhyEntityByRecordIDResult := "";
     WhyRecords_V2Result := "";
     WhyRecordsResult := "" |}.

(** Assignments to the three unexported fields. *)
Definition set_control (t : bool) (l : option Lg) (o : option Reg)
    (client : G2engine) : G2engine :=
  match client with
  | Build_G2engine _ _ _ AddRecordWithInfoResult
      AddRecordWithInfoWithReturnedRecordIDResultGetWithInfo
      AddRecordWithInfoWithReturnedRecordIDResultRecordID
      AddRecordWithReturnedRecordIDResult CheckRecordResult
      CountRedoRecordsResult DeleteRecordWithInfoResult ExportConfigResult
      ExportConfigAndConfigIDResultConfig
      ExportConfigAndConfigIDResultConfigID ExportCSVEntityReportResult
      ExportJSONEntityReportResult FetchNextResult
      FindInterestingEntitiesByEntityIDResult
      FindInterestingEntitiesByRecordIDResult FindNetworkByEntityID_V2Result
      FindNetworkByEntityIDResult FindNetworkByRecordID_V2Result
      FindNetworkByRecordIDResult FindPathByEntityID_V2Result
      FindPathByEntityIDResult FindPathByRecordID_V2Result
      FindPathByRecordIDResult FindPathExcludingByEntityID_V2Result
      FindPathExcludingByEntityIDResult FindPathExcludingByRecordID_V2Result
      FindPathExcludingByRecordIDResult
      FindPathIncludingSourceByEntityID_V2Result
      FindPathIncludingSourceByEntityIDResult
      FindPathIncludingSourceByRecordID_V2Result
      FindPathIncludingSourceByRecordIDResult GetActiveConfigIDResult
      GetEntityByEntityID_V2Result GetEntityByEntityIDResult
      GetEntityByRecordID_V2Result GetEntityByRecordIDResult
      GetRecord_V2Result GetRecordResult GetRedoRecordResult
      GetRepositoryLastModifiedTimeResult GetVirtualEntityByRecordID_V2Result
      GetVirtualEntityByRecordIDResult HowEntityByEntityID_V2Result
      HowEntityByEntityIDResult ProcessRedoRecordResult
      ProcessRedoRecordWithInfoResult ProcessRedoRecordWithInfoResultWithInfo
      ProcessWithInfoResult ProcessWithResponseResult
      ProcessWithResponseResizeResult ReevaluateEntityWithInfoResult
      ReevaluateRecordWithInfoResult ReplaceRecordWithInfoResult
      SearchByAttributes_V2Result SearchByAttributesResult StatsResult
      WhyEntities_V2Result WhyEntitiesResult WhyEntityByEntityID_V2Result
      WhyEntityByEntityIDResult WhyEntityByRecordID_V2Result
      WhyEntityByRecordIDResult WhyRecords_V2Result WhyRecordsResult =>
      Build_G2engine t l o AddRecordWithInfoResult
        AddRecordWithInfoWithReturnedRecordIDResultGetWithInfo
        AddRecordWithInfoWithReturnedRecordIDResultRecordID
        AddRecordWithReturnedRecordIDResult CheckRecordResult
        CountRedoRecordsResult DeleteRecordWithInfoResult ExportConfigResult
        ExportConfigAndConfigIDResultConfig
        ExportConfigAndConfigIDResultConfigID ExportCSVEntityReportResult
        ExportJSONEntityReportResult FetchNextResult
        FindInterestingEntitiesByEntityIDResult
        FindInterestingEntitiesByRecordIDResult FindNetworkByEntityID_V2Result
        FindNetworkByEntityIDResult FindNetworkByRecordID_V2Result
        FindNetworkByRecordIDResult FindPathByEntityID_V2Result
        FindPathByEntityIDResult FindPathByRecordID_V2Result
        FindPathByRecordIDResult FindPathExcludingByEntityID_V2Result
        FindPathExcludingByEntityIDResult FindPathExcludingByRecordID_V2Result
        FindPathExcludingByRecordIDResult
        FindPathIncludingSourceByEntityID_V2Result
        FindPathIncludingSourceByEntityIDResult
        FindPathIncludingSourceByRecordID_V2Result
        FindPathIncludingSourceByRecordIDResult GetActiveConfigIDResult
        GetEntityByEntityID_V2Result GetEntityByEntityIDResult
        GetEntityByRecordID_V2Result GetEntityByRecordIDResult
        GetRecord_V2Result GetRecordResult GetRedoRecordResult
        GetRepositoryLastModifiedTimeResult
        GetVirtualEntityByRecordID_V2Result GetVirtualEntityByRecordIDResult
        HowEntityByEntityID_V2Result HowEntityByEntityIDResult
        ProcessRedoRecordResult ProcessRedoRecordWithInfoResult
        ProcessRedoRecordWithInfoResultWithInfo ProcessWithInfoResult
        ProcessWithResponseResult ProcessWithResponseResizeResult
        ReevaluateEntityWithInfoResult ReevaluateRecordWithInfoResult
        ReplaceRecordWithInfoResult SearchByAttributes_V2Result
        SearchByAttributesResult StatsResult WhyEntities_V2Result
        WhyEntitiesResult WhyEntityByEntityID_V2Result
        WhyEntityByEntityIDResult WhyEntityByRecordID_V2Result
        WhyEntityByRecordIDResult WhyRecords_V2Result WhyRecordsResult
  end.
Definition set_isTrace (t : bool) (client : G2engine) : G2engine :=
  set_control t (logger client) (observers client) client.
Definition set_logger (l : option Lg) (client : G2engine) : G2engine :=
  set_control (isTrace client) l (observers client) client.
Definition set_observers (o : option Reg) (client : G2engine) : G2engine :=
  set_control (isTrace client) (logger client) o client.

Local Abbreviation M := (M Reg G2engine).

(** Get the Logger singleton. *)
Definition getLogger : M Lg :=
  client <- get;;
  match logger client with
  | None =>
      let l :=
        messagelogger.NewSenzingApiLogger ProductId messagelogger.LevelInfo in
      put (set_logger (Some l) client);;
      ret l
  | Some l => ret l
  end.

(** Notify registered observers. *)
Definition notify (messageId : Z) (err : error)
    (details : gmap string string) : M unit :=
  now <- clock;;
  let details := <["subjectId" := strconv.Itoa ProductId]> details in
  let details := <["messageId" := strconv.Itoa messageId]> details in
  let details :=
    <["messageTime" := strconv.FormatInt (UnixNano now) 10]> details in
  let details :=
    match err with
    | Some text => <["error" := text]> details
    | None => details
    end in
  let r := json.Marshal details in
  match r.2 with
  | Some text => emit (Printf ("Error: " +:+ text))
  | None =>
      client <- get;;
      match observers client with
      | Some registry => emit (NotifyObservers registry r.1)
      | None => panic
      end
  end.

(** Trace method entry. *)
Definition traceEntry (errorNumber : Z) (details : list Value) : M unit :=
  getLogger;; emit (Log errorNumber details).

(** Trace method exit. *)
Definition traceExit (errorNumber : Z) (details : list Value) : M unit :=
  getLogger;; emit (Log errorNumber details).

(** [if client.isTrace { ... }] and [if client.observers != nil { ... }]. *)
Definition if_isTrace (m : M unit) : M unit :=
  client <- get;; if isTrace client then m else skip.
Definition if_observers (m : M unit) : M unit :=
  client <- get;; if observers client is Some _ then m else skip.

(** A method call on [client.observers]: the interface value may be nil. *)
Definition on_observers {A} (f : Reg → M A) : M A :=
  client <- get;;
  match observers client with
  | Some registry => f registry
  | None => panic
  end.

(** [client.observers = ...]: the assignment, recorded where it is made.
    The methods of the registry change the registry in place, through the
    field: the model stores the new state of the registry in the field and
    records the call, [RegistryRegister] or [RegistryUnregister], not an
    assignment. *)
Definition assign_observers (o : option Reg) : M unit :=
  client <- get;;
  put (set_observers o client);;
  emit (AssignObservers o).

(** [if client.isTrace { defer client.traceExit(...) }] followed by
    [return ...]: the arguments of the deferred call are read at the [defer],
    the results at the [return], and the deferred call runs on the way
    out. *)
Definition return_ {R} (exit : Z) (exitArgs : G2engine → Z → list Value)
    (result : G2engine → R) : M R :=
  client <- get;;
  if isTrace client then
    now <- clock;;
    let details := exitArgs client (Since now) in
    let r := result client in
    traceExit exit details;;
    ret r
  else ret (result client).

(** The body every method but [RegisterObserver], [SetLogLevel] and
    [UnregisterObserver] is written out with: trace entry when tracing,
    [var err error = nil], the goroutine that notifies when a registry is
    present, the deferred trace exit when tracing, the return. *)
Definition method {R} (entry : Z) (entryArgs : list Value) (messageId : Z)
    (details : G2engine → gmap string string) (exit : Z)
    (exitArgs : G2engine → error → Z → list Value)
    (result : G2engine → error → R) : M R :=
  if_isTrace (traceEntry entry entryArgs);;
  let err : error := None in
  if_observers (emit (Go messageId err details));;
  return_ exit (λ client, exitArgs client err)
    (λ client, result client err).

Definition AddRecord (dataSourceCode recordID jsonData loadID : string)
    : M error :=
  method 1 [VString dataSourceCode; VString recordID; VString jsonData;
              VString loadID]
    8001 (λ client, {[ "dataSourceCode" := dataSourceCode;
                        "recordID" := recordID; "loadID" := loadID ]})
    2 (λ client err since,
         [VString dataSourceCode; VString recordID; VString jsonData;
          VString loadID; VError err; VDuration since])
    (λ client err, err).

Definition AddRecordWithInfo
    (dataSourceCode recordID jsonData loadID : string) (flags : Z)
    : M (string * error) :=
  method 3 [VString dataSourceCode; VString recordID; VString jsonData;
              VString loadID; VInt64 flags]
    8002 (λ client, {[ "dataSourceCode" := dataSourceCode;
                        "recordID" := recordID; "loadID" := loadID ]})
    4 (λ client err since,
         [VString dataSourceCode; VString recordID; VString jsonData;
          VString loadID; VInt64 flags;
          VString (AddRecordWithInfoResult client); VError err;
          VDuration since])
    (λ client err, (AddRecordWithInfoResult client, err)).

Definition AddRecordWithInfoWithReturnedRecordID
    (dataSourceCode jsonData loadID : string) (flags : Z)
    : M (string * string * error) :=
  method 5 [VString dataSourceCode; VString jsonData; VString loadID;
              VInt64 flags]
    8003 (λ client,
         {[ "dataSourceCode" := dataSourceCode;
            "recordID" :=
              AddRecordWithInfoWithReturnedRecordIDResultRecordID client;
            "loadID" := loadID ]})
    6 (λ client err since,
         [VString dataSourceCode; VString jsonData; VString loadID;
          VInt64 flags;
          VString (AddRecordWithInfoWithReturnedRecordIDResultGetWithInfo client);
          VString (AddRecordWithInfoWithReturnedRecordIDResultRecordID client);
          VError err; VDuration since])
    (λ client err,
       (AddRecordWithInfoWithReturnedRecordIDResultGetWithInfo client,
        AddRecordWithInfoWithReturnedRecordIDResultRecordID client, err)).

Definition AddRecordWithReturnedRecordID
    (dataSourceCode jsonData loadID : string)
    : M (string * error) :=
  method 7 [VString dataSourceCode; VString jsonData; VString loadID]
    8004 (λ client,
         {[ "dataSourceCode" := dataSourceCode;
            "recordID" := AddRecordWithReturnedRecordIDResult client;
            "loadID" := loadID ]})
    8 (λ client err since,
         [VString dataSourceCode; VString jsonData; VString loadID;
          VString (AddRecordWithReturnedRecordIDResult client); VError err;
          VDuration since])
    (λ client err, (AddRecordWithReturnedRecordIDResult client, err)).

Definition CheckRecord (record recordQueryList : string)
    : M (string * error) :=
  method 9 [VString record; VString recordQueryList]
    8005 (λ client, ∅)
    10 (λ client err since,
         [VString record; VString recordQueryList;
          VString (CheckRecordResult client); VError err; VDuration since])
    (λ client err, (CheckRecordResult client, err)).

Definition CloseExport (responseHandle : Z) : M error :=
  method 13 [VUintptr responseHandle]
    8006 (λ client, ∅)
    14 (λ client err since,
         [VUintptr responseHandle; VError err; VDuration since])
    (λ client err, err).

Definition CountRedoRecords : M (Z * error) :=
  method 15 []
    8007 (λ client, ∅)
    16 (λ client err since,
         [VInt64 (CountRedoRecordsResult client); VError err;
          VDuration since])
    (λ client err, (CountRedoRecordsResult client, err)).

Definition DeleteRecord (dataSourceCode recordID loadID : string) : M error :=
  method 17 [VString dataSourceCode; VString recordID; VString loadID]
    8008 (λ client, {[ "dataSourceCode" := dataSourceCode;
                        "recordID" := recordID; "loadID" := loadID ]})
    18 (λ client err since,
         [VString dataSourceCode; VString recordID; VString loadID;
          VError err; VDuration since])
    (λ client err, err).

Definition DeleteRecordWithInfo (dataSourceCode recordID loadID : string)
    (flags : Z)
    : M (string * error) :=
  method 19 [VString dataSourceCode; VString recordID; VString loadID;
               VInt64 flags]
    8009 (λ client, {[ "dataSourceCode" := dataSourceCode;
                        "recordID" := recordID; "loadID" := loadID ]})
    20 (λ client err since,
         [VString dataSourceCode; VString recordID; VString loadID;
          VInt64 flags; VString (DeleteRecordWithInfoResult client);
          VError err; VDuration since])
    (λ client err, (DeleteRecordWithInfoResult client, err)).

Definition Destroy : M error :=
  method 21 []
    8010 (λ client, ∅)
    22 (λ client err since,
         [VError err; VDuration since])
    (λ client err, err).

Definition ExportConfig : M (string * error) :=
  method 25 []
    8011 (λ client, ∅)
    26 (λ client err since,
         [VString (ExportConfigResult client); VError err; VDuration since])
    (λ client err, (ExportConfigResult client, err)).

Definition ExportConfigAndConfigID : M (string * Z * error) :=
  method 23 []
    8012 (λ client,
         {[ "configID" :=
              strconv.FormatInt (ExportConfigAndConfigIDResultConfigID client) 10 ]})
    24 (λ client err since,
         [VString (ExportConfigAndConfigIDResultConfig client);
          VInt64 (ExportConfigAndConfigIDResultConfigID client); VError err;
          VDuration since])
    (λ client err,
       (ExportConfigAndConfigIDResultConfig client,
        ExportConfigAndConfigIDResultConfigID client, err)).

Definition ExportCSVEntityReport (csvColumnList : string) (flags : Z)
    : M (Z * error) :=
  method 27 [VString csvColumnList; VInt64 flags]
    8013 (λ client, ∅)
    28 (λ client err since,
         [VString csvColumnList; VInt64 flags;
          VUintptr (ExportCSVEntityReportResult client); VError err;
          VDuration since])
    (λ client err, (ExportCSVEntityReportResult client, err)).

Definition ExportJSONEntityReport (flags : Z) : M (Z * error) :=
  method 29 [VInt64 flags]
    8014 (λ client, ∅)
    30 (λ client err since,
         [VInt64 flags; VUintptr (ExportJSONEntityReportResult client);
          VError err; VDuration since])
    (λ client err, (ExportJSONEntityReportResult client, err)).

Definition FetchNext (responseHandle : Z) : M (string * error) :=
  method 31 [VUintptr responseHandle]
    8015 (λ client, ∅)
    32 (λ client err since,
         [VUintptr responseHandle; VString (FetchNextResult client);
          VError err; VDuration since])
    (λ client err, (FetchNextResult client, err)).

Definition FindInterestingEntitiesByEntityID (entityID flags : Z)
    : M (string * error) :=
  method 33 [VInt64 entityID; VInt64 flags]
    8016 (λ client, {[ "entityID" := strconv.FormatInt entityID 10 ]})
    34 (λ client err since,
         [VInt64 entityID; VInt64 flags;
          VString (FindInterestingEntitiesByEntityIDResult client);
          VError err; VDuration since])
    (λ client err, (FindInterestingEntitiesByEntityIDResult client, err)).

Definition FindInterestingEntitiesByRecordID
    (dataSourceCode recordID : string) (flags : Z)
    : M (string * error) :=
  method 35 [VString dataSourceCode; VString recordID; VInt64 flags]
    8017 (λ client, {[ "dataSourceCode" := dataSourceCode;
                        "recordID" := recordID ]})
    36 (λ client err since,
         [VString dataSourceCode; VString recordID; VInt64 flags;
          VString (FindInterestingEntitiesByRecordIDResult client);
          VError err; VDuration since])
    (λ client err, (FindInterestingEntitiesByRecordIDResult client, err)).

Definition FindNetworkByEntityID (entityList : string)
    (maxDegree buildOutDegree maxEntities : Z)
    : M (string * error) :=
  method 37 [VString entityList; VInt maxDegree; VInt buildOutDegree;
               VInt maxDegree]
    8018 (λ client, {[ "entityList" := entityList ]})
    38 (λ client err since,
         [VString entityList; VInt maxDegree; VInt buildOutDegree;
          VInt maxDegree; VString (FindNetworkByEntityIDResult client);
          VError err; VDuration since])
    (λ client err, (FindNetworkByEntityIDResult client, err)).

Definition FindNetworkByEntityID_V2 (entityList : string)
    (maxDegree buildOutDegree maxEntities flags : Z)
    : M (string * error) :=
  method 39 [VString entityList; VInt maxDegree; VInt buildOutDegree;
               VInt maxDegree; VInt64 flags]
    8019 (λ client, {[ "entityList" := entityList ]})
    40 (λ client err since,
         [VString entityList; VInt maxDegree; VInt buildOutDegree;
          VInt maxDegree; VInt64 flags;
          VString (FindNetworkByEntityID_V2Result client); VError err;
          VDuration since])
    (λ client err, (FindNetworkByEntityID_V2Result client, err)).

Definition FindNetworkByRecordID (recordList : string)
    (maxDegree buildOutDegree maxEntities : Z)
    : M (string * error) :=
  method 41 [VString recordList; VInt maxDegree; VInt buildOutDegree;
               VInt maxDegree]
    8020 (λ client, {[ "recordList" := recordList ]})
    42 (λ client err since,
         [VString recordList; VInt maxDegree; VInt buildOutDegree;
          VInt maxDegree; VString (FindNetworkByRecordIDResult client);
          VError err; VDuration since])
    (λ client err, (FindNetworkByRecordIDResult client, err)).

Definition FindNetworkByRecordID_V2 (recordList : string)
    (maxDegree buildOutDegree maxEntities flags : Z)
    : M (string * error) :=
  method 43 [VString recordList; VInt maxDegree; VInt buildOutDegree;
               VInt maxDegree; VInt64 flags]
    8021 (λ client, {[ "recordList" := recordList ]})
    44 (λ client err since,
         [VString recordList; VInt maxDegree; VInt buildOutDegree;
          VInt maxDegree; VInt64 flags;
          VString (FindNetworkByRecordID_V2Result client); VError err;
          VDuration since])
    (λ client err, (FindNetworkByRecordID_V2Result client, err)).

Definition FindPathByEntityID (entityID1 entityID2 maxDegree : Z)
    : M (string * error) :=
  method 45 [VInt64 entityID1; VInt64 entityID2; VInt maxDegree]
    8022 (λ client, {[ "entityID1" := strconv.FormatInt entityID1 10;
                        "entityID2" := strconv.FormatInt entityID2 10 ]})
    46 (λ client err since,
         [VInt64 entityID1; VInt64 entityID2; VInt maxDegree;
          VString (FindPathByEntityIDResult client); VError err;
          VDuration since])
    (λ client err, (FindPathByEntityIDResult client, err)).

Definition FindPathByEntityID_V2 (entityID1 entityID2 maxDegree flags : Z)
    : M (string * error) :=
  method 47 [VInt64 entityID1; VInt64 entityID2; VInt maxDegree; VInt64 flags]
    8023 (λ client, {[ "entityID1" := strconv.FormatInt entityID1 10;
                        "entityID2" := strconv.FormatInt entityID2 10 ]})
    48 (λ client err since,
         [VInt64 entityID1; VInt64 entityID2; VInt maxDegree; VInt64 flags;
          VString (FindPathByEntityID_V2Result client); VError err;
          VDuration since])
    (λ client err, (FindPathByEntityID_V2Result client, err)).

Definition FindPathByRecordID
    (dataSourceCode1 recordID1 dataSourceCode2 recordID2 : string)
    (maxDegree : Z)
    : M (string * error) :=
  method 49 [VString dataSourceCode1; VString recordID1;
               VString dataSourceCode2; VString recordID2; VInt maxDegree]
    8024 (λ client, {[ "dataSourceCode1" := dataSourceCode1;
                        "recordID1" := recordID1;
                        "dataSourceCode2" := dataSourceCode2;
                        "recordID2" := recordID2 ]})
    50 (λ client err since,
         [VString dataSourceCode1; VString recordID1; VString dataSourceCode2;
          VString recordID2; VInt maxDegree;
          VString (FindPathByRecordIDResult client); VError err;
          VDuration since])
    (λ client err, (FindPathByRecordIDResult client, err)).

Definition FindPathByRecordID_V2
    (dataSourceCode1 recordID1 dataSourceCode2 recordID2 : string)
    (maxDegree flags : Z)
    : M (string * error) :=
  method 51 [VString dataSourceCode1; VString recordID1;
               VString dataSourceCode2; VString recordID2; VInt maxDegree;
               VInt64 flags]
    8025 (λ client, {[ "dataSourceCode1" := dataSourceCode1;
                        "recordID1" := recordID1;
                        "dataSourceCode2" := dataSourceCode2;
                        "recordID2" := recordID2 ]})
    52 (λ client err since,
         [VString dataSourceCode1; VString recordID1; VString dataSourceCode2;
          VString recordID2; VInt maxDegree; VInt64 flags;
          VString (FindPathByRecordID_V2Result client); VError err;
          VDuration since])
    (λ client err, (FindPathByRecordID_V2Result client, err)).

Definition FindPathExcludingByEntityID (entityID1 entityID2 maxDegree : Z)
    (excludedEntities : string)
    : M (string * error) :=
  method 53 [VInt64 entityID1; VInt64 entityID2; VInt maxDegree;
               VString excludedEntities]
    8026 (λ client, {[ "entityID1" := strconv.FormatInt entityID1 10;
                        "entityID2" := strconv.FormatInt entityID2 10 ]})
    54 (λ client err since,
         [VInt64 entityID1; VInt64 entityID2; VInt maxDegree;
          VString excludedEntities;
          VString (FindPathExcludingByEntityIDResult client); VError err;
          VDuration since])
    (λ client err, (FindPathExcludingByEntityIDResult client, err)).

Definition FindPathExcludingByEntityID_V2 (entityID1 entityID2 maxDegree : Z)
    (excludedEntities : string) (flags : Z)
    : M (string * error) :=
  method 55 [VInt64 entityID1; VInt64 entityID2; VInt maxDegree;
               VString excludedEntities; VInt64 flags]
    8027 (λ client, {[ "entityID1" := strconv.FormatInt entityID1 10;
                        "entityID2" := strconv.FormatInt entityID2 10 ]})
    56 (λ client err since,
         [VInt64 entityID1; VInt64 entityID2; VInt maxDegree;
          VString excludedEntities; VInt64 flags;
          VString (FindPathExcludingByEntityID_V2Result client); VError err;
          VDuration since])
    (λ client err, (FindPathExcludingByEntityID_V2Result client, err)).

Definition FindPathExcludingByRecordID
    (dataSourceCode1 recordID1 dataSourceCode2 recordID2 : string)
    (maxDegree : Z) (excludedRecords : string)
    : M (string * error) :=
  method 57 [VString dataSourceCode1; VString recordID1;
               VString dataSourceCode2; VString recordID2; VInt maxDegree;
               VString excludedRecords]
    8028 (λ client, {[ "dataSourceCode1" := dataSourceCode1;
                        "recordID1" := recordID1;
                        "dataSourceCode2" := dataSourceCode2;
                        "recordID2" := recordID2 ]})
    58 (λ client err since,
         [VString dataSourceCode1; VString recordID1; VString dataSourceCode2;
          VString recordID2; VInt maxDegree; VString excludedRecords;
          VString (FindPathExcludingByRecordIDResult client); VError err;
          VDuration since])
    (λ client err, (FindPathExcludingByRecordIDResult client, err)).

Definition FindPathExcludingByRecordID_V2
    (dataSourceCode1 recordID1 dataSourceCode2 recordID2 : string)
    (maxDegree : Z) (excludedRecords : string) (flags : Z)
    : M (string * error) :=
  method 59 [VString dataSourceCode1; VString recordID1;
               VString dataSourceCode2; VString recordID2; VInt maxDegree;
               VString excludedRecords; VInt64 flags]
    8029 (λ client, {[ "dataSourceCode1" := dataSourceCode1;
                        "recordID1" := recordID1;
                        "dataSourceCode2" := dataSourceCode2;
                        "recordID2" := recordID2 ]})
    60 (λ client err since,
         [VString dataSourceCode1; VString recordID1; VString dataSourceCode2;
          VString recordID2; VInt maxDegree; VString excludedRecords;
          VInt64 flags; VString (FindPathExcludingByRecordID_V2Result client);
          VError err; VDuration since])
    (λ client err, (FindPathExcludingByRecordID_V2Result client, err)).

Definition FindPathIncludingSourceByEntityID
    (entityID1 entityID2 maxDegree : Z)
    (excludedEntities requiredDsrcs : string)
    : M (string * error) :=
  method 61 [VInt64 entityID1; VInt64 entityID2; VInt maxDegree;
               VString excludedEntities; VString requiredDsrcs]
    8030 (λ client, {[ "entityID1" := strconv.FormatInt entityID1 10;
                        "entityID2" := strconv.FormatInt entityID2 10 ]})
    62 (λ client err since,
         [VInt64 entityID1; VInt64 entityID2; VInt maxDegree;
          VString excludedEntities; VString requiredDsrcs;
          VString (FindPathIncludingSourceByEntityIDResult client);
          VError err; VDuration since])
    (λ client err, (FindPathIncludingSourceByEntityIDResult client, err)).

Definition FindPathIncludingSourceByEntityID_V2
    (entityID1 entityID2 maxDegree : Z)
    (excludedEntities requiredDsrcs : string) (flags : Z)
    : M (string * error) :=
  method 63 [VInt64 entityID1; VInt64 entityID2; VInt maxDegree;
               VString excludedEntities; VString requiredDsrcs; VInt64 flags]
    8031 (λ client, {[ "entityID1" := strconv.FormatInt entityID1 10;
                        "entityID2" := strconv.FormatInt entityID2 10 ]})
    64 (λ client err since,
         [VInt64 entityID1; VInt64 entityID2; VInt maxDegree;
          VString excludedEntities; VString requiredDsrcs; VInt64 flags;
          VString (FindPathIncludingSourceByEntityID_V2Result client);
          VError err; VDuration since])
    (λ client err, (FindPathIncludingSourceByEntityID_V2Result client, err)).

Definition FindPathIncludingSourceByRecordID
    (dataSourceCode1 recordID1 dataSourceCode2 recordID2 : string)
    (maxDegree : Z) (excludedRecords requiredDsrcs : string)
    : M (string * error) :=
  method 65 [VString dataSourceCode1; VString recordID1;
               VString dataSourceCode2; VString recordID2; VInt maxDegree;
               VString excludedRecords; VString requiredDsrcs]
    8032 (λ client, {[ "dataSourceCode1" := dataSourceCode1;
                        "recordID1" := recordID1;
                        "dataSourceCode2" := dataSourceCode2;
                        "recordID2" := recordID2 ]})
    66 (λ client err since,
         [VString dataSourceCode1; VString recordID1; VString dataSourceCode2;
          VString recordID2; VInt maxDegree; VString excludedRecords;
          VString requiredDsrcs;
          VString (FindPathIncludingSourceByRecordIDResult client);
          VError err; VDuration since])
    (λ client err, (FindPathIncludingSourceByRecordIDResult client, err)).

Definition FindPathIncludingSourceByRecordID_V2
    (dataSourceCode1 recordID1 dataSourceCode2 recordID2 : string)
    (maxDegree : Z) (excludedRecords requiredDsrcs : string) (flags : Z)
    : M (string * error) :=
  method 67 [VString dataSourceCode1; VString recordID1;
               VString dataSourceCode2; VString recordID2; VInt maxDegree;
               VString excludedRecords; VString requiredDsrcs; VInt64 flags]
    8033 (λ client, {[ "dataSourceCode1" := dataSourceCode1;
                        "recordID1" := recordID1;
                        "dataSourceCode2" := dataSourceCode2;
                        "recordID2" := recordID2 ]})
    68 (λ client err since,
         [VString dataSourceCode1; VString recordID1; VString dataSourceCode2;
          VString recordID2; VInt maxDegree; VString excludedRecords;
          VString requiredDsrcs; VInt64 flags;
          VString (FindPathIncludingSourceByRecordID_V2Result client);
          VError err; VDuration since])
    (λ client err, (FindPathIncludingSourceByRecordID_V2Result client, err)).

Definition GetActiveConfigID : M (Z * error) :=
  method 69 []
    8034 (λ client, ∅)
    70 (λ client err since,
         [VInt64 (GetActiveConfigIDResult client); VError err;
          VDuration since])
    (λ client err, (GetActiveConfigIDResult client, err)).

Definition GetEntityByEntityID (entityID : Z) : M (string * error) :=
  method 71 [VInt64 entityID]
    8035 (λ client, {[ "entityID" := strconv.FormatInt entityID 10 ]})
    72 (λ client err since,
         [VInt64 entityID; VString (GetEntityByEntityIDResult client);
          VError err; VDuration since])
    (λ client err, (GetEntityByEntityIDResult client, err)).

Definition GetEntityByEntityID_V2 (entityID flags : Z) : M (string * error) :=
  method 73 [VInt64 entityID; VInt64 flags]
    8036 (λ client, {[ "entityID" := strconv.FormatInt entityID 10 ]})
    74 (λ client err since,
         [VInt64 entityID; VInt64 flags;
          VString (GetEntityByEntityID_V2Result client); VError err;
          VDuration since])
    (λ client err, (GetEntityByEntityID_V2Result client, err)).

Definition GetEntityByRecordID (dataSourceCode recordID : string)
    : M (string * error) :=
  method 75 [VString dataSourceCode; VString recordID]
    8037 (λ client, {[ "dataSourceCode" := dataSourceCode;
                        "recordID" := recordID ]})
    76 (λ client err since,
         [VString dataSourceCode; VString recordID;
          VString (GetEntityByRecordIDResult client); VError err;
          VDuration since])
    (λ client err, (GetEntityByRecordIDResult client, err)).

Definition GetEntityByRecordID_V2 (dataSourceCode recordID : string)
    (flags : Z)
    : M (string * error) :=
  method 77 [VString dataSourceCode; VString recordID; VInt64 flags]
    8038 (λ client, {[ "dataSourceCode" := dataSourceCode;
                        "recordID" := recordID ]})
    78 (λ client err since,
         [VString dataSourceCode; VString recordID; VInt64 flags;
          VString (GetEntityByRecordID_V2Result client); VError err;
          VDuration since])
    (λ client err, (GetEntityByRecordID_V2Result client, err)).

Definition GetRecord (dataSourceCode recordID : string)
    : M (string * error) :=
  method 83 [VString dataSourceCode; VString recordID]
    8039 (λ client, {[ "dataSourceCode" := dataSourceCode;
                        "recordID" := recordID ]})
    84 (λ client err since,
         [VString dataSourceCode; VString recordID;
          VString (GetRecordResult client); VError err; VDuration since])
    (λ client err, (GetRecordResult client, err)).

Definition GetRecord_V2 (dataSourceCode recordID : string) (flags : Z)
    : M (string * error) :=
  method 85 [VString dataSourceCode; VString recordID; VInt64 flags]
    8040 (λ client, {[ "dataSourceCode" := dataSourceCode;
                        "recordID" := recordID ]})
    86 (λ client err since,
         [VString dataSourceCode; VString recordID; VInt64 flags;
          VString (GetRecord_V2Result client); VError err; VDuration since])
    (λ client err, (GetRecord_V2Result client, err)).

Definition GetRedoRecord : M (string * error) :=
  method 87 []
    8041 (λ client, ∅)
    88 (λ client err since,
         [VString (GetRedoRecordResult client); VError err; VDuration since])
    (λ client err, (GetRedoRecordResult client, err)).

Definition GetRepositoryLastModifiedTime : M (Z * error) :=
  method 89 []
    8042 (λ client, ∅)
    90 (λ client err since,
         [VInt64 (GetRepositoryLastModifiedTimeResult client); VError err;
          VDuration since])
    (λ client err, (GetRepositoryLastModifiedTimeResult client, err)).

Definition GetSdkId : M string :=
  method 161 []
    8075 (λ client, ∅)
    162 (λ client err since,
         [VError err; VDuration since])
    (λ client err, "mock").

Definition GetVirtualEntityByRecordID (recordList : string)
    : M (string * error) :=
  method 91 [VString recordList]
    8043 (λ client, {[ "recordList" := recordList ]})
    92 (λ client err since,
         [VString recordList;
          VString (GetVirtualEntityByRecordIDResult client); VError err;
          VDuration since])
    (λ client err, (GetVirtualEntityByRecordIDResult client, err)).

Definition GetVirtualEntityByRecordID_V2 (recordList : string) (flags : Z)
    : M (string * error) :=
  method 93 [VString recordList; VInt64 flags]
    8044 (λ client, {[ "recordList" := recordList ]})
    94 (λ client err since,
         [VString recordList; VInt64 flags;
          VString (GetVirtualEntityByRecordID_V2Result client); VError err;
          VDuration since])
    (λ client err, (GetVirtualEntityByRecordID_V2Result client, err)).

Definition HowEntityByEntityID (entityID : Z) : M (string * error) :=
  method 95 [VInt64 entityID]
    8045 (λ client, {[ "entityID" := strconv.FormatInt entityID 10 ]})
    96 (λ client err since,
         [VInt64 entityID; VString (HowEntityByEntityIDResult client);
          VError err; VDuration since])
    (λ client err, (HowEntityByEntityIDResult client, err)).

Definition HowEntityByEntityID_V2 (entityID flags : Z) : M (string * error) :=
  method 97 [VInt64 entityID; VInt64 flags]
    8046 (λ client, {[ "entityID" := strconv.FormatInt entityID 10 ]})
    98 (λ client err since,
         [VInt64 entityID; VInt64 flags;
          VString (HowEntityByEntityID_V2Result client); VError err;
          VDuration since])
    (λ client err, (HowEntityByEntityID_V2Result client, err)).

Definition Init (moduleName iniParams : string) (verboseLogging : Z)
    : M error :=
  method 99 [VString moduleName; VString iniParams; VInt verboseLogging]
    8047 (λ client, {[ "iniParams" := iniParams; "moduleName" := moduleName;
                        "verboseLogging" := strconv.Itoa verboseLogging ]})
    100 (λ client err since,
         [VString moduleName; VString iniParams; VInt verboseLogging;
          VError err; VDuration since])
    (λ client err, err).

Definition InitWithConfigID (moduleName iniParams : string)
    (initConfigID verboseLogging : Z)
    : M error :=
  method 101 [VString moduleName; VString iniParams; VInt64 initConfigID;
                VInt verboseLogging]
    8048 (λ client, {[ "iniParams" := iniParams;
                        "initConfigID" := strconv.FormatInt initConfigID 10;
                        "moduleName" := moduleName;
                        "verboseLogging" := strconv.Itoa verboseLogging ]})
    102 (λ client err since,
         [VString moduleName; VString iniParams; VInt64 initConfigID;
          VInt verboseLogging; VError err; VDuration since])
    (λ client err, err).

Definition PrimeEngine : M error :=
  method 103 []
    8049 (λ client, ∅)
    104 (λ client err since,
         [VError err; VDuration since])
    (λ client err, err).

Definition Process (record : string) : M error :=
  method 105 [VString record]
    8050 (λ client, ∅)
    106 (λ client err since,
         [VString record; VError err; VDuration since])
    (λ client err, err).

Definition ProcessRedoRecord : M (string * error) :=
  method 107 []
    8051 (λ client, ∅)
    108 (λ client err since,
         [VString (ProcessRedoRecordResult client); VError err;
          VDuration since])
    (λ client err, (ProcessRedoRecordResult client, err)).

Definition ProcessRedoRecordWithInfo (flags : Z)
    : M (string * string * error) :=
  method 109 [VInt64 flags]
    8052 (λ client, ∅)
    110 (λ client err since,
         [VInt64 flags; VString (ProcessRedoRecordWithInfoResult client);
          VString (ProcessRedoRecordWithInfoResultWithInfo client);
          VError err; VDuration since])
    (λ client err,
       (ProcessRedoRecordWithInfoResult client,
        ProcessRedoRecordWithInfoResultWithInfo client, err)).

Definition ProcessWithInfo (record : string) (flags : Z)
    : M (string * error) :=
  method 111 [VString record; VInt64 flags]
    8053 (λ client, ∅)
    112 (λ client err since,
         [VString record; VInt64 flags;
          VString (ProcessWithInfoResult client); VError err;
          VDuration since])
    (λ client err, (ProcessWithInfoResult client, err)).

Definition ProcessWithResponse (record : string) : M (string * error) :=
  method 113 [VString record]
    8054 (λ client, ∅)
    114 (λ client err since,
         [VString record; VString (ProcessWithResponseResult client);
          VError err; VDuration since])
    (λ client err, (ProcessWithResponseResult client, err)).

Definition ProcessWithResponseResize (record : string) : M (string * error) :=
  method 115 [VString record]
    8055 (λ client, ∅)
    116 (λ client err since,
         [VString record; VString (ProcessWithResponseResizeResult client);
          VError err; VDuration since])
    (λ client err, (ProcessWithResponseResizeResult client, err)).

Definition PurgeRepository : M error :=
  method 117 []
    8056 (λ client, ∅)
    118 (λ client err since,
         [VError err; VDuration since])
    (λ client err, err).

Definition ReevaluateEntity (entityID flags : Z) : M error :=
  method 119 [VInt64 entityID; VInt64 flags]
    8057 (λ client, {[ "entityID" := strconv.FormatInt entityID 10 ]})
    120 (λ client err since,
         [VInt64 entityID; VInt64 flags; VError err; VDuration since])
    (λ client err, err).

Definition ReevaluateEntityWithInfo (entityID flags : Z)
    : M (string * error) :=
  method 121 [VInt64 entityID; VInt64 flags]
    8058 (λ client, {[ "entityID" := strconv.FormatInt entityID 10 ]})
    122 (λ client err since,
         [VInt64 entityID; VInt64 flags;
          VString (ReevaluateEntityWithInfoResult client); VError err;
          VDuration since])
    (λ client err, (ReevaluateEntityWithInfoResult client, err)).

Definition ReevaluateRecord (dataSourceCode recordID : string) (flags : Z)
    : M error :=
  method 123 [VString dataSourceCode; VString recordID; VInt64 flags]
    8059 (λ client, {[ "dataSourceCode" := dataSourceCode;
                        "recordID" := recordID ]})
    124 (λ client err since,
         [VString dataSourceCode; VString recordID; VInt64 flags; VError err;
          VDuration since])
    (λ client err, err).

Definition ReevaluateRecordWithInfo (dataSourceCode recordID : string)
    (flags : Z)
    : M (string * error) :=
  method 125 [VString dataSourceCode; VString recordID; VInt64 flags]
    8060 (λ client, {[ "dataSourceCode" := dataSourceCode;
                        "recordID" := recordID ]})
    126 (λ client err since,
         [VString dataSourceCode; VString recordID; VInt64 flags;
          VString (ReevaluateRecordWithInfoResult client); VError err;
          VDuration since])
    (λ client err, (ReevaluateRecordWithInfoResult client, err)).

Definition RegisterObserver (observer : Observer) : M error :=
  if_isTrace (traceEntry 157 [VString (GetObserverId observer)]);;
  client <- get;;
  (if observers client is None
   then assign_observers (Some subject.SubjectImpl) else skip);;
  err <- on_observers (λ registry,
    emit (RegistryRegister registry observer);;
    let r := subject.RegisterObserver registry observer in
    client <- get;;
    put (set_observers (Some r.1) client);;
    ret r.2);;
  if_observers
    (emit (Go 8076 err
             (λ client, {[ "observerID" := GetObserverId observer ]})));;
  return_ 158
    (λ client since,
       [VString (GetObserverId observer); VError err; VDuration since])
    (λ client, err).

Definition Reinit (initConfigID : Z) : M error :=
  method 127 [VInt64 initConfigID]
    8061 (λ client, {[ "initConfigID" := strconv.FormatInt initConfigID 10 ]})
    128 (λ client err since,
         [VInt64 initConfigID; VError err; VDuration since])
    (λ client err, err).

Definition ReplaceRecord (dataSourceCode recordID jsonData loadID : string)
    : M error :=
  method 129 [VString dataSourceCode; VString recordID; VString jsonData;
                VString loadID]
    8062 (λ client, {[ "dataSourceCode" := dataSourceCode;
                        "recordID" := recordID; "loadID" := loadID ]})
    130 (λ client err since,
         [VString dataSourceCode; VString recordID; VString jsonData;
          VString loadID; VError err; VDuration since])
    (λ client err, err).

Definition ReplaceRecordWithInfo
    (dataSourceCode recordID jsonData loadID : string) (flags : Z)
    : M (string * error) :=
  method 131 [VString dataSourceCode; VString recordID; VString jsonData;
                VString loadID; VInt64 flags]
    8063 (λ client, {[ "dataSourceCode" := dataSourceCode;
                        "recordID" := recordID; "loadID" := loadID ]})
    132 (λ client err since,
         [VString dataSourceCode; VString recordID; VString jsonData;
          VString loadID; VInt64 flags;
          VString (ReplaceRecordWithInfoResult client); VError err;
          VDuration since])
    (λ client err, (ReplaceRecordWithInfoResult client, err)).

Definition SearchByAttributes (jsonData : string) : M (string * error) :=
  method 133 [VString jsonData]
    8064 (λ client, ∅)
    134 (λ client err since,
         [VString jsonData; VString (SearchByAttributesResult client);
          VError err; VDuration since])
    (λ client err, (SearchByAttributesResult client, err)).

Definition SearchByAttributes_V2 (jsonData : string) (flags : Z)
    : M (string * error) :=
  method 135 [VString jsonData; VInt64 flags]
    8065 (λ client, ∅)
    136 (λ client err since,
         [VString jsonData; VInt64 flags;
          VString (SearchByAttributes_V2Result client); VError err;
          VDuration since])
    (λ client err, (SearchByAttributes_V2Result client, err)).

Definition SetLogLevel (logLevel : Z) : M error :=
  if_isTrace (traceEntry 137 [VLevel logLevel]);;
  let err : error := None in
  l <- getLogger;;
  client <- get;;
  put (set_logger (Some (messagelogger.SetLogLevel l logLevel)) client);;
  l <- getLogger;;
  client <- get;;
  put (set_isTrace
         (bool_decide
            (messagelogger.GetLogLevel l = messagelogger.LevelTrace))
         client);;
  if_observers
    (emit (Go 8077 err (λ client,
       {[ "logLevel" := default "" (logger.LevelToTextMap !! logLevel) ]})));;
  return_ 138
    (λ client since,
       [VLevel logLevel; VError err; VDuration since])
    (λ client, err).

Definition Stats : M (string * error) :=
  method 139 []
    8066 (λ client, ∅)
    140 (λ client err since,
         [VString (StatsResult client); VError err; VDuration since])
    (λ client err, (StatsResult client, err)).

Definition UnregisterObserver (observer : Observer) : M error :=
  if_isTrace (traceEntry 159 [VString (GetObserverId observer)]);;
  let err : error := None in
  if_observers
    (notify 8078 err {[ "observerID" := GetObserverId observer ]});;
  err <- on_observers (λ registry,
    emit (RegistryUnregister registry observer);;
    let r := subject.UnregisterObserver registry observer in
    client <- get;;
    put (set_observers (Some r.1) client);;
    ret r.2);;
  has <- on_observers (λ registry, ret (subject.HasObservers registry));;
  (if has then skip else assign_observers None);;
  return_ 160
    (λ client since,
       [VString (GetObserverId observer); VError err; VDuration since])
    (λ client, err).

Definition WhyEntities (entityID1 entityID2 : Z) : M (string * error) :=
  method 141 [VInt64 entityID1; VInt64 entityID2]
    8067 (λ client, {[ "entityID1" := strconv.FormatInt entityID1 10;
                        "entityID2" := strconv.FormatInt entityID2 10 ]})
    142 (λ client err since,
         [VInt64 entityID1; VInt64 entityID2;
          VString (WhyEntitiesResult client); VError err; VDuration since])
    (λ client err, (WhyEntitiesResult client, err)).

Definition WhyEntities_V2 (entityID1 entityID2 flags : Z)
    : M (string * error) :=
  method 143 [VInt64 entityID1; VInt64 entityID2; VInt64 flags]
    8068 (λ client, {[ "entityID1" := strconv.FormatInt entityID1 10;
                        "entityID2" := strconv.FormatInt entityID2 10 ]})
    144 (λ client err since,
         [VInt64 entityID1; VInt64 entityID2; VInt64 flags;
          VString (WhyEntities_V2Result client); VError err; VDuration since])
    (λ client err, (WhyEntities_V2Result client, err)).

Definition WhyEntityByEntityID (entityID : Z) : M (string * error) :=
  method 145 [VInt64 entityID]
    8069 (λ client, {[ "entityID" := strconv.FormatInt entityID 10 ]})
    146 (λ client err since,
         [VInt64 entityID; VString (WhyEntityByEntityIDResult client);
          VError err; VDuration since])
    (λ client err, (WhyEntityByEntityIDResult client, err)).

Definition WhyEntityByEntityID_V2 (entityID flags : Z) : M (string * error) :=
  method 147 [VInt64 entityID; VInt64 flags]
    8070 (λ client, {[ "entityID" := strconv.FormatInt entityID 10 ]})
    148 (λ client err since,
         [VInt64 entityID; VInt64 flags;
          VString (WhyEntityByEntityID_V2Result client); VError err;
          VDuration since])
    (λ client err, (WhyEntityByEntityID_V2Result client, err)).

Definition WhyEntityByRecordID (dataSourceCode recordID : string)
    : M (string * error) :=
  method 149 [VString dataSourceCode; VString recordID]
    8071 (λ client, {[ "dataSourceCode" := dataSourceCode;
                        "recordID" := recordID ]})
    150 (λ client err since,
         [VString dataSourceCode; VString recordID;
          VString (WhyEntityByRecordIDResult client); VError err;
          VDuration since])
    (λ client err, (WhyEntityByRecordIDResult client, err)).

Definition WhyEntityByRecordID_V2 (dataSourceCode recordID : string)
    (flags : Z)
    : M (string * error) :=
  method 151 [VString dataSourceCode; VString recordID; VInt64 flags]
    8072 (λ client, {[ "dataSourceCode" := dataSourceCode;
                        "recordID" := recordID ]})
    152 (λ client err since,
         [VString dataSourceCode; VString recordID; VInt64 flags;
          VString (WhyEntityByRecordID_V2Result client); VError err;
          VDuration since])
    (λ client err, (WhyEntityByRecordID_V2Result client, err)).

Definition WhyRecords
    (dataSourceCode1 recordID1 dataSourceCode2 recordID2 : string)
    : M (string * error) :=
  method 153 [VString dataSourceCode1; VString recordID1;
                VString dataSourceCode2; VString recordID2]
    8073 (λ client, {[ "dataSourceCode1" := dataSourceCode1;
                        "recordID1" := recordID1;
                        "dataSourceCode2" := dataSourceCode2;
                        "recordID2" := recordID2 ]})
    154 (λ client err since,
         [VString dataSourceCode1; VString recordID1; VString dataSourceCode2;
          VString recordID2; VString (WhyRecordsResult client); VError err;
          VDuration since])
    (λ client err, (WhyRecordsResult client, err)).

Definition WhyRecords_V2
    (dataSourceCode1 recordID1 dataSourceCode2 recordID2 : string) (flags : Z)
    : M (string * error) :=
  method 155 [VString dataSourceCode1; VString recordID1;
                VString dataSourceCode2; VString recordID2; VInt64 flags]
    8074 (λ client, {[ "dataSourceCode1" := dataSourceCode1;
                        "recordID1" := recordID1;
                        "dataSourceCode2" := dataSourceCode2;
                        "recordID2" := recordID2 ]})
    156 (λ client err since,
         [VString dataSourceCode1; VString recordID1; VString dataSourceCode2;
          VString recordID2; VInt64 flags;
          VString (WhyRecords_V2Result client); VError err; VDuration since])
    (λ client err, (WhyRecords_V2Result client, err)).

(** A call of a method of the interface, with its arguments. *)
Inductive Call :=
| call_AddRecord (dataSourceCode recordID jsonData loadID : string)
| call_AddRecordWithInfo (dataSourceCode recordID jsonData loadID : string)
    (flags : Z)
| call_AddRecordWithInfoWithReturnedRecordID
    (dataSourceCode jsonData loadID : string) (flags : Z)
| call_AddRecordWithReturnedRecordID (dataSourceCode jsonData loadID : string)
| call_CheckRecord (record recordQueryList : string)
| call_CloseExport (responseHandle : Z)
| call_CountRedoRecords
| call_DeleteRecord (dataSourceCode recordID loadID : string)
| call_DeleteRecordWithInfo (dataSourceCode recordID loadID : string)
    (flags : Z)
| call_Destroy
| call_ExportConfig
| call_ExportConfigAndConfigID
| call_ExportCSVEntityReport (csvColumnList : string) (flags : Z)
| call_ExportJSONEntityReport (flags : Z)
| call_FetchNext (responseHandle : Z)
| call_FindInterestingEntitiesByEntityID (entityID flags : Z)
| call_FindInterestingEntitiesByRecordID (dataSourceCode recordID : string)
    (flags : Z)
| call_FindNetworkByEntityID (entityList : string)
    (maxDegree buildOutDegree maxEntities : Z)
| call_FindNetworkByEntityID_V2 (entityList : string)
    (maxDegree buildOutDegree maxEntities flags : Z)
| call_FindNetworkByRecordID (recordList : string)
    (maxDegree buildOutDegree maxEntities : Z)
| call_FindNetworkByRecordID_V2 (recordList : string)
    (maxDegree buildOutDegree maxEntities flags : Z)
| call_FindPathByEntityID (entityID1 entityID2 maxDegree : Z)
| call_FindPathByEntityID_V2 (entityID1 entityID2 maxDegree flags : Z)
| call_FindPathByRecordID
    (dataSourceCode1 recordID1 dataSourceCode2 recordID2 : string)
    (maxDegree : Z)
| call_FindPathByRecordID_V2
    (dataSourceCode1 recordID1 dataSourceCode2 recordID2 : string)
    (maxDegree flags : Z)
| call_FindPathExcludingByEntityID (entityID1 entityID2 maxDegree : Z)
    (excludedEntities : string)
| call_FindPathExcludingByEntityID_V2 (entityID1 entityID2 maxDegree : Z)
    (excludedEntities : string) (flags : Z)
| call_FindPathExcludingByRecordID
    (dataSourceCode1 recordID1 dataSourceCode2 recordID2 : string)
    (maxDegree : Z) (excludedRecords : string)
| call_FindPathExcludingByRecordID_V2
    (dataSourceCode1 recordID1 dataSourceCode2 recordID2 : string)
    (maxDegree : Z) (excludedRecords : string) (flags : Z)
| call_FindPathIncludingSourceByEntityID (entityID1 entityID2 maxDegree : Z)
    (excludedEntities requiredDsrcs : string)
| call_FindPathIncludingSourceByEntityID_V2
    (entityID1 entityID2 maxDegree : Z)
    (excludedEntities requiredDsrcs : string) (flags : Z)
| call_FindPathIncludingSourceByRecordID
    (dataSourceCode1 recordID1 dataSourceCode2 recordID2 : string)
    (maxDegree : Z) (excludedRecords requiredDsrcs : string)
| call_FindPathIncludingSourceByRecordID_V2
    (dataSourceCode1 recordID1 dataSourceCode2 recordID2 : string)
    (maxDegree : Z) (excludedRecords requiredDsrcs : string) (flags : Z)
| call_GetActiveConfigID
| call_GetEntityByEntityID (entityID : Z)
| call_GetEntityByEntityID_V2 (entityID flags : Z)
| call_GetEntityByRecordID (dataSourceCode recordID : string)
| call_GetEntityByRecordID_V2 (dataSourceCode recordID : string) (flags : Z)
| call_GetRecord (dataSourceCode recordID : string)
| call_GetRecord_V2 (dataSourceCode recordID : string) (flags : Z)
| call_GetRedoRecord
| call_GetRepositoryLastModifiedTime
| call_GetSdkId
| call_GetVirtualEntityByRecordID (recordList : string)
| call_GetVirtualEntityByRecordID_V2 (recordList : string) (flags : Z)
| call_HowEntityByEntityID (entityID : Z)
| call_HowEntityByEntityID_V2 (entityID flags : Z)
| call_Init (moduleName iniParams : string) (verboseLogging : Z)
| call_InitWithConfigID (moduleName iniParams : string)
    (initConfigID verboseLogging : Z)
| call_PrimeEngine
| call_Process (record : string)
| call_ProcessRedoRecord
| call_ProcessRedoRecordWithInfo (flags : Z)
| call_ProcessWithInfo (record : string) (flags : Z)
| call_ProcessWithResponse (record : string)
| call_ProcessWithResponseResize (record : string)
| call_PurgeRepository
| call_ReevaluateEntity (entityID flags : Z)
| call_ReevaluateEntityWithInfo (entityID flags : Z)
| call_ReevaluateRecord (dataSourceCode recordID : string) (flags : Z)
| call_ReevaluateRecordWithInfo (dataSourceCode recordID : string) (flags : Z)
| call_RegisterObserver (observer : Observer)
| call_Reinit (initConfigID : Z)
| call_ReplaceRecord (dataSourceCode recordID jsonData loadID : string)
| call_ReplaceRecordWithInfo
    (dataSourceCode recordID jsonData loadID : string) (flags : Z)
| call_SearchByAttributes (jsonData : string)
| call_SearchByAttributes_V2 (jsonData : string) (flags : Z)
| call_SetLogLevel (logLevel : Z)
| call_Stats
| call_UnregisterObserver (observer : Observer)
| call_WhyEntities (entityID1 entityID2 : Z)
| call_WhyEntities_V2 (entityID1 entityID2 flags : Z)
| call_WhyEntityByEntityID (entityID : Z)
| call_WhyEntityByEntityID_V2 (entityID flags : Z)
| call_WhyEntityByRecordID (dataSourceCode recordID : string)
| call_WhyEntityByRecordID_V2 (dataSourceCode recordID : string) (flags : Z)
| call_WhyRecords
    (dataSourceCode1 recordID1 dataSourceCode2 recordID2 : string)
| call_WhyRecords_V2
    (dataSourceCode1 recordID1 dataSourceCode2 recordID2 : string) (flags : Z).

Definition invoke (call : Call) : M Return :=
  match call with
  | call_AddRecord a b c d => fmap_ Ret_error (AddRecord a b c d)
  | call_AddRecordWithInfo a b c d e =>
      fmap_ (uncurry Ret_string_error) (AddRecordWithInfo a b c d e)
  | call_AddRecordWithInfoWithReturnedRecordID a b c d =>
      fmap_ (uncurry3 Ret_string_string_error)
        (AddRecordWithInfoWithReturnedRecordID a b c d)
  | call_AddRecordWithReturnedRecordID a b c =>
      fmap_ (uncurry Ret_string_error) (AddRecordWithReturnedRecordID a b c)
  | call_CheckRecord a b => fmap_ (uncurry Ret_string_error) (CheckRecord a b)
  | call_CloseExport a => fmap_ Ret_error (CloseExport a)
  | call_CountRedoRecords => fmap_ (uncurry Ret_int64_error) CountRedoRecords
  | call_DeleteRecord a b c => fmap_ Ret_error (DeleteRecord a b c)
  | call_DeleteRecordWithInfo a b c d =>
      fmap_ (uncurry Ret_string_error) (DeleteRecordWithInfo a b c d)
  | call_Destroy => fmap_ Ret_error Destroy
  | call_ExportConfig => fmap_ (uncurry Ret_string_error) ExportConfig
  | call_ExportConfigAndConfigID =>
      fmap_ (uncurry3 Ret_string_int64_error) ExportConfigAndConfigID
  | call_ExportCSVEntityReport a b =>
      fmap_ (uncurry Ret_uintptr_error) (ExportCSVEntityReport a b)
  | call_ExportJSONEntityReport a =>
      fmap_ (uncurry Ret_uintptr_error) (ExportJSONEntityReport a)
  | call_FetchNext a => fmap_ (uncurry Ret_string_error) (FetchNext a)
  | call_FindInterestingEntitiesByEntityID a b =>
      fmap_ (uncurry Ret_string_error) (FindInterestingEntitiesByEntityID a b)
  | call_FindInterestingEntitiesByRecordID a b c =>
      fmap_ (uncurry Ret_string_error)
        (FindInterestingEntitiesByRecordID a b c)
  | call_FindNetworkByEntityID a b c d =>
      fmap_ (uncurry Ret_string_error) (FindNetworkByEntityID a b c d)
  | call_FindNetworkByEntityID_V2 a b c d e =>
      fmap_ (uncurry Ret_string_error) (FindNetworkByEntityID_V2 a b c d e)
  | call_FindNetworkByRecordID a b c d =>
      fmap_ (uncurry Ret_string_error) (FindNetworkByRecordID a b c d)
  | call_FindNetworkByRecordID_V2 a b c d e =>
      fmap_ (uncurry Ret_string_error) (FindNetworkByRecordID_V2 a b c d e)
  | call_FindPathByEntityID a b c =>
      fmap_ (uncurry Ret_string_error) (FindPathByEntityID a b c)
  | call_FindPathByEntityID_V2 a b c d =>
      fmap_ (uncurry Ret_string_error) (FindPathByEntityID_V2 a b c d)
  | call_FindPathByRecordID a b c d e =>
      fmap_ (uncurry Ret_string_error) (FindPathByRecordID a b c d e)
  | call_FindPathByRecordID_V2 a b c d e f =>
      fmap_ (uncurry Ret_string_error) (FindPathByRecordID_V2 a b c d e f)
  | call_FindPathExcludingByEntityID a b c d =>
      fmap_ (uncurry Ret_string_error) (FindPathExcludingByEntityID a b c d)
  | call_FindPathExcludingByEntityID_V2 a b c d e =>
      fmap_ (uncurry Ret_string_error)
        (FindPathExcludingByEntityID_V2 a b c d e)
  | call_FindPathExcludingByRecordID a b c d e f =>
      fmap_ (uncurry Ret_string_error)
        (FindPathExcludingByRecordID a b c d e f)
  | call_FindPathExcludingByRecordID_V2 a b c d e f g =>
      fmap_ (uncurry Ret_string_error)
        (FindPathExcludingByRecordID_V2 a b c d e f g)
  | call_FindPathIncludingSourceByEntityID a b c d e =>
      fmap_ (uncurry Ret_string_error)
        (FindPathIncludingSourceByEntityID a b c d e)
  | call_FindPathIncludingSourceByEntityID_V2 a b c d e f =>
      fmap_ (uncurry Ret_string_error)
        (FindPathIncludingSourceByEntityID_V2 a b c d e f)
  | call_FindPathIncludingSourceByRecordID a b c d e f g =>
      fmap_ (uncurry Ret_string_error)
        (FindPathIncludingSourceByRecordID a b c d e f g)
  | call_FindPathIncludingSourceByRecordID_V2 a b c d e f g h =>
      fmap_ (uncurry Ret_string_error)
        (FindPathIncludingSourceByRecordID_V2 a b c d e f g h)
  | call_GetActiveConfigID =>
      fmap_ (uncurry Ret_int64_error) GetActiveConfigID
  | call_GetEntityByEntityID a =>
      fmap_ (uncurry Ret_string_error) (GetEntityByEntityID a)
  | call_GetEntityByEntityID_V2 a b =>
      fmap_ (uncurry Ret_string_error) (GetEntityByEntityID_V2 a b)
  | call_GetEntityByRecordID a b =>
      fmap_ (uncurry Ret_string_error) (GetEntityByRecordID a b)
  | call_GetEntityByRecordID_V2 a b c =>
      fmap_ (uncurry Ret_string_error) (GetEntityByRecordID_V2 a b c)
  | call_GetRecord a b => fmap_ (uncurry Ret_string_error) (GetRecord a b)
  | call_GetRecord_V2 a b c =>
      fmap_ (uncurry Ret_string_error) (GetRecord_V2 a b c)
  | call_GetRedoRecord => fmap_ (uncurry Ret_string_error) GetRedoRecord
  | call_GetRepositoryLastModifiedTime =>
      fmap_ (uncurry Ret_int64_error) GetRepositoryLastModifiedTime
  | call_GetSdkId => fmap_ Ret_string GetSdkId
  | call_GetVirtualEntityByRecordID a =>
      fmap_ (uncurry Ret_string_error) (GetVirtualEntityByRecordID a)
  | call_GetVirtualEntityByRecordID_V2 a b =>
      fmap_ (uncurry Ret_string_error) (GetVirtualEntityByRecordID_V2 a b)
  | call_HowEntityByEntityID a =>
      fmap_ (uncurry Ret_string_error) (HowEntityByEntityID a)
  | call_HowEntityByEntityID_V2 a b =>
      fmap_ (uncurry Ret_string_error) (HowEntityByEntityID_V2 a b)
  | call_Init a b c => fmap_ Ret_error (Init a b c)
  | call_InitWithConfigID a b c d =>
      fmap_ Ret_error (InitWithConfigID a b c d)
  | call_PrimeEngine => fmap_ Ret_error PrimeEngine
  | call_Process a => fmap_ Ret_error (Process a)
  | call_ProcessRedoRecord =>
      fmap_ (uncurry Ret_string_error) ProcessRedoRecord
  | call_ProcessRedoRecordWithInfo a =>
      fmap_ (uncurry3 Ret_string_string_error) (ProcessRedoRecordWithInfo a)
  | call_ProcessWithInfo a b =>
      fmap_ (uncurry Ret_string_error) (ProcessWithInfo a b)
  | call_ProcessWithResponse a =>
      fmap_ (uncurry Ret_string_error) (ProcessWithResponse a)
  | call_ProcessWithResponseResize a =>
      fmap_ (uncurry Ret_string_error) (ProcessWithResponseResize a)
  | call_PurgeRepository => fmap_ Ret_error PurgeRepository
  | call_ReevaluateEntity a b => fmap_ Ret_error (ReevaluateEntity a b)
  | call_ReevaluateEntityWithInfo a b =>
      fmap_ (uncurry Ret_string_error) (ReevaluateEntityWithInfo a b)
  | call_ReevaluateRecord a b c => fmap_ Ret_error (ReevaluateRecord a b c)
  | call_ReevaluateRecordWithInfo a b c =>
      fmap_ (uncurry Ret_string_error) (ReevaluateRecordWithInfo a b c)
  | call_RegisterObserver a => fmap_ Ret_error (RegisterObserver a)
  | call_Reinit a => fmap_ Ret_error (Reinit a)
  | call_ReplaceRecord a b c d => fmap_ Ret_error (ReplaceRecord a b c d)
  | call_ReplaceRecordWithInfo a b c d e =>
      fmap_ (uncurry Ret_string_error) (ReplaceRecordWithInfo a b c d e)
  | call_SearchByAttributes a =>
      fmap_ (uncurry Ret_string_error) (SearchByAttributes a)
  | call_SearchByAttributes_V2 a b =>
      fmap_ (uncurry Ret_string_error) (SearchByAttributes_V2 a b)
  | call_SetLogLevel a => fmap_ Ret_error (SetLogLevel a)
  | call_Stats => fmap_ (uncurry Ret_string_error) Stats
  | call_UnregisterObserver a => fmap_ Ret_error (UnregisterObserver a)
  | call_WhyEntities a b => fmap_ (uncurry Ret_string_error) (WhyEntities a b)
  | call_WhyEntities_V2 a b c =>
      fmap_ (uncurry Ret_string_error) (WhyEntities_V2 a b c)
  | call_WhyEntityByEntityID a =>
      fmap_ (uncurry Ret_string_error) (WhyEntityByEntityID a)
  | call_WhyEntityByEntityID_V2 a b =>
      fmap_ (uncurry Ret_string_error) (WhyEntityByEntityID_V2 a b)
  | call_WhyEntityByRecordID a b =>
      fmap_ (uncurry Ret_string_error) (WhyEntityByRecordID a b)
  | call_WhyEntityByRecordID_V2 a b c =>
      fmap_ (uncurry Ret_string_error) (WhyEntityByRecordID_V2 a b c)
  | call_WhyRecords a b c d =>
      fmap_ (uncurry Ret_string_error) (WhyRecords a b c d)
  | call_WhyRecords_V2 a b c d e =>
      fmap_ (uncurry Ret_string_error) (WhyRecords_V2 a b c d e)
  end.

(** The canned field of a call that returns one string or one int64
    next to its error: the field named after the method. *)
Definition canned (call : Call) : option (Canned G2engine) :=
  match call with
  | call_AddRecordWithInfo _ _ _ _ _ =>
      Some (Canned_string AddRecordWithInfoResult)
  | call_AddRecordWithReturnedRecordID _ _ _ =>
      Some (Canned_string AddRecordWithReturnedRecordIDResult)
  | call_CheckRecord _ _ => Some (Canned_string CheckRecordResult)
  | call_CountRedoRecords => Some (Canned_int64 CountRedoRecordsResult)
  | call_DeleteRecordWithInfo _ _ _ _ =>
      Some (Canned_string DeleteRecordWithInfoResult)
  | call_ExportConfig => Some (Canned_string ExportConfigResult)
  | call_FetchNext _ => Some (Canned_string FetchNextResult)
  | call_FindInterestingEntitiesByEntityID _ _ =>
      Some (Canned_string FindInterestingEntitiesByEntityIDResult)
  | call_FindInterestingEntitiesByRecordID _ _ _ =>
      Some (Canned_string FindInterestingEntitiesByRecordIDResult)
  | call_FindNetworkByEntityID _ _ _ _ =>
      Some (Canned_string FindNetworkByEntityIDResult)
  | call_FindNetworkByEntityID_V2 _ _ _ _ _ =>
      Some (Canned_string FindNetworkByEntityID_V2Result)
  | call_FindNetworkByRecordID _ _ _ _ =>
      Some (Canned_string FindNetworkByRecordIDResult)
  | call_FindNetworkByRecordID_V2 _ _ _ _ _ =>
      Some (Canned_string FindNetworkByRecordID_V2Result)
  | call_FindPathByEntityID _ _ _ =>
      Some (Canned_string FindPathByEntityIDResult)
  | call_FindPathByEntityID_V2 _ _ _ _ =>
      Some (Canned_string FindPathByEntityID_V2Result)
  | call_FindPathByRecordID _ _ _ _ _ =>
      Some (Canned_string FindPathByRecordIDResult)
  | call_FindPathByRecordID_V2 _ _ _ _ _ _ =>
      Some (Canned_string FindPathByRecordID_V2Result)
  | call_FindPathExcludingByEntityID _ _ _ _ =>
      Some (Canned_string FindPathExcludingByEntityIDResult)
  | call_FindPathExcludingByEntityID_V2 _ _ _ _ _ =>
      Some (Canned_string FindPathExcludingByEntityID_V2Result)
  | call_FindPathExcludingByRecordID _ _ _ _ _ _ =>
      Some (Canned_string FindPathExcludingByRecordIDResult)
  | call_FindPathExcludingByRecordID_V2 _ _ _ _ _ _ _ =>
      Some (Canned_string FindPathExcludingByRecordID_V2Result)
  | call_FindPathIncludingSourceByEntityID _ _ _ _ _ =>
      Some (Canned_string FindPathIncludingSourceByEntityIDResult)
  | call_FindPathIncludingSourceByEntityID_V2 _ _ _ _ _ _ =>
      Some (Canned_string FindPathIncludingSourceByEntityID_V2Result)
  | call_FindPathIncludingSourceByRecordID _ _ _ _ _ _ _ =>
      Some (Canned_string FindPathIncludingSourceByRecordIDResult)
  | call_FindPathIncludingSourceByRecordID_V2 _ _ _ _ _ _ _ _ =>
      Some (Canned_string FindPathIncludingSourceByRecordID_V2Result)
  | call_GetActiveConfigID => Some (Canned_int64 GetActiveConfigIDResult)
  | call_GetEntityByEntityID _ =>
      Some (Canned_string GetEntityByEntityIDResult)
  | call_GetEntityByEntityID_V2 _ _ =>
      Some (Canned_string GetEntityByEntityID_V2Result)
  | call_GetEntityByRecordID _ _ =>
      Some (Canned_string GetEntityByRecordIDResult)
  | call_GetEntityByRecordID_V2 _ _ _ =>
      Some (Canned_string GetEntityByRecordID_V2Result)
  | call_GetRecord _ _ => Some (Canned_string GetRecordResult)
  | call_GetRecord_V2 _ _ _ => Some (Canned_string GetRecord_V2Result)
  | call_GetRedoRecord => Some (Canned_string GetRedoRecordResult)
  | call_GetRepositoryLastModifiedTime =>
      Some (Canned_int64 GetRepositoryLastModifiedTimeResult)
  | call_GetVirtualEntityByRecordID _ =>
      Some (Canned_string GetVirtualEntityByRecordIDResult)
  | call_GetVirtualEntityByRecordID_V2 _ _ =>
      Some (Canned_string GetVirtualEntityByRecordID_V2Result)
  | call_HowEntityByEntityID _ =>
      Some (Canned_string HowEntityByEntityIDResult)
  | call_HowEntityByEntityID_V2 _ _ =>
      Some (Canned_string HowEntityByEntityID_V2Result)
  | call_ProcessRedoRecord => Some (Canned_string ProcessRedoRecordResult)
  | call_ProcessWithInfo _ _ => Some (Canned_string ProcessWithInfoResult)
  | call_ProcessWithResponse _ =>
      Some (Canned_string ProcessWithResponseResult)
  | call_ProcessWithResponseResize _ =>
      Some (Canned_string ProcessWithResponseResizeResult)
  | call_ReevaluateEntityWithInfo _ _ =>
      Some (Canned_string ReevaluateEntityWithInfoResult)
  | call_ReevaluateRecordWithInfo _ _ _ =>
      Some (Canned_string ReevaluateRecordWithInfoResult)
  | call_ReplaceRecordWithInfo _ _ _ _ _ =>
      Some (Canned_string ReplaceRecordWithInfoResult)
  | call_SearchByAttributes _ => Some (Canned_string SearchByAttributesResult)
  | call_SearchByAttributes_V2 _ _ =>
      Some (Canned_string SearchByAttributes_V2Result)
  | call_Stats => Some (Canned_string StatsResult)
  | call_WhyEntities _ _ => Some (Canned_string WhyEntitiesResult)
  | call_WhyEntities_V2 _ _ _ => Some (Canned_string WhyEntities_V2Result)
  | call_WhyEntityByEntityID _ =>
      Some (Canned_string WhyEntityByEntityIDResult)
  | call_WhyEntityByEntityID_V2 _ _ =>
      Some (Canned_string WhyEntityByEntityID_V2Result)
  | call_WhyEntityByRecordID _ _ =>
      Some (Canned_string WhyEntityByRecordIDResult)
  | call_WhyEntityByRecordID_V2 _ _ _ =>
      Some (Canned_string WhyEntityByRecordID_V2Result)
  | call_WhyRecords _ _ _ _ => Some (Canned_string WhyRecordsResult)
  | call_WhyRecords_V2 _ _ _ _ _ => Some (Canned_string WhyRecords_V2Result)
  | _ => None
  end.

(** To state what a call leaves behind: the client once [getLogger] has
    run, and the client once a method has made its trace entry, if it makes
    one. *)
Definition with_logger (client : G2engine) : G2engine :=
  match logger client with
  | Some _ => client
  | None =>
      set_logger
        (Some (messagelogger.NewSenzingApiLogger ProductId
                 messagelogger.LevelInfo))
        client
  end.
Definition traced (client : G2engine) : G2engine :=
  if isTrace client then with_logger client else client.

(** The body of the goroutine that a [go] statement of a method launches,
    [details := map[string]string{...}; client.notify(ctx, messageId, err,
    details)], run on the client as it is when the goroutine is
    scheduled. *)
Definition goroutine (e : Event Reg G2engine) : M unit :=
  match e with
  | Go messageId err details =>
      client <- get;;
      notify messageId err (details client)
  | _ => skip
  end.

(** The registry is absent or holds at least one observer. *)
Definition registry_inv (client : G2engine) : Prop :=
  match observers client with
  | Some registry => subject.HasObservers registry = true
  | None => True
  end.
End g2engine.
End g2engine.

(** ** Package g2configmgr *)

Module g2configmgr.
Section g2configmgr.
Context {Reg Lg : Type}
        `{!subject.Subject Reg, !messagelogger.MessageLoggerInterface Lg,
          !logger.Levels, !json.Marshaler}.
(** The constant [ProductId] is declared in another file of the package. *)
Variable ProductId : Z.
Import observer.

Record G2configmgr := {
  isTrace : bool;
  logger : option Lg;
  observers : option Reg;
  AddConfigResult : Z;
  GetConfigResult : string;
  GetConfigListResult : string;
  GetDefaultConfigIDResult : Z
}.

(** The zero value of the struct. *)
Definition zero : G2configmgr :=
  {| isTrace := false; logger := None; observers := None;
     AddConfigResult := 0;
     GetConfigResult := "";
     GetConfigListResult := "";
     GetDefaultConfigIDResult := 0 |}.

(** Assignments to the three unexported fields. *)
Definition set_control (t : bool) (l : option Lg) (o : option Reg)
    (client : G2configmgr) : G2configmgr :=
  match client with
  | Build_G2configmgr _ _ _ AddConfigResult GetConfigResult
      GetConfigListResult GetDefaultConfigIDResult =>
      Build_G2configmgr t l o AddConfigResult GetConfigResult
        GetConfigListResult GetDefaultConfigIDResult
  end.
Definition set_isTrace (t : bool) (client : G2configmgr) : G2configmgr :=
  set_control t (logger client) (observers client) client.
Definition set_logger (l : option Lg) (client : G2configmgr) : G2configmgr :=
  set_control (isTrace client) l (observers client) client.
Definition set_observers (o : option Reg) (client : G2configmgr) : G2configmgr :=
  set_control (isTrace client) (logger client) o client.

Local Abbreviation M := (M Reg G2configmgr).

(** Get the Logger singleton. *)
Definition getLogger : M Lg :=
  client <- get;;
  match logger client with
  | None =>
      let l :=
        messagelogger.NewSenzingApiLogger ProductId messagelogger.LevelInfo in
      put (set_logger (Some l) client);;
      ret l
  | Some l => ret l
  end.

(** Notify registered observers. *)
Definition notify (messageId : Z) (err : error)
    (details : gmap string string) : M unit :=
  now <- clock;;
  let details := <["subjectId" := strconv.Itoa ProductId]> details in
  let details := <["messageId" := strconv.Itoa messageId]> details in
  let details :=
    <["messageTime" := strconv.FormatInt (UnixNano now) 10]> details in
  let details :=
    match err with
    | Some text => <["error" := text]> details
    | None => details
    end in
  let r := json.Marshal details in
  match r.2 with
  | Some text => emit (Printf ("Error: " +:+ text))
  | None =>
      client <- get;;
      match observers client with
      | Some registry => emit (NotifyObservers registry r.1)
      | None => panic
      end
  end.

(** Trace method entry. *)
Definition traceEntry (errorNumber : Z) (details : list Value) : M unit :=
  getLogger;; emit (Log errorNumber details).

(** Trace method exit. *)
Definition traceExit (errorNumber : Z) (details : list Value) : M unit :=
  getLogger;; emit (Log errorNumber details).

(** [if client.isTrace { ... }] and [if client.observers != nil { ... }]. *)
Definition if_isTrace (m : M unit) : M unit :=
  client <- get;; if isTrace client then m else skip.
Definition if_observers (m : M unit) : M unit :=
  client <- get;; if observers client is Some _ then m else skip.

(** A method call on [client.observers]: the interface value may be nil. *)
Definition on_observers {A} (f : Reg → M A) : M A :=
  client <- get;;
  match observers client with
  | Some registry => f registry
  | None => panic
  end.

(** [client.observers = ...]: the assignment, recorded where it is made.
    The methods of the registry change the registry in place, through the
    field: the model stores the new state of the registry in the field and
    records the call, [RegistryRegister] or [RegistryUnregister], not an
    assignment. *)
Definition assign_observers (o : option Reg) : M unit :=
  client <- get;;
  put (set_observers o client);;
  emit (AssignObservers o).

(** [if client.isTrace { defer client.traceExit(...) }] followed by
    [return ...]: the arguments of the deferred call are read at the [defer],
    the results at the [return], and the deferred call runs on the way
    out. *)
Definition return_ {R} (exit : Z) (exitArgs : G2configmgr → Z → list Value)
    (result : G2configmgr → R) : M R :=
  client <- get;;
  if isTrace client then
    now <- clock;;
    let details := exitArgs client (Since now) in
    let r := result client in
    traceExit exit details;;
    ret r
  else ret (result client).

(** The body every method but [RegisterObserver], [SetLogLevel] and
    [UnregisterObserver] is written out with: trace entry when tracing,
    [var err error = nil], the goroutine that notifies when a registry is
    present, the deferred trace exit when tracing, the return. *)
Definition method {R} (entry : Z) (entryArgs : list Value) (messageId : Z)
    (details : G2configmgr → gmap string string) (exit : Z)
    (exitArgs : G2configmgr → error → Z → list Value)
    (result : G2configmgr → error → R) : M R :=
  if_isTrace (traceEntry entry entryArgs);;
  let err : error := None in
  if_observers (emit (Go messageId err details));;
  return_ exit (λ client, exitArgs client err)
    (λ client, result client err).

Definition AddConfig (configStr configComments : string) : M (Z * error) :=
  method 1 [VString configStr; VString configComments]
    8001 (λ client, {[ "configComments" := configComments ]})
    2 (λ client err since,
         [VString configStr; VString configComments;
          VInt64 (AddConfigResult client); VError err; VDuration since])
    (λ client err, (AddConfigResult client, err)).

Definition Destroy : M error :=
  method 5 []
    8002 (λ client, ∅)
    6 (λ client err since,
         [VError err; VDuration since])
    (λ client err, err).

Definition GetConfig (configID : Z) : M (string * error) :=
  method 7 [VInt64 configID]
    8003 (λ client, ∅)
    8 (λ client err since,
         [VInt64 configID; VString (GetConfigResult client); VError err;
          VDuration since])
    (λ client err, (GetConfigResult client, err)).

Definition GetConfigList : M (string * error) :=
  method 9 []
    8004 (λ client, ∅)
    10 (λ client err since,
         [VString (GetConfigListResult client); VError err; VDuration since])
    (λ client err, (GetConfigListResult client, err)).

Definition GetDefaultConfigID : M (Z * error) :=
  method 11 []
    8005 (λ client, ∅)
    12 (λ client err since,
         [VInt64 (GetDefaultConfigIDResult client); VError err;
          VDuration since])
    (λ client err, (GetDefaultConfigIDResult client, err)).

Definition GetSdkId : M string :=
  method 29 []
    8010 (λ client, ∅)
    30 (λ client err since,
         [VError err; VDuration since])
    (λ client err, "mock").

Definition Init (moduleName iniParams : string) (verboseLogging : Z)
    : M error :=
  method 17 [VString moduleName; VString iniParams; VInt verboseLogging]
    8006 (λ client, {[ "iniParams" := iniParams; "moduleName" := moduleName;
                        "verboseLogging" := strconv.Itoa verboseLogging ]})
    18 (λ client err since,
         [VString moduleName; VString iniParams; VInt verboseLogging;
          VError err; VDuration since])
    (λ client err, err).

Definition RegisterObserver (observer : Observer) : M error :=
  if_isTrace (traceEntry 25 [VString (GetObserverId observer)]);;
  client <- get;;
  (if observers client is None
   then assign_observers (Some subject.SubjectImpl) else skip);;
  err <- on_observers (λ registry,
    emit (RegistryRegister registry observer);;
    let r := subject.RegisterObserver registry observer in
    client <- get;;
    put (set_observers (Some r.1) client);;
    ret r.2);;
  if_observers
    (emit (Go 8010 err
             (λ client, {[ "observerID" := GetObserverId observer ]})));;
  return_ 26
    (λ client since,
       [VString (GetObserverId observer); VError err; VDuration since])
    (λ client, err).

Definition ReplaceDefaultConfigID (oldConfigID newConfigID : Z) : M error :=
  method 19 [VInt64 oldConfigID; VInt64 newConfigID]
    8007 (λ client, {[ "newConfigID" := strconv.FormatInt newConfigID 10 ]})
    20 (λ client err since,
         [VInt64 oldConfigID; VInt64 newConfigID; VError err;
          VDuration since])
    (λ client err, err).

Definition SetDefaultConfigID (configID : Z) : M error :=
  method 21 [VInt64 configID]
    8008 (λ client, {[ "configID" := strconv.FormatInt configID 10 ]})
    22 (λ client err since,
         [VInt64 configID; VError err; VDuration since])
    (λ client err, err).

Definition SetLogLevel (logLevel : Z) : M error :=
  if_isTrace (traceEntry 23 [VLevel logLevel]);;
  let err : error := None in
  l <- getLogger;;
  client <- get;;
  put (set_logger (Some (messagelogger.SetLogLevel l logLevel)) client);;
  l <- getLogger;;
  client <- get;;
  put (set_isTrace
         (bool_decide
            (messagelogger.GetLogLevel l = messagelogger.LevelTrace))
         client);;
  if_observers
    (emit (Go 8011 err (λ client,
       {[ "logLevel" := default "" (logger.LevelToTextMap !! logLevel) ]})));;
  return_ 24
    (λ client since,
       [VLevel logLevel; VError err; VDuration since])
    (λ client, err).

Definition UnregisterObserver (observer : Observer) : M error :=
  if_isTrace (traceEntry 27 [VString (GetObserverId observer)]);;
  let err : error := None in
  if_observers
    (notify 8012 err {[ "observerID" := GetObserverId observer ]});;
  err <- on_observers (λ registry,
    emit (RegistryUnregister registry observer);;
    let r := subject.UnregisterObserver registry observer in
    client <- get;;
    put (set_observers (Some r.1) client);;
    ret r.2);;
  has <- on_observers (λ registry, ret (subject.HasObservers registry));;
  (if has then skip else assign_observers None);;
  return_ 28
    (λ client since,
       [VString (GetObserverId observer); VError err; VDuration since])
    (λ client, err).

(** A call of a method of the interface, with its arguments. *)
Inductive Call :=
| call_AddConfig (configStr configComments : string)
| call_Destroy
| call_GetConfig (configID : Z)
| call_GetConfigList
| call_GetDefaultConfigID
| call_GetSdkId
| call_Init (moduleName iniParams : string) (verboseLogging : Z)
| call_RegisterObserver (observer : Observer)
| call_ReplaceDefaultConfigID (oldConfigID newConfigID : Z)
| call_SetDefaultConfigID (configID : Z)
| call_SetLogLevel (logLevel : Z)
| call_UnregisterObserver (observer : Observer).

Definition invoke (call : Call) : M Return :=
  match call with
  | call_AddConfig a b => fmap_ (uncurry Ret_int64_error) (AddConfig a b)
  | call_Destroy => fmap_ Ret_error Destroy
  | call_GetConfig a => fmap_ (uncurry Ret_string_error) (GetConfig a)
  | call_GetConfigList => fmap_ (uncurry Ret_string_error) GetConfigList
  | call_GetDefaultConfigID =>
      fmap_ (uncurry Ret_int64_error) GetDefaultConfigID
  | call_GetSdkId => fmap_ Ret_string GetSdkId
  | call_Init a b c => fmap_ Ret_error (Init a b c)
  | call_RegisterObserver a => fmap_ Ret_error (RegisterObserver a)
  | call_ReplaceDefaultConfigID a b =>
      fmap_ Ret_error (ReplaceDefaultConfigID a b)
  | call_SetDefaultConfigID a => fmap_ Ret_error (SetDefaultConfigID a)
  | call_SetLogLevel a => fmap_ Ret_error (SetLogLevel a)
  | call_UnregisterObserver a => fmap_ Ret_error (UnregisterObserver a)
  end.

(** The canned field of a call that returns one string or one int64
    next to its error: the field named after the method. *)
Definition canned (call : Call) : option (Canned G2configmgr) :=
  match call with
  | call_AddConfig _ _ => Some (Canned_int64 AddConfigResult)
  | call_GetConfig _ => Some (Canned_string GetConfigResult)
  | call_GetConfigList => Some (Canned_string GetConfigListResult)
  | call_GetDefaultConfigID => Some (Canned_int64 GetDefaultConfigIDResult)
  | _ => None
  end.

(** To state what a call leaves behind: the client once [getLogger] has
    run, and the client once a method has made its trace entry, if it makes
    one. *)
Definition with_logger (client : G2configmgr) : G2configmgr :=
  match logger client with
  | Some _ => client
  | None =>
      set_logger
        (Some (messagelogger.NewSenzingApiLogger ProductId
                 messagelogger.LevelInfo))
        client
  end.
Definition traced (client : G2configmgr) : G2configmgr :=
  if isTrace client then with_logger client else client.

(** The body of the goroutine that a [go] statement of a method launches,
    [details := map[string]string{...}; client.notify(ctx, messageId, err,
    details)], run on the client as it is when the goroutine is
    scheduled. *)
Definition goroutine (e : Event Reg G2configmgr) : M unit :=
  match e with
  | Go messageId err details =>
      client <- get;;
      notify messageId err (details client)
  | _ => skip
  end.

(** The registry is absent or holds at least one observer. *)
Definition registry_inv (client : G2configmgr) : Prop :=
  match observers client with
  | Some registry => subject.HasObservers registry = true
  | None => True
  end.
End g2configmgr.
End g2configmgr.

(** ** Package g2product *)

Module g2product.
Section g2product.
Context {Reg Lg : Type}
        `{!subject.Subject Reg, !messagelogger.MessageLoggerInterface Lg,
          !logger.Levels, !json.Marshaler}.
(** The constant [ProductId] is declared in another file of the package. *)
Variable ProductId : Z.
Import observer.

Record G2product := {
  isTrace : bool;
  logger : option Lg;
  observers : option Reg;
  LicenseResult : string;
  ValidateLicenseFileResult : string;
  ValidateLicenseStringBase64Result : string;
  VersionResult : string
}.

(** The zero value of the struct. *)
Definition zero : G2product :=
  {| isTrace := false; logger := None; observers := None;
     LicenseResult := "";
     ValidateLicenseFileResult := "";
     ValidateLicenseStringBase64Result := "";
     VersionResult := "" |}.

(** Assignments to the three unexported fields. *)
Definition set_control (t : bool) (l : option Lg) (o : option Reg)
    (client : G2product) : G2product :=
  match client with
  | Build_G2product _ _ _ LicenseResult ValidateLicenseFileResult
      ValidateLicenseStringBase64Result VersionResult =>
      Build_G2product t l o LicenseResult ValidateLicenseFileResult
        ValidateLicenseStringBase64Result VersionResult
  end.
Definition set_isTrace (t : bool) (client : G2product) : G2product :=
  set_control t (logger client) (observers client) client.
Definition set_logger (l : option Lg) (client : G2product) : G2product :=
  set_control (isTrace client) l (observers client) client.
Definition set_observers (o : option Reg) (client : G2product) : G2product :=
  set_control (isTrace client) (logger client) o client.

Local Abbreviation M := (M Reg G2product).

(** Get the Logger singleton. *)
Definition getLogger : M Lg :=
  client <- get;;
  match logger client with
  | None =>
      let l :=
        messagelogger.NewSenzingApiLogger ProductId messagelogger.LevelInfo in
      put (set_logger (Some l) client);;
      ret l
  | Some l => ret l
  end.

(** Notify registered observers. *)
Definition notify (messageId : Z) (err : error)
    (details : gmap string string) : M unit :=
  now <- clock;;
  let details := <["subjectId" := strconv.Itoa ProductId]> details in
  let details := <["messageId" := strconv.Itoa messageId]> details in
  let details :=
    <["messageTime" := strconv.FormatInt (UnixNano now) 10]> details in
  let details :=
    match err with
    | Some text => <["error" := text]> details
    | None => details
    end in
  let r := json.Marshal details in
  match r.2 with
  | Some text => emit (Printf ("Error: " +:+ text))
  | None =>
      client <- get;;
      match observers client with
      | Some registry => emit (NotifyObservers registry r.1)
      | None => panic
      end
  end.

(** Trace method entry. *)
Definition traceEntry (errorNumber : Z) (details : list Value) : M unit :=
  getLogger;; emit (Log errorNumber details).

(** Trace method exit. *)
Definition traceExit (errorNumber : Z) (details : list Value) : M unit :=
  getLogger;; emit (Log errorNumber details).

(** [if client.isTrace { ... }] and [if client.observers != nil { ... }]. *)
Definition if_isTrace (m : M unit) : M unit :=
  client <- get;; if isTrace client then m else skip.
Definition if_observers (m : M unit) : M unit :=
  client <- get;; if observers client is Some _ then m else skip.

(** A method call on [client.observers]: the interface value may be nil. *)
Definition on_observers {A} (f : Reg → M A) : M A :=
  client <- get;;
  match observers client with
  | Some registry => f registry
  | None => panic
  end.

(** [client.observers = ...]: the assignment, recorded where it is made.
    The methods of the registry change the registry in place, through the
    field: the model stores the new state of the registry in the field and
    records the call, [RegistryRegister] or [RegistryUnregister], not an
    assignment. *)
Definition assign_observers (o : option Reg) : M unit :=
  client <- get;;
  put (set_observers o client);;
  emit (AssignObservers o).

(** [if client.isTrace { defer client.traceExit(...) }] followed by
    [return ...]: the arguments of the deferred call are read at the [defer],
    the results at the [return], and the deferred call runs on the way
    out. *)
Definition return_ {R} (exit : Z) (exitArgs : G2product → Z → list Value)
    (result : G2product → R) : M R :=
  client <- get;;
  if isTrace client then
    now <- clock;;
    let details := exitArgs client (Since now) in
    let r := result client in
    traceExit exit details;;
    ret r
  else ret (result client).

(** The body every method but [RegisterObserver], [SetLogLevel] and
    [UnregisterObserver] is written out with: trace entry when tracing,
    [var err error = nil], the goroutine that notifies when a registry is
    present, the deferred trace exit when tracing, the return. *)
Definition method {R} (entry : Z) (entryArgs : list Value) (messageId : Z)
    (details : G2product → gmap string string) (exit : Z)
    (exitArgs : G2product → error → Z → list Value)
    (result : G2product → error → R) : M R :=
  if_isTrace (traceEntry entry entryArgs);;
  let err : error := None in
  if_observers (emit (Go messageId err details));;
  return_ exit (λ client, exitArgs client err)
    (λ client, result client err).

Definition Destroy : M error :=
  method 3 []
    8001 (λ client, ∅)
    4 (λ client err since,
         [VError err; VDuration since])
    (λ client err, err).

Definition GetSdkId : M (string * error) :=
  method 25 []
    8007 (λ client, ∅)
    26 (λ client err since,
         [VError err; VDuration since])
    (λ client err, ("mock", None)).

Definition Init (moduleName iniParams : string) (verboseLogging : Z)
    : M error :=
  method 9 [VString moduleName; VString iniParams; VInt verboseLogging]
    8002 (λ client, {[ "iniParams" := iniParams; "moduleName" := moduleName;
                        "verboseLogging" := strconv.Itoa verboseLogging ]})
    10 (λ client err since,
         [VString moduleName; VString iniParams; VInt verboseLogging;
          VError err; VDuration since])
    (λ client err, err).

Definition License : M (string * error) :=
  method 11 []
    8003 (λ client, ∅)
    12 (λ client err since,
         [VString (LicenseResult client); VError err; VDuration since])
    (λ client err, (LicenseResult client, err)).

Definition RegisterObserver (observer : Observer) : M error :=
  if_isTrace (traceEntry 21 [VString (GetObserverId observer)]);;
  client <- get;;
  (if observers client is None
   then assign_observers (Some subject.SubjectImpl) else skip);;
  err <- on_observers (λ registry,
    emit (RegistryRegister registry observer);;
    let r := subject.RegisterObserver registry observer in
    client <- get;;
    put (set_observers (Some r.1) client);;
    ret r.2);;
  if_observers
    (emit (Go 8008 err
             (λ client, {[ "observerID" := GetObserverId observer ]})));;
  return_ 22
    (λ client since,
       [VString (GetObserverId observer); VError err; VDuration since])
    (λ client, err).

Definition SetLogLevel (logLevel : Z) : M error :=
  if_isTrace (traceEntry 13 [VLevel logLevel]);;
  let err : error := None in
  l <- getLogger;;
  client <- get;;
  put (set_logger (Some (messagelogger.SetLogLevel l logLevel)) client);;
  l <- getLogger;;
  client <- get;;
  put (set_isTrace
         (bool_decide
            (messagelogger.GetLogLevel l = messagelogger.LevelTrace))
         client);;
  if_observers
    (emit (Go 8009 err (λ client,
       {[ "logLevel" := default "" (logger.LevelToTextMap !! logLevel) ]})));;
  return_ 14
    (λ client since,
       [VLevel logLevel; VError err; VDuration since])
    (λ client, err).

Definition UnregisterObserver (observer : Observer) : M error :=
  if_isTrace (traceEntry 23 [VString (GetObserverId observer)]);;
  let err : error := None in
  if_observers
    (notify 8010 err {[ "observerID" := GetObserverId observer ]});;
  err <- on_observers (λ registry,
    emit (RegistryUnregister registry observer);;
    let r := subject.UnregisterObserver registry observer in
    client <- get;;
    put (set_observers (Some r.1) client);;
    ret r.2);;
  has <- on_observers (λ registry, ret (subject.HasObservers registry));;
  (if has then skip else assign_observers None);;
  return_ 24
    (λ client since,
       [VString (GetObserverId observer); VError err; VDuration since])
    (λ client, err).

Definition ValidateLicenseFile (licenseFilePath : string)
    : M (string * error) :=
  method 15 [VString licenseFilePath]
    8004 (λ client, ∅)
    16 (λ client err since,
         [VString licenseFilePath; VString (ValidateLicenseFileResult client);
          VError err; VDuration since])
    (λ client err, (ValidateLicenseFileResult client, err)).

Definition ValidateLicenseStringBase64 (licenseString : string)
    : M (string * error) :=
  method 17 [VString licenseString]
    8005 (λ client, ∅)
    18 (λ client err since,
         [VString licenseString;
          VString (ValidateLicenseStringBase64Result client); VError err;
          VDuration since])
    (λ client err, (ValidateLicenseStringBase64Result client, err)).

Definition Version : M (string * error) :=
  method 19 []
    8006 (λ client, ∅)
    20 (λ client err since,
         [VString (VersionResult client); VError err; VDuration since])
    (λ client err, (VersionResult client, err)).

(** A call of a method of the interface, with its arguments. *)
Inductive Call :=
| call_Destroy
| call_GetSdkId
| call_Init (moduleName iniParams : string) (verboseLogging : Z)
| call_License
| call_RegisterObserver (observer : Observer)
| call_SetLogLevel (logLevel : Z)
| call_UnregisterObserver (observer : Observer)
| call_ValidateLicenseFile (licenseFilePath : string)
| call_ValidateLicenseStringBase64 (licenseString : string)
| call_Version.

Definition invoke (call : Call) : M Return :=
  match call with
  | call_Destroy => fmap_ Ret_error Destroy
  | call_GetSdkId => fmap_ (uncurry Ret_string_error) GetSdkId
  | call_Init a b c => fmap_ Ret_error (Init a b c)
  | call_License => fmap_ (uncurry Ret_string_error) License
  | call_RegisterObserver a => fmap_ Ret_error (RegisterObserver a)
  | call_SetLogLevel a => fmap_ Ret_error (SetLogLevel a)
  | call_UnregisterObserver a => fmap_ Ret_error (UnregisterObserver a)
  | call_ValidateLicenseFile a =>
      fmap_ (uncurry Ret_string_error) (ValidateLicenseFile a)
  | call_ValidateLicenseStringBase64 a =>
      fmap_ (uncurry Ret_string_error) (ValidateLicenseStringBase64 a)
  | call_Version => fmap_ (uncurry Ret_string_error) Version
  end.

(** The canned field of a call that returns one string or one int64
    next to its error: the field named after the method. *)
Definition canned (call : Call) : option (Canned G2product) :=
  match call with
  | call_License => Some (Canned_string LicenseResult)
  | call_ValidateLicenseFile _ =>
      Some (Canned_string ValidateLicenseFileResult)
  | call_ValidateLicenseStringBase64 _ =>
      Some (Canned_string ValidateLicenseStringBase64Result)
  | call_Version => Some (Canned_string VersionResult)
  | _ => None
  end.

(** To state what a call leaves behind: the client once [getLogger] has
    run, and the client once a method has made its trace entry, if it makes
    one. *)
Definition with_logger (client : G2product) : G2product :=
  match logger client with
  | Some _ => client
  | None =>
      set_logger
        (Some (messagelogger.NewSenzingApiLogger ProductId
                 messagelogger.LevelInfo))
        client
  end.
Definition traced (client : G2product) : G2product :=
  if isTrace client then with_logger client else client.

(** The body of the goroutine that a [go] statement of a method launches,
    [details := map[string]string{...}; client.notify(ctx, messageId, err,
    details)], run on the client as it is when the goroutine is
    scheduled. *)
Definition goroutine (e : Event Reg G2product) : M unit :=
  match e with
  | Go messageId err details =>
      client <- get;;
      notify messageId err (details client)
  | _ => skip
  end.

(** The registry is absent or holds at least one observer. *)
Definition registry_inv (client : G2product) : Prop :=
  match observers client with
  | Some registry => subject.HasObservers registry = true
  | None => True
  end.
End g2product.
End g2product.
(** ** Collaborators to run the mocks with *)

Module modelled.
Import observer.

(** Modelled from the spec: the observer registry (package [subject], which
    the repository imports and does not contain).  Observers are kept by
    their id, so adding one twice keeps one entry; [HasObservers] holds iff
    the registry is not empty; a notification goes to every registered
    observer; no operation of the registry fails. *)
Definition registry : subject.Subject (gmap string Observer) := {|
  subject.SubjectImpl := ∅;
  subject.RegisterObserver s o := (<[GetObserverId o := o]> s, None);
  subject.UnregisterObserver s o := (delete (GetObserverId o) s, None);
  subject.HasObservers s := bool_decide (s ≠ ∅);
  subject.NotifyObservers s message :=
    (λ entry, (entry.1, message)) <$> map_to_list s
|}.

(** Modelled from the spec: the logger handle (package [messagelogger],
    which the repository imports and does not contain), reduced to the level
    it is set to.  The levels are numbered in the order the source lists
    them: TRACE, DEBUG, INFO, WARN, ERROR, FATAL, PANIC. *)
Definition levelLogger : messagelogger.MessageLoggerInterface Z := {|
  messagelogger.LevelTrace := 0;
  messagelogger.LevelInfo := 2;
  messagelogger.NewSenzingApiLogger _ level := level;
  messagelogger.SetLogLevel _ level := level;
  messagelogger.GetLogLevel l := l
|}.

Definition levels : logger.Levels := {|
  logger.LevelToTextMap :=
    list_to_map [(0, "TRACE"); (1, "DEBUG"); (2, "INFO"); (3, "WARN");
                 (4, "ERROR"); (5, "FATAL"); (6, "PANIC")]
|}.

Definition quote (s : string) : string :=
  String (Ascii.ascii_of_nat 34) (s +:+ String (Ascii.ascii_of_nat 34) "").

Fixpoint members (l : list (string * string)) : string :=
  match l with
  | [] => ""
  | [(k, v)] => quote k +:+ ":" +:+ quote v
  | (k, v) :: l => quote k +:+ ":" +:+ quote v +:+ "," +:+ members l
  end.

(** Modelled from the spec: serialization of the mapping to a JSON object
    string ([encoding/json]), for keys and values that need no escaping; it
    never fails. *)
Definition marshaler : json.Marshaler := {|
  json.Marshal m := ("{" +:+ members (map_to_list m) +:+ "}", None)
|}.

(** *** Sample inputs *)

Definition clock : Clock :=
  {| UnixNano := 1700000000000000000; Since := 1500 |}.

Definition engineId : Z := 5001.
Definition configmgrId : Z := 5002.
Definition productId : Z := 5003.

Definition O1 : Observer := {| GetObserverId := "O1" |}.

(** A fresh engine whose [GetActiveConfigIDResult] has been set to 42. *)
Definition engine42 : @g2engine.G2engine (gmap string Observer) Z :=
  {| g2engine.isTrace := false; g2engine.logger := None;
     g2engine.observers := None;
     g2engine.AddRecordWithInfoResult := "";
     g2engine.AddRecordWithInfoWithReturnedRecordIDResultGetWithInfo := "";
     g2engine.AddRecordWithInfoWithReturnedRecordIDResultRecordID := "";
     g2engine.AddRecordWithReturnedRecordIDResult := "";
     g2engine.CheckRecordResult := "";
     g2engine.CountRedoRecordsResult := 0;
     g2engine.DeleteRecordWithInfoResult := "";
     g2engine.ExportConfigResult := "";
     g2engine.ExportConfigAndConfigIDResultConfig := "";
     g2engine.ExportConfigAndConfigIDResultConfigID := 0;
     g2engine.ExportCSVEntityReportResult := 0;
     g2engine.ExportJSONEntityReportResult := 0;
     g2engine.FetchNextResult := "";
     g2engine.FindInterestingEntitiesByEntityIDResult := "";
     g2engine.FindInterestingEntitiesByRecordIDResult := "";
     g2engine.FindNetworkByEntityID_V2Result := "";
     g2engine.FindNetworkByEntityIDResult := "";
     g2engine.FindNetworkByRecordID_V2Result := "";
     g2engine.FindNetworkByRecordIDResult := "";
     g2engine.FindPathByEntityID_V2Result := "";
     g2engine.FindPathByEntityIDResult := "";
     g2engine.FindPathByRecordID_V2Result := "";
     g2engine.FindPathByRecordIDResult := "";
     g2engine.FindPathExcludingByEntityID_V2Result := "";
     g2engine.FindPathExcludingByEntityIDResult := "";
     g2engine.FindPathExcludingByRecordID_V2Result := "";
     g2engine.FindPathExcludingByRecordIDResult := "";
     g2engine.FindPathIncludingSourceByEntityID_V2Result := "";
     g2engine.FindPathIncludingSourceByEntityIDResult := "";
     g2engine.FindPathIncludingSourceByRecordID_V2Result := "";
     g2engine.FindPathIncludingSourceByRecordIDResult := "";
     g2engine.GetActiveConfigIDResult := 42;
     g2engine.GetEntityByEntityID_V2Result := "";
     g2engine.GetEntityByEntityIDResult := "";
     g2engine.GetEntityByRecordID_V2Result := "";
     g2engine.GetEntityByRecordIDResult := "";
     g2engine.GetRecord_V2Result := "";
     g2engine.GetRecordResult := "";
     g2engine.GetRedoRecordResult := "";
     g2engine.GetRepositoryLastModifiedTimeResult := 0;
     g2engine.GetVirtualEntityByRecordID_V2Result := "";
     g2engine.GetVirtualEntityByRecordIDResult := "";
     g2engine.HowEntityByEntityID_V2Result := "";
     g2engine.HowEntityByEntityIDResult := "";
     g2engine.ProcessRedoRecordResult := "";
     g2engine.ProcessRedoRecordWithInfoResult := "";
     g2engine.ProcessRedoRecordWithInfoResultWithInfo := "";
     g2engine.ProcessWithInfoResult := "";
     g2engine.ProcessWithResponseResult := "";
     g2engine.ProcessWithResponseResizeResult := "";
     g2engine.ReevaluateEntityWithInfoResult := "";
     g2engine.ReevaluateRecordWithInfoResult := "";
     g2engine.ReplaceRecordWithInfoResult := "";
     g2engine.SearchByAttributes_V2Result := "";
     g2engine.SearchByAttributesResult := "";
     g2engine.StatsResult := "";
     g2engine.WhyEntities_V2Result := "";
     g2engine.WhyEntitiesResult := "";
     g2engine.WhyEntityByEntityID_V2Result := "";
     g2engine.WhyEntityByEntityIDResult := "";
     g2engine.WhyEntityByRecordID_V2Result := "";
     g2engine.WhyEntityByRecordIDResult := "";
     g2engine.WhyRecords_V2Result := "";
     g2engine.WhyRecordsResult := "" |}.

(** Fresh clients with [O1] registered. *)
Definition engineO1 : @g2engine.G2engine (gmap string Observer) Z :=
  g2engine.set_observers (Some {[ "O1" := O1 ]}) g2engine.zero.
Definition configmgrO1
    : @g2configmgr.G2configmgr (gmap string Observer) Z :=
  g2configmgr.set_observers (Some {[ "O1" := O1 ]}) g2configmgr.zero.
Definition productO1 : @g2product.G2product (gmap string Observer) Z :=
  g2product.set_observers (Some {[ "O1" := O1 ]}) g2product.zero.
End modelled.

(** * Properties of the mocks *)

(** Splits a client into its three unexported fields and the canned ones, and
    the cases of the former. *)
Ltac control client :=
  let t := fresh "t" in
  let l := fresh "l" in
  let o := fresh "o" in
  destruct client as [t l o]; destruct t, l, o.

(** Runs a method symbolically, on a client split by [control]: unfolds the
    monad and the code of the packages, nothing of the collaborators and of
    the maps, and splits on the answers of the collaborators that the run
    waits for. *)
Ltac exec :=
  lazy beta iota zeta delta
    [bind ret get put emit clock panic skip fmap_ trace_of state_of value_of
     error_of logged is_Log List.filter app g2engine.invoke
     g2engine.RegisterObserver g2engine.SetLogLevel
     g2engine.UnregisterObserver g2engine.if_isTrace g2engine.if_observers
     g2engine.on_observers g2engine.assign_observers g2engine.return_
     g2engine.traceEntry g2engine.traceExit g2engine.getLogger
     g2engine.notify g2engine.set_observers g2engine.set_logger
     g2engine.set_isTrace g2engine.set_control g2engine.isTrace
     g2engine.logger g2engine.observers g2configmgr.invoke
     g2configmgr.RegisterObserver g2configmgr.SetLogLevel
     g2configmgr.UnregisterObserver g2configmgr.if_isTrace
     g2configmgr.if_observers g2configmgr.on_observers
     g2configmgr.assign_observers g2configmgr.return_ g2configmgr.traceEntry
     g2configmgr.traceExit g2configmgr.getLogger g2configmgr.notify
     g2configmgr.set_observers g2configmgr.set_logger g2configmgr.set_isTrace
     g2configmgr.set_control g2configmgr.isTrace g2configmgr.logger
     g2configmgr.observers g2product.invoke g2product.RegisterObserver
     g2product.SetLogLevel g2product.UnregisterObserver g2product.if_isTrace
     g2product.if_observers g2product.on_observers g2product.assign_observers
     g2product.return_ g2product.traceEntry g2product.traceExit
     g2product.getLogger g2product.notify g2product.set_observers
     g2product.set_logger g2product.set_isTrace g2product.set_control
     g2product.isTrace g2product.logger g2product.observers].
Ltac split_stuck :=
  match goal with
  | |- context [match snd (json.Marshal ?m) with _ => _ end] =>
      destruct (snd (json.Marshal m)) eqn:?
  | |- context [match subject.HasObservers ?s with _ => _ end] =>
      destruct (subject.HasObservers s) eqn:?
  | |- context [match bool_decide ?P with _ => _ end] =>
      destruct (bool_decide P) eqn:?
  end.
Ltac run := exec; repeat (split_stuck; exec).

(** Picks the disjunct that holds by computation. *)
Ltac pick :=
  solve [ reflexivity
        | split; [reflexivity | eexists; reflexivity]
        | split; reflexivity
        | eexists; split; reflexivity
        | eexists _, _; repeat split; reflexivity
        | left; pick
        | right; pick ].

(** Exposes the method behind [invoke call]. *)
Ltac expose :=
  lazy beta iota delta [g2engine.invoke g2configmgr.invoke g2product.invoke
                        fmap_];
  match goal with
  | |- context [match ?m _ _ with Returned _ _ _ => _ | Panicked _ _ => _ end] =>
      let m' := eval red in m in change m with m'
  end.

Section properties.
Context {Reg Lg : Type}
        `{!subject.Subject Reg, !messagelogger.MessageLoggerInterface Lg,
          !logger.Levels, !json.Marshaler}.
(** The [ProductId] constants of the three packages. *)
Variables engineId configmgrId productId : Z.
Import observer.

Local Abbreviation G2engine := (@g2engine.G2engine Reg Lg).
Local Abbreviation G2configmgr := (@g2configmgr.G2configmgr Reg Lg).
Local Abbreviation G2product := (@g2product.G2product Reg Lg).

(** *** The shared body *)

Lemma g2engine_method_run {R} entry entryArgs messageId details exit exitArgs
    (result : G2engine → error → R) ck client :
  g2engine.method engineId entry entryArgs messageId details exit exitArgs
    result ck client
  = Returned (result (g2engine.traced engineId client) None)
      (g2engine.traced engineId client)
      ((if g2engine.isTrace client then [Log entry entryArgs] else [])
       ++ (if g2engine.observers client is Some _
           then [Go messageId None details] else [])
       ++ (if g2engine.isTrace client
           then [Log exit
                   (exitArgs (g2engine.traced engineId client) None (Since ck))]
           else [])).
Proof. control client; reflexivity. Qed.

Lemma g2configmgr_method_run {R} entry entryArgs messageId details exit
    exitArgs (result : G2configmgr → error → R) ck client :
  g2configmgr.method configmgrId entry entryArgs messageId details exit
    exitArgs result ck client
  = Returned (result (g2configmgr.traced configmgrId client) None)
      (g2configmgr.traced configmgrId client)
      ((if g2configmgr.isTrace client then [Log entry entryArgs] else [])
       ++ (if g2configmgr.observers client is Some _
           then [Go messageId None details] else [])
       ++ (if g2configmgr.isTrace client
           then [Log exit
                   (exitArgs (g2configmgr.traced configmgrId client) None
                      (Since ck))]
           else [])).
Proof. control client; reflexivity. Qed.

Lemma g2product_method_run {R} entry entryArgs messageId details exit exitArgs
    (result : G2product → error → R) ck client :
  g2product.method productId entry entryArgs messageId details exit exitArgs
    result ck client
  = Returned (result (g2product.traced productId client) None)
      (g2product.traced productId client)
      ((if g2product.isTrace client then [Log entry entryArgs] else [])
       ++ (if g2product.observers client is Some _
           then [Go messageId None details] else [])
       ++ (if g2product.isTrace client
           then [Log exit
                   (exitArgs (g2product.traced productId client) None
                      (Since ck))]
           else [])).
Proof. control client; reflexivity. Qed.

(** The trace entry leaves the tracing flag and the registry as they
    are. *)
Lemma g2engine_traced (client : G2engine) :
  g2engine.isTrace (g2engine.traced engineId client) = g2engine.isTrace client
  ∧ g2engine.observers (g2engine.traced engineId client)
    = g2engine.observers client.
Proof. control client; split; reflexivity. Qed.

Lemma g2configmgr_traced (client : G2configmgr) :
  g2configmgr.isTrace (g2configmgr.traced configmgrId client)
  = g2configmgr.isTrace client
  ∧ g2configmgr.observers (g2configmgr.traced configmgrId client)
    = g2configmgr.observers client.
Proof. control client; split; reflexivity. Qed.

Lemma g2product_traced (client : G2product) :
  g2product.isTrace (g2product.traced productId client)
  = g2product.isTrace client
  ∧ g2product.observers (g2product.traced productId client)
    = g2product.observers client.
Proof. control client; split; reflexivity. Qed.

(** The assignments of [notify] build the mapping of the specification. *)
Lemma notification_assignments id now messageId
    (details : gmap string string) :
  (<["messageTime" := strconv.FormatInt now 10]>
     (<["messageId" := strconv.Itoa messageId]>
        (<["subjectId" := strconv.Itoa id]> details))
   = notification id now messageId None details) ∧
  (∀ text,
     <["error" := text]>
       (<["messageTime" := strconv.FormatInt now 10]>
          (<["messageId" := strconv.Itoa messageId]>
             (<["subjectId" := strconv.Itoa id]> details)))
     = notification id now messageId (Some text) details).
Proof.
  unfold notification. split; [|intros text].
  - rewrite (left_id_L ∅ (∪)).
    by rewrite <- !insert_union_l, <- insert_union_singleton_l.
  - rewrite <- insert_union_singleton_l.
    by rewrite <- !insert_union_l, <- insert_union_singleton_l.
Qed.

(** A context field under a name that [notify] does not assign is carried
    as it is. *)
Lemma notification_observerID id now messageId observerID :
  notification id now messageId None {[ "observerID" := observerID ]}
    !! "observerID"
  = Some observerID.
Proof.
  rewrite <- (proj1 (notification_assignments _ _ _ _)).
  rewrite !lookup_insert_ne by done. apply lookup_singleton_eq.
Qed.

(** A call through the shared body: rewrites its run into the closed form
    above. *)
Ltac shared_body :=
  expose;
  first [ rewrite g2engine_method_run
        | rewrite g2configmgr_method_run
        | rewrite g2product_method_run ];
  cbv beta iota.

(** C1 (the code does otherwise): [UnregisterObserver] on a client whose
    [observers] field is nil does not return.  The notification is skipped,
    and the call of [UnregisterObserver] on the nil registry panics; the
    only thing done before is the trace entry, when tracing is on.  This
    holds for the three clients. *)
Theorem UnregisterObserver_without_registry_panics :
  (∀ observer ck (client : G2engine),
     g2engine.observers client = None →
     ∃ client',
       g2engine.UnregisterObserver engineId observer ck client
       = Panicked client'
           (if g2engine.isTrace client
            then [Log 159 [VString (GetObserverId observer)]] else [])
       ∧ g2engine.observers client' = None) ∧
  (∀ observer ck (client : G2configmgr),
     g2configmgr.observers client = None →
     ∃ client',
       g2configmgr.UnregisterObserver configmgrId observer ck client
       = Panicked client'
           (if g2configmgr.isTrace client
            then [Log 27 [VString (GetObserverId observer)]] else [])
       ∧ g2configmgr.observers client' = None) ∧
  (∀ observer ck (client : G2product),
     g2product.observers client = None →
     ∃ client',
       g2product.UnregisterObserver productId observer ck client
       = Panicked client'
           (if g2product.isTrace client
            then [Log 23 [VString (GetObserverId observer)]] else [])
       ∧ g2product.observers client' = None).
Proof.
  repeat split; intros observer ck client Hnil; control client;
    try discriminate Hnil; eexists; split; reflexivity.
Qed.

(** C2 (the code does otherwise): in [g2configmgr], [GetSdkId] and
    [RegisterObserver] notify with the same event id.  [RegisterObserver]
    always launches one notifying goroutine, with id 8010; [GetSdkId]
    launches one when a registry is present, with id 8010 too. *)
Theorem g2configmgr_GetSdkId_RegisterObserver_share_event_id :
  ∀ observer ck (client : G2configmgr),
    launched
      (trace_of (g2configmgr.RegisterObserver configmgrId observer ck client))
    = [8010] ∧
    launched (trace_of (g2configmgr.GetSdkId configmgrId ck client))
    = (if g2configmgr.observers client is Some _ then [8010] else []).
Proof.
  intros observer ck client; control client; split; reflexivity.
Qed.

(** C3: a call that returns one string or one int64 next to its error
    returns the value [V] that its canned field holds, unchanged, and a nil
    error, whatever the rest of the client; on the zero value of the client
    it returns the empty string or 0, and a nil error.  This holds for the
    three clients. *)
Theorem canned_result_is_returned :
  (∀ call field ck (client : G2engine),
     g2engine.canned call = Some field →
     match field with
     | Canned_string field =>
         (∀ V, field client = V →
               value_of (g2engine.invoke engineId call ck client)
               = Some (Ret_string_error V None))
         ∧ value_of (g2engine.invoke engineId call ck g2engine.zero)
           = Some (Ret_string_error "" None)
     | Canned_int64 field =>
         (∀ V, field client = V →
               value_of (g2engine.invoke engineId call ck client)
               = Some (Ret_int64_error V None))
         ∧ value_of (g2engine.invoke engineId call ck g2engine.zero)
           = Some (Ret_int64_error 0 None)
     end) ∧
  (∀ call field ck (client : G2configmgr),
     g2configmgr.canned call = Some field →
     match field with
     | Canned_string field =>
         (∀ V, field client = V →
               value_of (g2configmgr.invoke configmgrId call ck client)
               = Some (Ret_string_error V None))
         ∧ value_of (g2configmgr.invoke configmgrId call ck g2configmgr.zero)
           = Some (Ret_string_error "" None)
     | Canned_int64 field =>
         (∀ V, field client = V →
               value_of (g2configmgr.invoke configmgrId call ck client)
               = Some (Ret_int64_error V None))
         ∧ value_of (g2configmgr.invoke configmgrId call ck g2configmgr.zero)
           = Some (Ret_int64_error 0 None)
     end) ∧
  (∀ call field ck (client : G2product),
     g2product.canned call = Some field →
     match field with
     | Canned_string field =>
         (∀ V, field client = V →
               value_of (g2product.invoke productId call ck client)
               = Some (Ret_string_error V None))
         ∧ value_of (g2product.invoke productId call ck g2product.zero)
           = Some (Ret_string_error "" None)
     | Canned_int64 field =>
         (∀ V, field client = V →
               value_of (g2product.invoke productId call ck client)
               = Some (Ret_int64_error V None))
         ∧ value_of (g2product.invoke productId call ck g2product.zero)
           = Some (Ret_int64_error 0 None)
     end).
Proof.
  repeat apply conj; intros call field ck client Hfield;
    destruct call; try discriminate Hfield;
    injection Hfield as <-; (split; [intros V <-; control client|]);
    reflexivity.
Qed.

(** C4 (the code does otherwise on one path): whenever a method returns,
    its error is nil, or it is the error that the registry gave to
    [RegisterObserver] or to [UnregisterObserver], passed on unchanged
    ([GetSdkId] of [g2engine] and of [g2configmgr] has no error result).
    The one path on which a method does not return is [UnregisterObserver]
    on a client without registry, which panics.  This holds for the three
    clients. *)
Theorem error_is_nil_or_passed_through_or_no_return :
  (∀ call ck (client : G2engine),
     match g2engine.invoke engineId call ck client with
     | Returned r _ _ =>
         error_of r = Some None
         ∨ (call = g2engine.call_GetSdkId ∧ error_of r = None)
         ∨ (∃ observer,
              call = g2engine.call_RegisterObserver observer
              ∧ error_of r
                = Some (snd (subject.RegisterObserver
                               (default subject.SubjectImpl
                                  (g2engine.observers client))
                               observer)))
         ∨ (∃ observer registry,
              call = g2engine.call_UnregisterObserver observer
              ∧ g2engine.observers client = Some registry
              ∧ error_of r
                = Some (snd (subject.UnregisterObserver registry observer)))
     | Panicked _ _ =>
         g2engine.observers client = None
         ∧ ∃ observer, call = g2engine.call_UnregisterObserver observer
     end) ∧
  (∀ call ck (client : G2configmgr),
     match g2configmgr.invoke configmgrId call ck client with
     | Returned r _ _ =>
         error_of r = Some None
         ∨ (call = g2configmgr.call_GetSdkId ∧ error_of r = None)
         ∨ (∃ observer,
              call = g2configmgr.call_RegisterObserver observer
              ∧ error_of r
                = Some (snd (subject.RegisterObserver
                               (default subject.SubjectImpl
                                  (g2configmgr.observers client))
                               observer)))
         ∨ (∃ observer registry,
              call = g2configmgr.call_UnregisterObserver observer
              ∧ g2configmgr.observers client = Some registry
              ∧ error_of r
                = Some (snd (subject.UnregisterObserver registry observer)))
     | Panicked _ _ =>
         g2configmgr.observers client = None
         ∧ ∃ observer, call = g2configmgr.call_UnregisterObserver observer
     end) ∧
  (∀ call ck (client : G2product),
     match g2product.invoke productId call ck client with
     | Returned r _ _ =>
         error_of r = Some None
         ∨ (∃ observer,
              call = g2product.call_RegisterObserver observer
              ∧ error_of r
                = Some (snd (subject.RegisterObserver
                               (default subject.SubjectImpl
                                  (g2product.observers client))
                               observer)))
         ∨ (∃ observer registry,
              call = g2product.call_UnregisterObserver observer
              ∧ g2product.observers client = Some registry
              ∧ error_of r
                = Some (snd (subject.UnregisterObserver registry observer)))
     | Panicked _ _ =>
         g2product.observers client = None
         ∧ ∃ observer, call = g2product.call_UnregisterObserver observer
     end).
Proof.
  repeat apply conj; intros call ck client; destruct call;
    try (shared_body; pick); control client; run; pick.
Qed.

(** C5: with a registry present, [notify] builds the mapping made of the
    context fields, of [subjectId] (the product id of the package, in
    decimal), [messageId] (the event id, in decimal) and [messageTime] (the
    clock reading in nanoseconds, in decimal), and of [error] (the text of
    the error) when the error is not nil; it serializes that mapping, and,
    the serialization succeeding, hands the resulting string, and nothing
    else, to the registry to publish to its observers.  The client is left
    as it was.  This holds for the three clients. *)
Theorem notify_publishes_notification :
  (∀ messageId err details ck (client : G2engine) registry,
     g2engine.observers client = Some registry →
     let m := notification engineId (UnixNano ck) messageId err details in
     snd (json.Marshal m) = None →
     g2engine.notify engineId messageId err details ck client
     = Returned () client [NotifyObservers registry (fst (json.Marshal m))]) ∧
  (∀ messageId err details ck (client : G2configmgr) registry,
     g2configmgr.observers client = Some registry →
     let m := notification configmgrId (UnixNano ck) messageId err details in
     snd (json.Marshal m) = None →
     g2configmgr.notify configmgrId messageId err details ck client
     = Returned () client [NotifyObservers registry (fst (json.Marshal m))]) ∧
  (∀ messageId err details ck (client : G2product) registry,
     g2product.observers client = Some registry →
     let m := notification productId (UnixNano ck) messageId err details in
     snd (json.Marshal m) = None →
     g2product.notify productId messageId err details ck client
     = Returned () client [NotifyObservers registry (fst (json.Marshal m))]).
Proof.
  repeat split; intros messageId err details ck client registry Hreg m Hok;
    subst m; destruct client as [t l o]; simpl in Hreg; subst o;
    destruct err as [text|]; exec;
    first [ rewrite (proj2 (notification_assignments _ _ _ _))
          | rewrite (proj1 (notification_assignments _ _ _ _)) ];
    rewrite Hok; reflexivity.
Qed.
(** C6: over a registry that is not empty once an observer is added to it,
    every call of every client preserves the invariant that the [observers]
    field is nil or refers to a registry with at least one observer: the
    client that the call leaves behind satisfies it whenever the client it
    started from does.  [RegisterObserver] adds to the registry of the
    client, or to a new one when the client has none, and stores the
    result; [UnregisterObserver] on a client with a registry leaves the
    field nil exactly when the registry is empty after the removal. *)
Theorem registry_is_absent_or_not_empty :
  (∀ registry observer,
     subject.HasObservers (fst (subject.RegisterObserver registry observer))
     = true) →
  ((∀ call ck (client : G2engine),
      g2engine.registry_inv client →
      g2engine.registry_inv (state_of (g2engine.invoke engineId call ck client))) ∧
   (∀ call ck (client : G2configmgr),
      g2configmgr.registry_inv client →
      g2configmgr.registry_inv (state_of (g2configmgr.invoke configmgrId call ck client))) ∧
   (∀ call ck (client : G2product),
      g2product.registry_inv client →
      g2product.registry_inv (state_of (g2product.invoke productId call ck client)))) ∧
  ((∀ observer ck (client : G2engine),
      g2engine.observers
        (state_of (g2engine.RegisterObserver engineId observer ck client))
      = Some (fst (subject.RegisterObserver
                     (default subject.SubjectImpl (g2engine.observers client))
                     observer))) ∧
   (∀ observer ck (client : G2configmgr),
      g2configmgr.observers
        (state_of (g2configmgr.RegisterObserver configmgrId observer ck client))
      = Some (fst (subject.RegisterObserver
                     (default subject.SubjectImpl (g2configmgr.observers client))
                     observer))) ∧
   (∀ observer ck (client : G2product),
      g2product.observers
        (state_of (g2product.RegisterObserver productId observer ck client))
      = Some (fst (subject.RegisterObserver
                     (default subject.SubjectImpl (g2product.observers client))
                     observer)))) ∧
  ((∀ observer ck (client : G2engine) registry,
      g2engine.observers client = Some registry →
      let registry' := fst (subject.UnregisterObserver registry observer) in
      g2engine.observers
        (state_of (g2engine.UnregisterObserver engineId observer ck client))
      = if subject.HasObservers registry' then Some registry' else None) ∧
   (∀ observer ck (client : G2configmgr) registry,
      g2configmgr.observers client = Some registry →
      let registry' := fst (subject.UnregisterObserver registry observer) in
      g2configmgr.observers
        (state_of (g2configmgr.UnregisterObserver configmgrId observer ck client))
      = if subject.HasObservers registry' then Some registry' else None) ∧
   (∀ observer ck (client : G2product) registry,
      g2product.observers client = Some registry →
      let registry' := fst (subject.UnregisterObserver registry observer) in
      g2product.observers
        (state_of (g2product.UnregisterObserver productId observer ck client))
      = if subject.HasObservers registry' then Some registry' else None)).
Proof.
  intros Hadd. split; [|split].
  - repeat apply conj; intros call ck client;
      unfold g2engine.registry_inv, g2configmgr.registry_inv,
        g2product.registry_inv;
      intros Hinv; destruct call;
      try (shared_body; lazy beta iota delta [state_of];
           first [ rewrite (proj2 (g2engine_traced _))
                 | rewrite (proj2 (g2configmgr_traced _))
                 | rewrite (proj2 (g2product_traced _)) ];
           exact Hinv);
      control client; run;
      first [ exact I | apply Hadd | exact Hinv | assumption ].
  - repeat apply conj; intros observer ck client; control client; run;
      reflexivity.
  - repeat apply conj; intros observer ck client registry Hreg registry';
      subst registry'; destruct client as [t l o]; simpl in Hreg; subst o;
      destruct t, l; run; reflexivity.
Qed.

(** C7: [UnregisterObserver] on a client with a registry, the serialization
    succeeding, returns what the removal returns, and does what it does in
    this order: the trace entry when tracing, the publication of the
    notification, the removal, the assignment of nil to the [observers]
    field when the registry is empty after the removal, the trace exit when
    tracing.  The notification carries the id of the observer under
    [observerID] and is handed to the registry as it is before the removal,
    in which an observer that was registered still is.  The removal and the
    assignment of nil come only after the publication, and the assignment
    only after the removal; the field is left holding the registry without
    the observer, or nil.  This holds for the three clients. *)
Theorem UnregisterObserver_notifies_before_removal :
  (∀ observer ck (client : G2engine) registry,
     g2engine.observers client = Some registry →
     let m :=
       notification engineId (UnixNano ck) 8078 None
         {[ "observerID" := GetObserverId observer ]} in
     snd (json.Marshal m) = None →
     let removal := subject.UnregisterObserver registry observer in
     let outcome := g2engine.UnregisterObserver engineId observer ck client in
     value_of outcome = Some (snd removal)
     ∧ trace_of outcome
       = ((if g2engine.isTrace client
          then [Log 159 [VString (GetObserverId observer)]] else [])
         ++ [NotifyObservers registry (fst (json.Marshal m));
             RegistryUnregister registry observer]
         ++ (if subject.HasObservers (fst removal)
             then [] else [AssignObservers None])
         ++ (if g2engine.isTrace client
             then [Log 160
                     [VString (GetObserverId observer);
                      VError (snd removal); VDuration (Since ck)]]
             else []))%list
     ∧ m !! "observerID" = Some (GetObserverId observer)
     ∧ g2engine.observers (state_of outcome)
       = if subject.HasObservers (fst removal)
         then Some (fst removal) else None) ∧
  (∀ observer ck (client : G2configmgr) registry,
     g2configmgr.observers client = Some registry →
     let m :=
       notification configmgrId (UnixNano ck) 8012 None
         {[ "observerID" := GetObserverId observer ]} in
     snd (json.Marshal m) = None →
     let removal := subject.UnregisterObserver registry observer in
     let outcome := g2configmgr.UnregisterObserver configmgrId observer ck client in
     value_of outcome = Some (snd removal)
     ∧ trace_of outcome
       = ((if g2configmgr.isTrace client
          then [Log 27 [VString (GetObserverId observer)]] else [])
         ++ [NotifyObservers registry (fst (json.Marshal m));
             RegistryUnregister registry observer]
         ++ (if subject.HasObservers (fst removal)
             then [] else [AssignObservers None])
         ++ (if g2configmgr.isTrace client
             then [Log 28
                     [VString (GetObserverId observer);
                      VError (snd removal); VDuration (Since ck)]]
             else []))%list
     ∧ m !! "observerID" = Some (GetObserverId observer)
     ∧ g2configmgr.observers (state_of outcome)
       = if subject.HasObservers (fst removal)
         then Some (fst removal) else None) ∧
  (∀ observer ck (client : G2product) registry,
     g2product.observers client = Some registry →
     let m :=
       notification productId (UnixNano ck) 8010 None
         {[ "observerID" := GetObserverId observer ]} in
     snd (json.Marshal m) = None →
     let removal := subject.UnregisterObserver registry observer in
     let outcome := g2product.UnregisterObserver productId observer ck client in
     value_of outcome = Some (snd removal)
     ∧ trace_of outcome
       = ((if g2product.isTrace client
          then [Log 23 [VString (GetObserverId observer)]] else [])
         ++ [NotifyObservers registry (fst (json.Marshal m));
             RegistryUnregister registry observer]
         ++ (if subject.HasObservers (fst removal)
             then [] else [AssignObservers None])
         ++ (if g2product.isTrace client
             then [Log 24
                     [VString (GetObserverId observer);
                      VError (snd removal); VDuration (Since ck)]]
             else []))%list
     ∧ m !! "observerID" = Some (GetObserverId observer)
     ∧ g2product.observers (state_of outcome)
       = if subject.HasObservers (fst removal)
         then Some (fst removal) else None).
Proof.
  repeat apply conj;
    intros observer ck client registry Hreg m Hok removal outcome;
    subst m removal outcome; destruct client as [t l o]; simpl in Hreg;
    subst o; destruct t, l; exec;
    rewrite (proj1 (notification_assignments _ _ _ _)), Hok; run;
    (repeat apply conj; first [reflexivity | apply notification_observerID]).
Qed.
(** C8: [GetSdkId] returns the literal "mock" for every client, whatever
    its canned fields, observers and tracing flag; in [g2product] the error
    next to it is nil. *)
Theorem GetSdkId_returns_mock :
  (∀ ck (client : G2engine),
     value_of (g2engine.GetSdkId engineId ck client) = Some "mock") ∧
  (∀ ck (client : G2configmgr),
     value_of (g2configmgr.GetSdkId configmgrId ck client) = Some "mock") ∧
  (∀ ck (client : G2product),
     value_of (g2product.GetSdkId productId ck client) = Some ("mock", None)).
Proof. repeat split; intros ck client; control client; reflexivity. Qed.

(** C9, amended: when the tracing flag is off as a method is called, the
    method makes no trace entry; and it makes no trace exit, unless it is
    [SetLogLevel] and has turned the flag on, in which case it makes its
    trace exit, and nothing else, on the logger.  Neither depends on the
    observers or on the canned fields.  This holds for the three
    clients. *)
Theorem no_trace_when_tracing_is_off :
  (∀ call ck (client : G2engine),
     g2engine.isTrace client = false →
     logged (trace_of (g2engine.invoke engineId call ck client))
     = match call with
       | g2engine.call_SetLogLevel logLevel =>
           if g2engine.isTrace
                (state_of (g2engine.invoke engineId call ck client))
           then [Log 138
                   [VLevel logLevel; VError None; VDuration (Since ck)]]
           else []
       | _ => []
       end) ∧
  (∀ call ck (client : G2configmgr),
     g2configmgr.isTrace client = false →
     logged (trace_of (g2configmgr.invoke configmgrId call ck client))
     = match call with
       | g2configmgr.call_SetLogLevel logLevel =>
           if g2configmgr.isTrace
                (state_of (g2configmgr.invoke configmgrId call ck client))
           then [Log 24
                   [VLevel logLevel; VError None; VDuration (Since ck)]]
           else []
       | _ => []
       end) ∧
  (∀ call ck (client : G2product),
     g2product.isTrace client = false →
     logged (trace_of (g2product.invoke productId call ck client))
     = match call with
       | g2product.call_SetLogLevel logLevel =>
           if g2product.isTrace
                (state_of (g2product.invoke productId call ck client))
           then [Log 14
                   [VLevel logLevel; VError None; VDuration (Since ck)]]
           else []
       | _ => []
       end).
Proof.
  repeat apply conj; intros call ck client Hoff; destruct call;
    try (shared_body; rewrite Hoff;
         match goal with
         | |- context [if ?o is Some _ then _ else _] => destruct o
         end; reflexivity);
    control client; try discriminate Hoff; run; reflexivity.
Qed.
(** C10: [SetLogLevel] returns, with the level set on the logger of the
    client, which it creates if need be, and with the tracing flag on
    exactly when the level that logger then reports is TRACE; every other
    method leaves the tracing flag as it found it.  This holds for the
    three clients. *)
Theorem tracing_flag_follows_log_level :
  ((∀ logLevel ck (client : G2engine),
     let after := state_of (g2engine.SetLogLevel engineId logLevel ck client) in
     let l :=
       messagelogger.SetLogLevel
         (default
            (messagelogger.NewSenzingApiLogger engineId messagelogger.LevelInfo)
            (g2engine.logger client))
         logLevel in
     value_of (g2engine.SetLogLevel engineId logLevel ck client) = Some None
     ∧ g2engine.logger after = Some l
     ∧ (g2engine.isTrace after = true
        ↔ messagelogger.GetLogLevel l = messagelogger.LevelTrace)) ∧
   (∀ logLevel ck (client : G2configmgr),
     let after := state_of (g2configmgr.SetLogLevel configmgrId logLevel ck client) in
     let l :=
       messagelogger.SetLogLevel
         (default
            (messagelogger.NewSenzingApiLogger configmgrId messagelogger.LevelInfo)
            (g2configmgr.logger client))
         logLevel in
     value_of (g2configmgr.SetLogLevel configmgrId logLevel ck client) = Some None
     ∧ g2configmgr.logger after = Some l
     ∧ (g2configmgr.isTrace after = true
        ↔ messagelogger.GetLogLevel l = messagelogger.LevelTrace)) ∧
   (∀ logLevel ck (client : G2product),
     let after := state_of (g2product.SetLogLevel productId logLevel ck client) in
     let l :=
       messagelogger.SetLogLevel
         (default
            (messagelogger.NewSenzingApiLogger productId messagelogger.LevelInfo)
            (g2product.logger client))
         logLevel in
     value_of (g2product.SetLogLevel productId logLevel ck client) = Some None
     ∧ g2product.logger after = Some l
     ∧ (g2product.isTrace after = true
        ↔ messagelogger.GetLogLevel l = messagelogger.LevelTrace))) ∧
  ((∀ call ck (client : G2engine),
     (∀ logLevel, call ≠ g2engine.call_SetLogLevel logLevel) →
     g2engine.isTrace (state_of (g2engine.invoke engineId call ck client))
     = g2engine.isTrace client) ∧
   (∀ call ck (client : G2configmgr),
     (∀ logLevel, call ≠ g2configmgr.call_SetLogLevel logLevel) →
     g2configmgr.isTrace (state_of (g2configmgr.invoke configmgrId call ck client))
     = g2configmgr.isTrace client) ∧
   (∀ call ck (client : G2product),
     (∀ logLevel, call ≠ g2product.call_SetLogLevel logLevel) →
     g2product.isTrace (state_of (g2product.invoke productId call ck client))
     = g2product.isTrace client)).
Proof.
  split.
  - repeat apply conj; intros logLevel ck client after l; subst after l;
      control client; run; (split; [reflexivity | split; [reflexivity|]]);
      match goal with
      | E : bool_decide _ = true |- _ =>
          apply bool_decide_eq_true in E;
          split; [intros _; exact E | reflexivity]
      | E : bool_decide _ = false |- _ =>
          apply bool_decide_eq_false in E;
          split; [discriminate | intros Htrace; destruct (E Htrace)]
      end.
  - repeat apply conj; intros call ck client Hother; destruct call;
      try (shared_body; lazy beta iota delta [state_of];
           first [ apply g2engine_traced | apply g2configmgr_traced
                 | apply g2product_traced ]);
      try (exfalso; eapply Hother; reflexivity);
      control client; run; reflexivity.
Qed.
(** *** Runs of several calls

    [exec_all] runs, besides what [exec] runs, the shared body of the
    methods and the goroutines; [expose_all] unfolds the methods behind the
    calls of the goal. *)
Ltac exec_all :=
  lazy beta iota zeta delta
    [bind ret get put emit clock panic skip fmap_ trace_of state_of
     value_of error_of logged is_Log List.filter app g2engine.invoke
     g2engine.RegisterObserver g2engine.SetLogLevel
     g2engine.UnregisterObserver g2engine.if_isTrace g2engine.if_observers
     g2engine.on_observers g2engine.assign_observers g2engine.return_
     g2engine.traceEntry g2engine.traceExit g2engine.getLogger
     g2engine.notify g2engine.set_observers g2engine.set_logger
     g2engine.set_isTrace g2engine.set_control g2engine.isTrace
     g2engine.logger g2engine.observers g2configmgr.invoke
     g2configmgr.RegisterObserver g2configmgr.SetLogLevel
     g2configmgr.UnregisterObserver g2configmgr.if_isTrace
     g2configmgr.if_observers g2configmgr.on_observers
     g2configmgr.assign_observers g2configmgr.return_
     g2configmgr.traceEntry g2configmgr.traceExit g2configmgr.getLogger
     g2configmgr.notify g2configmgr.set_observers g2configmgr.set_logger
     g2configmgr.set_isTrace g2configmgr.set_control g2configmgr.isTrace
     g2configmgr.logger g2configmgr.observers g2product.invoke
     g2product.RegisterObserver g2product.SetLogLevel
     g2product.UnregisterObserver g2product.if_isTrace
     g2product.if_observers g2product.on_observers
     g2product.assign_observers g2product.return_ g2product.traceEntry
     g2product.traceExit g2product.getLogger g2product.notify
     g2product.set_observers g2product.set_logger g2product.set_isTrace
     g2product.set_control g2product.isTrace g2product.logger
     g2product.observers is_Go goroutines published launched
     g2engine.method g2engine.goroutine g2engine.traced
     g2engine.with_logger g2configmgr.method g2configmgr.goroutine
     g2configmgr.traced g2configmgr.with_logger g2product.method
     g2product.goroutine g2product.traced g2product.with_logger].
Ltac expose_all :=
  lazy beta iota delta [g2engine.invoke g2configmgr.invoke g2product.invoke];
  repeat match goal with
         | |- context [fmap_ _ ?m] =>
             let m' := eval red in m in progress change m with m'
         end.

(** X1: a method launches one notifying goroutine when the client has a
    registry and none when it has not, and publishes nothing itself.
    [RegisterObserver] always launches one; [UnregisterObserver] launches
    none, with or without registry.  This holds for the three clients. *)
Theorem one_goroutine_with_registry_none_without :
  (∀ call ck (client : G2engine),
     let tr := trace_of (g2engine.invoke engineId call ck client) in
     match call with
     | g2engine.call_UnregisterObserver _ => goroutines tr = []
     | g2engine.call_RegisterObserver _ =>
         length (goroutines tr) = 1%nat ∧ published tr = []
     | _ =>
         length (goroutines tr)
         = (if g2engine.observers client is Some _ then 1%nat else 0%nat)
         ∧ published tr = []
     end) ∧
  (∀ call ck (client : G2configmgr),
     let tr := trace_of (g2configmgr.invoke configmgrId call ck client) in
     match call with
     | g2configmgr.call_UnregisterObserver _ => goroutines tr = []
     | g2configmgr.call_RegisterObserver _ =>
         length (goroutines tr) = 1%nat ∧ published tr = []
     | _ =>
         length (goroutines tr)
         = (if g2configmgr.observers client is Some _ then 1%nat else 0%nat)
         ∧ published tr = []
     end) ∧
  (∀ call ck (client : G2product),
     let tr := trace_of (g2product.invoke productId call ck client) in
     match call with
     | g2product.call_UnregisterObserver _ => goroutines tr = []
     | g2product.call_RegisterObserver _ =>
         length (goroutines tr) = 1%nat ∧ published tr = []
     | _ =>
         length (goroutines tr)
         = (if g2product.observers client is Some _ then 1%nat else 0%nat)
         ∧ published tr = []
     end).
Proof.
  repeat apply conj; intros call ck client tr; subst tr; destruct call;
    try (shared_body;
         match goal with
         | |- context [if ?t then [Log _ _] else []] => destruct t
         end;
         match goal with
         | |- context [if ?o is Some _ then _ else _] => destruct o
         end; split; reflexivity);
    control client; run; first [reflexivity | split; reflexivity].
Qed.

(** X2: no method writes a canned field: the client that a call leaves
    behind, whether it returns or panics, is the client it started from
    with at most the three unexported fields changed; and only
    [RegisterObserver] and [UnregisterObserver] change the [observers]
    field.  This holds for the three clients. *)
Theorem canned_fields_are_never_written :
  (∀ call ck (client : G2engine),
     let after := state_of (g2engine.invoke engineId call ck client) in
     after
     = g2engine.set_control (g2engine.isTrace after) (g2engine.logger after)
         (g2engine.observers after) client
     ∧ match call with
       | g2engine.call_RegisterObserver _
       | g2engine.call_UnregisterObserver _ => True
       | _ => g2engine.observers after = g2engine.observers client
       end) ∧
  (∀ call ck (client : G2configmgr),
     let after := state_of (g2configmgr.invoke configmgrId call ck client) in
     after
     = g2configmgr.set_control (g2configmgr.isTrace after) (g2configmgr.logger after)
         (g2configmgr.observers after) client
     ∧ match call with
       | g2configmgr.call_RegisterObserver _
       | g2configmgr.call_UnregisterObserver _ => True
       | _ => g2configmgr.observers after = g2configmgr.observers client
       end) ∧
  (∀ call ck (client : G2product),
     let after := state_of (g2product.invoke productId call ck client) in
     after
     = g2product.set_control (g2product.isTrace after) (g2product.logger after)
         (g2product.observers after) client
     ∧ match call with
       | g2product.call_RegisterObserver _
       | g2product.call_UnregisterObserver _ => True
       | _ => g2product.observers after = g2product.observers client
       end).
Proof.
  repeat apply conj; intros call ck client after; subst after;
    destruct call; try shared_body; control client; run;
    split; first [reflexivity | exact I].
Qed.

(** X3: the logger is created on demand and then kept: a method other
    than [SetLogLevel] leaves the [logger] field as it is when tracing is
    off, and when tracing is on it leaves the logger that the client had,
    or a new one, at the INFO level, if the client had none.  This holds for
    the three clients. *)
Theorem logger_is_created_once :
  (∀ call ck (client : G2engine),
     (∀ logLevel, call ≠ g2engine.call_SetLogLevel logLevel) →
     g2engine.logger (state_of (g2engine.invoke engineId call ck client))
     = if g2engine.isTrace client
       then Some (default
                    (messagelogger.NewSenzingApiLogger engineId
                       messagelogger.LevelInfo)
                    (g2engine.logger client))
       else g2engine.logger client) ∧
  (∀ call ck (client : G2configmgr),
     (∀ logLevel, call ≠ g2configmgr.call_SetLogLevel logLevel) →
     g2configmgr.logger (state_of (g2configmgr.invoke configmgrId call ck client))
     = if g2configmgr.isTrace client
       then Some (default
                    (messagelogger.NewSenzingApiLogger configmgrId
                       messagelogger.LevelInfo)
                    (g2configmgr.logger client))
       else g2configmgr.logger client) ∧
  (∀ call ck (client : G2product),
     (∀ logLevel, call ≠ g2product.call_SetLogLevel logLevel) →
     g2product.logger (state_of (g2product.invoke productId call ck client))
     = if g2product.isTrace client
       then Some (default
                    (messagelogger.NewSenzingApiLogger productId
                       messagelogger.LevelInfo)
                    (g2product.logger client))
       else g2product.logger client).
Proof.
  repeat apply conj; intros call ck client Hother; destruct call;
    try (exfalso; eapply Hother; reflexivity);
    try shared_body; control client; run; reflexivity.
Qed.

(** A method that does not touch the registry returns, and returns what it
    returns on the client with tracing off, no logger and no registry. *)
Lemma result_on_bare_client :
  (∀ call ck ck' (client : G2engine),
     match call with
     | g2engine.call_RegisterObserver _
     | g2engine.call_UnregisterObserver _ => True
     | _ =>
         is_Some (value_of (g2engine.invoke engineId call ck client))
         ∧ value_of (g2engine.invoke engineId call ck client)
           = value_of (g2engine.invoke engineId call ck'
                         (g2engine.set_control false None None client))
     end) ∧
  (∀ call ck ck' (client : G2configmgr),
     match call with
     | g2configmgr.call_RegisterObserver _
     | g2configmgr.call_UnregisterObserver _ => True
     | _ =>
         is_Some (value_of (g2configmgr.invoke configmgrId call ck client))
         ∧ value_of (g2configmgr.invoke configmgrId call ck client)
           = value_of (g2configmgr.invoke configmgrId call ck'
                         (g2configmgr.set_control false None None client))
     end) ∧
  (∀ call ck ck' (client : G2product),
     match call with
     | g2product.call_RegisterObserver _
     | g2product.call_UnregisterObserver _ => True
     | _ =>
         is_Some (value_of (g2product.invoke productId call ck client))
         ∧ value_of (g2product.invoke productId call ck client)
           = value_of (g2product.invoke productId call ck'
                         (g2product.set_control false None None client))
     end).
Proof.
  repeat apply conj; intros call ck ck' client; destruct call;
    try exact I; control client; run; (split; [eexists|]; reflexivity).
Qed.

(** X4: what a method returns depends on the canned fields and on nothing
    else: a method other than [RegisterObserver] and [UnregisterObserver]
    returns, and returns the same, whatever the tracing flag, the logger,
    the registry and the clock.  This holds for the three clients. *)
Theorem result_is_independent_of_tracing_and_observers :
  (∀ call ck ck' (client : G2engine) t l o,
     match call with
     | g2engine.call_RegisterObserver _
     | g2engine.call_UnregisterObserver _ => True
     | _ =>
         is_Some (value_of (g2engine.invoke engineId call ck client))
         ∧ value_of (g2engine.invoke engineId call ck client)
           = value_of (g2engine.invoke engineId call ck'
                         (g2engine.set_control t l o client))
     end) ∧
  (∀ call ck ck' (client : G2configmgr) t l o,
     match call with
     | g2configmgr.call_RegisterObserver _
     | g2configmgr.call_UnregisterObserver _ => True
     | _ =>
         is_Some (value_of (g2configmgr.invoke configmgrId call ck client))
         ∧ value_of (g2configmgr.invoke configmgrId call ck client)
           = value_of (g2configmgr.invoke configmgrId call ck'
                         (g2configmgr.set_control t l o client))
     end) ∧
  (∀ call ck ck' (client : G2product) t l o,
     match call with
     | g2product.call_RegisterObserver _
     | g2product.call_UnregisterObserver _ => True
     | _ =>
         is_Some (value_of (g2product.invoke productId call ck client))
         ∧ value_of (g2product.invoke productId call ck client)
           = value_of (g2product.invoke productId call ck'
                         (g2product.set_control t l o client))
     end).
Proof.
  destruct result_on_bare_client as (He & Hc & Hp).
  repeat apply conj; intros call ck ck' client t l o;
    [ specialize (He call) | specialize (Hc call) | specialize (Hp call) ];
    destruct call; try exact I;
    (split;
     [ first [apply (He ck ck) | apply (Hc ck ck) | apply (Hp ck ck)] |]);
    (etransitivity;
     [ first [apply (He ck ck) | apply (Hc ck ck) | apply (Hp ck ck)] |]);
    (etransitivity;
     [| symmetry;
        first [apply (He ck' ck) | apply (Hc ck' ck) | apply (Hp ck' ck)] ]);
    destruct client; reflexivity.
Qed.

(** X5: tracing brackets the call.  With the tracing flag on, a method that
    returns logs its trace entry before anything else and, unless it is a
    [SetLogLevel] that has turned the flag off, its trace exit after
    everything else, and logs nothing in between.  The number of the exit
    is the number of the entry plus one; the exit is logged with the
    arguments of the entry first, and with the error that the method
    returns and the time since the entry last.  This holds for the three
    clients. *)
Theorem trace_entry_and_exit_bracket_the_call :
  (∀ call ck (client : G2engine) r,
     let outcome := g2engine.invoke engineId call ck client in
     g2engine.isTrace client = true →
     value_of outcome = Some r →
     ∃ entry entryArgs exitArgs,
       trace_of outcome
       = (Log entry entryArgs
            :: List.filter (λ e, negb (is_Log e)) (trace_of outcome)
            ++ (if g2engine.isTrace (state_of outcome)
                then [Log (entry + 1) exitArgs] else []))%list
       ∧ (g2engine.isTrace (state_of outcome) = true →
          take (length entryArgs) exitArgs = entryArgs
          ∧ drop (length exitArgs - 2) exitArgs
            = [VError (default None (error_of r)); VDuration (Since ck)])) ∧
  (∀ call ck (client : G2configmgr) r,
     let outcome := g2configmgr.invoke configmgrId call ck client in
     g2configmgr.isTrace client = true →
     value_of outcome = Some r →
     ∃ entry entryArgs exitArgs,
       trace_of outcome
       = (Log entry entryArgs
            :: List.filter (λ e, negb (is_Log e)) (trace_of outcome)
            ++ (if g2configmgr.isTrace (state_of outcome)
                then [Log (entry + 1) exitArgs] else []))%list
       ∧ (g2configmgr.isTrace (state_of outcome) = true →
          take (length entryArgs) exitArgs = entryArgs
          ∧ drop (length exitArgs - 2) exitArgs
            = [VError (default None (error_of r)); VDuration (Since ck)])) ∧
  (∀ call ck (client : G2product) r,
     let outcome := g2product.invoke productId call ck client in
     g2product.isTrace client = true →
     value_of outcome = Some r →
     ∃ entry entryArgs exitArgs,
       trace_of outcome
       = (Log entry entryArgs
            :: List.filter (λ e, negb (is_Log e)) (trace_of outcome)
            ++ (if g2product.isTrace (state_of outcome)
                then [Log (entry + 1) exitArgs] else []))%list
       ∧ (g2product.isTrace (state_of outcome) = true →
          take (length entryArgs) exitArgs = entryArgs
          ∧ drop (length exitArgs - 2) exitArgs
            = [VError (default None (error_of r)); VDuration (Since ck)])).
Proof.
  repeat apply conj; intros call ck client r outcome Hon; subst outcome;
    destruct call; try shared_body; control client; try discriminate Hon;
    run; intros Hret; try discriminate Hret; injection Hret as <-;
    lazy beta iota delta
      [g2engine.traced g2engine.with_logger g2configmgr.traced
       g2configmgr.with_logger g2product.traced g2product.with_logger];
    exec; lazy beta iota delta [List.filter is_Log negb app];
    match goal with
    | |- ∃ _ _ _, Log ?entry ?entryArgs :: _ = _ ∧ _ =>
        exists entry, entryArgs; eexists
    end;
    (split; [reflexivity | intros Hstill; try discriminate Hstill]);
    split; reflexivity.
  Unshelve. all: exact [].
Qed.

(** X6: the logger is a singleton.  [getLogger] returns the logger of the
    client when there is one, and otherwise a new one, at the INFO level,
    which it stores; it changes no other field, makes no call on a
    collaborator and never panics; called again, it returns the same logger
    and changes nothing.  [traceEntry] and [traceExit] log one line, with the
    number and the details they are given, and leave the client as
    [getLogger] leaves it.  This holds for the three clients. *)
Theorem getLogger_is_a_singleton :
  (∀ ck ck' (client : G2engine),
     let outcome := g2engine.getLogger engineId ck client in
     ∃ l,
       outcome = Returned l (g2engine.set_logger (Some l) client) []
       ∧ g2engine.getLogger engineId ck' (state_of outcome)
         = Returned l (state_of outcome) []
       ∧ (∀ l0, g2engine.logger client = Some l0 → l = l0)
       ∧ (g2engine.logger client = None →
          l = messagelogger.NewSenzingApiLogger engineId
                messagelogger.LevelInfo)
       ∧ ∀ errorNumber details,
           g2engine.traceEntry engineId errorNumber details ck client
           = Returned () (state_of outcome) [Log errorNumber details]
           ∧ g2engine.traceExit engineId errorNumber details ck client
             = Returned () (state_of outcome) [Log errorNumber details]) ∧
  (∀ ck ck' (client : G2configmgr),
     let outcome := g2configmgr.getLogger configmgrId ck client in
     ∃ l,
       outcome = Returned l (g2configmgr.set_logger (Some l) client) []
       ∧ g2configmgr.getLogger configmgrId ck' (state_of outcome)
         = Returned l (state_of outcome) []
       ∧ (∀ l0, g2configmgr.logger client = Some l0 → l = l0)
       ∧ (g2configmgr.logger client = None →
          l = messagelogger.NewSenzingApiLogger configmgrId
                messagelogger.LevelInfo)
       ∧ ∀ errorNumber details,
           g2configmgr.traceEntry configmgrId errorNumber details ck client
           = Returned () (state_of outcome) [Log errorNumber details]
           ∧ g2configmgr.traceExit configmgrId errorNumber details ck client
             = Returned () (state_of outcome) [Log errorNumber details]) ∧
  (∀ ck ck' (client : G2product),
     let outcome := g2product.getLogger productId ck client in
     ∃ l,
       outcome = Returned l (g2product.set_logger (Some l) client) []
       ∧ g2product.getLogger productId ck' (state_of outcome)
         = Returned l (state_of outcome) []
       ∧ (∀ l0, g2product.logger client = Some l0 → l = l0)
       ∧ (g2product.logger client = None →
          l = messagelogger.NewSenzingApiLogger productId
                messagelogger.LevelInfo)
       ∧ ∀ errorNumber details,
           g2product.traceEntry productId errorNumber details ck client
           = Returned () (state_of outcome) [Log errorNumber details]
           ∧ g2product.traceExit productId errorNumber details ck client
             = Returned () (state_of outcome) [Log errorNumber details]).
Proof.
  repeat apply conj; intros ck ck' client outcome; subst outcome;
    destruct client as [t l o]; destruct l as [l|]; eexists;
    (split; [reflexivity|]); (split; [reflexivity|]);
    (split; [intros l0 Hl0; simpl in Hl0; congruence|]);
    (split; [intros Hl; simpl in Hl; first [discriminate Hl | reflexivity]|]);
    intros errorNumber details; split; reflexivity.
Qed.

(** X7: [notify] panics exactly when the serialization succeeds and the
    client has no registry; a failed serialization is reported on standard
    output and nothing is published, with or without registry.  In every
    case [notify] leaves the client as it is, logs nothing and launches no
    goroutine.  This holds for the three clients. *)
Theorem notify_panics_exactly_without_registry :
  (∀ messageId err details ck (client : G2engine),
     let outcome := g2engine.notify engineId messageId err details ck client in
     let m := notification engineId (UnixNano ck) messageId err details in
     state_of outcome = client
     ∧ logged (trace_of outcome) = []
     ∧ goroutines (trace_of outcome) = []
     ∧ (value_of outcome = None
        ↔ snd (json.Marshal m) = None ∧ g2engine.observers client = None)
     ∧ (∀ text, snd (json.Marshal m) = Some text →
                trace_of outcome = [Printf ("Error: " +:+ text)])) ∧
  (∀ messageId err details ck (client : G2configmgr),
     let outcome := g2configmgr.notify configmgrId messageId err details ck client in
     let m := notification configmgrId (UnixNano ck) messageId err details in
     state_of outcome = client
     ∧ logged (trace_of outcome) = []
     ∧ goroutines (trace_of outcome) = []
     ∧ (value_of outcome = None
        ↔ snd (json.Marshal m) = None ∧ g2configmgr.observers client = None)
     ∧ (∀ text, snd (json.Marshal m) = Some text →
                trace_of outcome = [Printf ("Error: " +:+ text)])) ∧
  (∀ messageId err details ck (client : G2product),
     let outcome := g2product.notify productId messageId err details ck client in
     let m := notification productId (UnixNano ck) messageId err details in
     state_of outcome = client
     ∧ logged (trace_of outcome) = []
     ∧ goroutines (trace_of outcome) = []
     ∧ (value_of outcome = None
        ↔ snd (json.Marshal m) = None ∧ g2product.observers client = None)
     ∧ (∀ text, snd (json.Marshal m) = Some text →
                trace_of outcome = [Printf ("Error: " +:+ text)])).
Proof.
  repeat apply conj; intros messageId err details ck client outcome m;
    subst outcome m; destruct client as [t l o]; destruct err as [text|];
    exec;
    first [ rewrite (proj2 (notification_assignments _ _ _ _))
          | rewrite (proj1 (notification_assignments _ _ _ _)) ];
    match goal with
    | |- context [snd (json.Marshal ?m)] =>
        destruct (snd (json.Marshal m)) as [failure|]
    end; destruct o as [registry|]; exec;
    (split; [|split; [|split; [|split]]];
     [ reflexivity | reflexivity | reflexivity
     | split; [ intros Hnone; try discriminate Hnone; split; reflexivity
              | intros [Hok Hnil]; first [ discriminate Hok
                                         | discriminate Hnil
                                         | reflexivity ] ]
     | intros text' Hfail; first [ discriminate Hfail
                                 | injection Hfail as <-; reflexivity ] ]).
Qed.

(** The fields of the mapping of a notification. *)
Lemma notification_lookup id now messageId err
    (details : gmap string string) :
  let m := notification id now messageId err details in
  m !! "subjectId" = Some (strconv.Itoa id)
  ∧ m !! "messageId" = Some (strconv.Itoa messageId)
  ∧ m !! "messageTime" = Some (strconv.FormatInt now 10)
  ∧ m !! "error"
    = (if err is Some text then Some text else details !! "error")
  ∧ ∀ k, k ∉ ["subjectId"; "messageId"; "messageTime"; "error"] →
         m !! k = details !! k.
Proof.
  intros m; subst m. destruct err as [text|];
    [ rewrite <- (proj2 (notification_assignments _ _ _ _))
    | rewrite <- (proj1 (notification_assignments _ _ _ _)) ];
    (repeat apply conj;
     [ by simplify_map_eq | by simplify_map_eq | by simplify_map_eq
     | by simplify_map_eq
     | intros k Hk; rewrite !not_elem_of_cons in Hk;
       destruct Hk as (? & ? & ? & ? & _); by simplify_map_eq ]).
Qed.

(** X8: the fields that [notify] sets win over the fields of the caller.
    In the mapping that [notify] serializes, [subjectId], [messageId] and
    [messageTime] are the product id, the event id and the clock reading,
    whatever the caller has put under these names; [error] is the text of
    the error when there is one, and the field of the caller otherwise;
    every field under another name is the field of the caller.  This holds
    for the three clients. *)
Theorem notify_overwrites_the_fields_it_sets :
  (∀ messageId err details ck (client : G2engine),
     ∃ m,
       g2engine.notify engineId messageId err details ck client
       = match snd (json.Marshal m), g2engine.observers client with
         | Some text, _ => Returned () client [Printf ("Error: " +:+ text)]
         | None, Some registry =>
             Returned () client
               [NotifyObservers registry (fst (json.Marshal m))]
         | None, None => Panicked client []
         end
       ∧ m !! "subjectId" = Some (strconv.Itoa engineId)
       ∧ m !! "messageId" = Some (strconv.Itoa messageId)
       ∧ m !! "messageTime" = Some (strconv.FormatInt (UnixNano ck) 10)
       ∧ m !! "error"
         = (if err is Some text then Some text else details !! "error")
       ∧ ∀ k, k ∉ ["subjectId"; "messageId"; "messageTime"; "error"] →
              m !! k = details !! k) ∧
  (∀ messageId err details ck (client : G2configmgr),
     ∃ m,
       g2configmgr.notify configmgrId messageId err details ck client
       = match snd (json.Marshal m), g2configmgr.observers client with
         | Some text, _ => Returned () client [Printf ("Error: " +:+ text)]
         | None, Some registry =>
             Returned () client
               [NotifyObservers registry (fst (json.Marshal m))]
         | None, None => Panicked client []
         end
       ∧ m !! "subjectId" = Some (strconv.Itoa configmgrId)
       ∧ m !! "messageId" = Some (strconv.Itoa messageId)
       ∧ m !! "messageTime" = Some (strconv.FormatInt (UnixNano ck) 10)
       ∧ m !! "error"
         = (if err is Some text then Some text else details !! "error")
       ∧ ∀ k, k ∉ ["subjectId"; "messageId"; "messageTime"; "error"] →
              m !! k = details !! k) ∧
  (∀ messageId err details ck (client : G2product),
     ∃ m,
       g2product.notify productId messageId err details ck client
       = match snd (json.Marshal m), g2product.observers client with
         | Some text, _ => Returned () client [Printf ("Error: " +:+ text)]
         | None, Some registry =>
             Returned () client
               [NotifyObservers registry (fst (json.Marshal m))]
         | None, None => Panicked client []
         end
       ∧ m !! "subjectId" = Some (strconv.Itoa productId)
       ∧ m !! "messageId" = Some (strconv.Itoa messageId)
       ∧ m !! "messageTime" = Some (strconv.FormatInt (UnixNano ck) 10)
       ∧ m !! "error"
         = (if err is Some text then Some text else details !! "error")
       ∧ ∀ k, k ∉ ["subjectId"; "messageId"; "messageTime"; "error"] →
              m !! k = details !! k).
Proof.
  repeat apply conj; intros messageId err details ck client;
    eexists; (split; [|apply notification_lookup]);
    destruct client as [t l o]; destruct err as [text|]; exec;
    first [ rewrite (proj2 (notification_assignments _ _ _ _))
          | rewrite (proj1 (notification_assignments _ _ _ _)) ];
    match goal with
    | |- context [snd (json.Marshal ?m)] =>
        destruct (snd (json.Marshal m)) as [failure|]
    end; destruct o as [registry|]; reflexivity.
Qed.

(** X9: the details of a notification are built from the arguments of the
    method and from the canned fields alone, and under none of the names
    that [notify] sets: whatever the tracing flag, the logger and the
    registry are when the goroutine runs, the details are the same, and they
    have no [subjectId], [messageId], [messageTime] or [error] field.  So
    [notify] overwrites no field of a method.  This holds for every method
    of the three clients. *)
Theorem details_use_no_reserved_name :
  (∀ call ck (client : G2engine),
     Forall (λ e, match e with
                  | Go _ _ details =>
                      ∀ c t l o,
                        details (g2engine.set_control t l o c) = details c
                        ∧ Forall (λ k, details c !! k = None)
                            ["subjectId"; "messageId"; "messageTime";
                             "error"]
                  | _ => True
                  end)
       (trace_of (g2engine.invoke engineId call ck client))) ∧
  (∀ call ck (client : G2configmgr),
     Forall (λ e, match e with
                  | Go _ _ details =>
                      ∀ c t l o,
                        details (g2configmgr.set_control t l o c) = details c
                        ∧ Forall (λ k, details c !! k = None)
                            ["subjectId"; "messageId"; "messageTime";
                             "error"]
                  | _ => True
                  end)
       (trace_of (g2configmgr.invoke configmgrId call ck client))) ∧
  (∀ call ck (client : G2product),
     Forall (λ e, match e with
                  | Go _ _ details =>
                      ∀ c t l o,
                        details (g2product.set_control t l o c) = details c
                        ∧ Forall (λ k, details c !! k = None)
                            ["subjectId"; "messageId"; "messageTime";
                             "error"]
                  | _ => True
                  end)
       (trace_of (g2product.invoke productId call ck client))).
Proof.
  repeat apply conj; intros call ck client; destruct call;
    try shared_body; control client; run;
    repeat first [apply Forall_nil_2 | apply Forall_cons_2];
    try exact I; intros c t' l' o';
    (split; [destruct c; reflexivity|]);
    repeat first [apply Forall_nil_2 | apply Forall_cons_2];
    first [reflexivity | by simplify_map_eq].
Qed.

(** X10: the methods of the engine that return a handle or two values
    return their canned fields, as they are, and a nil error, whatever the
    tracing flag, the logger and the registry of the client:
    [AddRecordWithInfoWithReturnedRecordID], [ExportConfigAndConfigID],
    [ExportCSVEntityReport], [ExportJSONEntityReport] and
    [ProcessRedoRecordWithInfo]. *)
Theorem handles_and_pairs_are_returned_from_canned_fields :
  ∀ ck (client : G2engine),
    let returns call := value_of (g2engine.invoke engineId call ck client) in
    (∀ dataSourceCode jsonData loadID flags,
       returns (g2engine.call_AddRecordWithInfoWithReturnedRecordID
                  dataSourceCode jsonData loadID flags)
       = Some (Ret_string_string_error
                 (g2engine.AddRecordWithInfoWithReturnedRecordIDResultGetWithInfo
                    client)
                 (g2engine.AddRecordWithInfoWithReturnedRecordIDResultRecordID
                    client)
                 None))
    ∧ returns g2engine.call_ExportConfigAndConfigID
      = Some (Ret_string_int64_error
                (g2engine.ExportConfigAndConfigIDResultConfig client)
                (g2engine.ExportConfigAndConfigIDResultConfigID client)
                None)
    ∧ (∀ csvColumnList flags,
         returns (g2engine.call_ExportCSVEntityReport csvColumnList flags)
         = Some (Ret_uintptr_error
                   (g2engine.ExportCSVEntityReportResult client) None))
    ∧ (∀ flags,
         returns (g2engine.call_ExportJSONEntityReport flags)
         = Some (Ret_uintptr_error
                   (g2engine.ExportJSONEntityReportResult client) None))
    ∧ (∀ flags,
         returns (g2engine.call_ProcessRedoRecordWithInfo flags)
         = Some (Ret_string_string_error
                   (g2engine.ProcessRedoRecordWithInfoResult client)
                   (g2engine.ProcessRedoRecordWithInfoResultWithInfo client)
                   None)).
Proof.
  intros ck client returns; subst returns; control client;
    repeat apply conj; intros; reflexivity.
Qed.

(** X11: the notification reports what the method returns.  With a
    registry present, [AddRecordWithInfoWithReturnedRecordID] and
    [AddRecordWithReturnedRecordID] launch one goroutine, whose details,
    read on the client that the method leaves behind, hold under [recordID]
    the record id that the method returns; [ExportConfigAndConfigID]
    launches one whose details hold under [configID] the configuration id
    that the method returns, in decimal. *)
Theorem notification_reports_the_returned_id :
  (∀ dataSourceCode jsonData loadID flags ck (client : G2engine) registry,
     g2engine.observers client = Some registry →
     let outcome :=
       g2engine.AddRecordWithInfoWithReturnedRecordID engineId dataSourceCode
         jsonData loadID flags ck client in
     ∃ details withInfo recordID,
       goroutines (trace_of outcome) = [Go 8003 None details]
       ∧ value_of outcome = Some (withInfo, recordID, None)
       ∧ details (state_of outcome) !! "recordID" = Some recordID) ∧
  (∀ dataSourceCode jsonData loadID ck (client : G2engine) registry,
     g2engine.observers client = Some registry →
     let outcome :=
       g2engine.AddRecordWithReturnedRecordID engineId dataSourceCode
         jsonData loadID ck client in
     ∃ details recordID,
       goroutines (trace_of outcome) = [Go 8004 None details]
       ∧ value_of outcome = Some (recordID, None)
       ∧ details (state_of outcome) !! "recordID" = Some recordID) ∧
  (∀ ck (client : G2engine) registry,
     g2engine.observers client = Some registry →
     let outcome := g2engine.ExportConfigAndConfigID engineId ck client in
     ∃ details config configID,
       goroutines (trace_of outcome) = [Go 8012 None details]
       ∧ value_of outcome = Some (config, configID, None)
       ∧ details (state_of outcome) !! "configID"
         = Some (strconv.FormatInt configID 10)).
Proof.
  repeat apply conj; intros; subst outcome;
    match goal with
    | Hreg : g2engine.observers ?client = Some _ |- _ =>
        destruct client as [t l o]; simpl in Hreg; subst o; destruct t, l
    end;
    repeat eexists; first [reflexivity | by simplify_map_eq].
Qed.

(** X12: a notification that is still pending when the last observer is
    unregistered panics.  On a client with no registry, register an
    observer, call a method, and unregister the observer, the registry being
    empty once its only observer is removed and the serialization
    succeeding.  The method launches one goroutine; run before the observer
    is unregistered, it publishes one message on the registry that holds
    the observer; run after, it finds the [observers] field nil and panics,
    having published nothing.  This holds for every method of the three
    clients but [RegisterObserver] and [UnregisterObserver]. *)
Theorem pending_notification_panics_after_last_unregister :
  (∀ call observer ck1 ck2 ck3 ck4 (client : G2engine),
     g2engine.observers client = None →
     subject.HasObservers
       (fst (subject.UnregisterObserver
               (fst (subject.RegisterObserver subject.SubjectImpl observer))
               observer))
     = false →
     (∀ m, snd (json.Marshal m) = None) →
     let registered :=
       state_of (g2engine.RegisterObserver engineId observer ck1 client) in
     let outcome := g2engine.invoke engineId call ck2 registered in
     let unregistered :=
       state_of (g2engine.UnregisterObserver engineId observer ck3
                   (state_of outcome)) in
     match call with
     | g2engine.call_RegisterObserver _
     | g2engine.call_UnregisterObserver _ => True
     | _ =>
         ∃ e,
           goroutines (trace_of outcome) = [e]
           ∧ (∃ message,
                g2engine.goroutine engineId e ck4 (state_of outcome)
                = Returned () (state_of outcome)
                    [NotifyObservers
                       (fst (subject.RegisterObserver subject.SubjectImpl
                               observer))
                       message])
           ∧ g2engine.goroutine engineId e ck4 unregistered
             = Panicked unregistered []
     end) ∧
  (∀ call observer ck1 ck2 ck3 ck4 (client : G2configmgr),
     g2configmgr.observers client = None →
     subject.HasObservers
       (fst (subject.UnregisterObserver
               (fst (subject.RegisterObserver subject.SubjectImpl observer))
               observer))
     = false →
     (∀ m, snd (json.Marshal m) = None) →
     let registered :=
       state_of (g2configmgr.RegisterObserver configmgrId observer ck1 client) in
     let outcome := g2configmgr.invoke configmgrId call ck2 registered in
     let unregistered :=
       state_of (g2configmgr.UnregisterObserver configmgrId observer ck3
                   (state_of outcome)) in
     match call with
     | g2configmgr.call_RegisterObserver _
     | g2configmgr.call_UnregisterObserver _ => True
     | _ =>
         ∃ e,
           goroutines (trace_of outcome) = [e]
           ∧ (∃ message,
                g2configmgr.goroutine configmgrId e ck4 (state_of outcome)
                = Returned () (state_of outcome)
                    [NotifyObservers
                       (fst (subject.RegisterObserver subject.SubjectImpl
                               observer))
                       message])
           ∧ g2configmgr.goroutine configmgrId e ck4 unregistered
             = Panicked unregistered []
     end) ∧
  (∀ call observer ck1 ck2 ck3 ck4 (client : G2product),
     g2product.observers client = None →
     subject.HasObservers
       (fst (subject.UnregisterObserver
               (fst (subject.RegisterObserver subject.SubjectImpl observer))
               observer))
     = false →
     (∀ m, snd (json.Marshal m) = None) →
     let registered :=
       state_of (g2product.RegisterObserver productId observer ck1 client) in
     let outcome := g2product.invoke productId call ck2 registered in
     let unregistered :=
       state_of (g2product.UnregisterObserver productId observer ck3
                   (state_of outcome)) in
     match call with
     | g2product.call_RegisterObserver _
     | g2product.call_UnregisterObserver _ => True
     | _ =>
         ∃ e,
           goroutines (trace_of outcome) = [e]
           ∧ (∃ message,
                g2product.goroutine productId e ck4 (state_of outcome)
                = Returned () (state_of outcome)
                    [NotifyObservers
                       (fst (subject.RegisterObserver subject.SubjectImpl
                               observer))
                       message])
           ∧ g2product.goroutine productId e ck4 unregistered
             = Panicked unregistered []
     end).
Proof.
  repeat apply conj;
    intros call observer ck1 ck2 ck3 ck4 client Hnone Hlast Hok
      registered outcome unregistered;
    subst registered outcome unregistered; destruct call; try exact I;
    destruct client as [t l o]; simpl in Hnone; subst o; destruct t, l;
    expose_all; exec_all;
    repeat (first [rewrite Hok | rewrite Hlast | split_stuck]; exec_all);
    eexists; (split; [reflexivity|]); exec_all;
    repeat (first [rewrite Hok | rewrite Hlast | split_stuck]; exec_all);
    (split; [eexists|]; reflexivity).
Qed.

(** X13: registering an observer and unregistering it undoes the
    registration.  On a client with no registry, [RegisterObserver] followed
    by [UnregisterObserver] of the same observer, the registry being empty
    once its only observer is removed, both return, with what the registry
    returns, and leave the [observers] field nil again; with tracing off the
    client is as it was before the two calls, field by field.  This holds
    for the three clients. *)
Theorem register_then_unregister_restores_the_client :
  (∀ observer ck ck' (client : G2engine),
     g2engine.observers client = None →
     let added := subject.RegisterObserver subject.SubjectImpl observer in
     let removed := subject.UnregisterObserver (fst added) observer in
     subject.HasObservers (fst removed) = false →
     let registered := g2engine.RegisterObserver engineId observer ck client in
     let unregistered :=
       g2engine.UnregisterObserver engineId observer ck' (state_of registered) in
     value_of registered = Some (snd added)
     ∧ value_of unregistered = Some (snd removed)
     ∧ g2engine.observers (state_of unregistered) = None
     ∧ (g2engine.isTrace client = false → state_of unregistered = client)) ∧
  (∀ observer ck ck' (client : G2configmgr),
     g2configmgr.observers client = None →
     let added := subject.RegisterObserver subject.SubjectImpl observer in
     let removed := subject.UnregisterObserver (fst added) observer in
     subject.HasObservers (fst removed) = false →
     let registered := g2configmgr.RegisterObserver configmgrId observer ck client in
     let unregistered :=
       g2configmgr.UnregisterObserver configmgrId observer ck' (state_of registered) in
     value_of registered = Some (snd added)
     ∧ value_of unregistered = Some (snd removed)
     ∧ g2configmgr.observers (state_of unregistered) = None
     ∧ (g2configmgr.isTrace client = false → state_of unregistered = client)) ∧
  (∀ observer ck ck' (client : G2product),
     g2product.observers client = None →
     let added := subject.RegisterObserver subject.SubjectImpl observer in
     let removed := subject.UnregisterObserver (fst added) observer in
     subject.HasObservers (fst removed) = false →
     let registered := g2product.RegisterObserver productId observer ck client in
     let unregistered :=
       g2product.UnregisterObserver productId observer ck' (state_of registered) in
     value_of registered = Some (snd added)
     ∧ value_of unregistered = Some (snd removed)
     ∧ g2product.observers (state_of unregistered) = None
     ∧ (g2product.isTrace client = false → state_of unregistered = client)).
Proof.
  repeat apply conj;
    intros observer ck ck' client Hnone added removed Hlast registered
      unregistered;
    subst added removed registered unregistered;
    destruct client as [t l o]; simpl in Hnone; subst o; destruct t, l;
    exec; repeat (first [rewrite Hlast | split_stuck]; exec);
    (split; [reflexivity|]); (split; [reflexivity|]);
    (split; [reflexivity|]); intros Hoff;
    first [discriminate Hoff | reflexivity].
Qed.

(** A method other than [SetLogLevel] logs nothing exactly when the tracing
    flag is off as it is called. *)
Lemma logs_nothing_iff_tracing_is_off :
  (∀ call ck (client : G2engine),
     (∀ level, call ≠ g2engine.call_SetLogLevel level) →
     logged (trace_of (g2engine.invoke engineId call ck client)) = []
     ↔ g2engine.isTrace client = false) ∧
  (∀ call ck (client : G2configmgr),
     (∀ level, call ≠ g2configmgr.call_SetLogLevel level) →
     logged (trace_of (g2configmgr.invoke configmgrId call ck client)) = []
     ↔ g2configmgr.isTrace client = false) ∧
  (∀ call ck (client : G2product),
     (∀ level, call ≠ g2product.call_SetLogLevel level) →
     logged (trace_of (g2product.invoke productId call ck client)) = []
     ↔ g2product.isTrace client = false).
Proof.
  repeat apply conj; intros call ck client Hother; destruct call;
    try (exfalso; eapply Hother; reflexivity);
    try shared_body; control client; run;
    (split; intros Hnil; first [reflexivity | discriminate Hnil]).
Qed.

(** X14: [SetLogLevel] decides whether the later calls trace.  With a
    logger that reports the level it has been set to, after
    [SetLogLevel(logLevel)] a method other than [SetLogLevel] logs nothing
    when [logLevel] is not TRACE, and logs when it is, whatever the tracing
    flag and the logger were before.  This holds for the three clients. *)
Theorem SetLogLevel_decides_tracing_of_later_calls :
  (∀ logLevel call ck ck' (client : G2engine),
     (∀ l level,
        messagelogger.GetLogLevel (messagelogger.SetLogLevel l level)
        = level) →
     (∀ level, call ≠ g2engine.call_SetLogLevel level) →
     let configured :=
       state_of (g2engine.SetLogLevel engineId logLevel ck client) in
     logged (trace_of (g2engine.invoke engineId call ck' configured)) = []
     ↔ logLevel ≠ messagelogger.LevelTrace) ∧
  (∀ logLevel call ck ck' (client : G2configmgr),
     (∀ l level,
        messagelogger.GetLogLevel (messagelogger.SetLogLevel l level)
        = level) →
     (∀ level, call ≠ g2configmgr.call_SetLogLevel level) →
     let configured :=
       state_of (g2configmgr.SetLogLevel configmgrId logLevel ck client) in
     logged (trace_of (g2configmgr.invoke configmgrId call ck' configured)) = []
     ↔ logLevel ≠ messagelogger.LevelTrace) ∧
  (∀ logLevel call ck ck' (client : G2product),
     (∀ l level,
        messagelogger.GetLogLevel (messagelogger.SetLogLevel l level)
        = level) →
     (∀ level, call ≠ g2product.call_SetLogLevel level) →
     let configured :=
       state_of (g2product.SetLogLevel productId logLevel ck client) in
     logged (trace_of (g2product.invoke productId call ck' configured)) = []
     ↔ logLevel ≠ messagelogger.LevelTrace).
Proof.
  destruct logs_nothing_iff_tracing_is_off as (He & Hc & Hp).
  repeat apply conj;
    intros logLevel call ck ck' client Hlaw Hother configured;
    subst configured;
    first [ rewrite (He _ _ _ Hother) | rewrite (Hc _ _ _ Hother)
          | rewrite (Hp _ _ _ Hother) ];
    control client; run;
    match goal with
    | E : bool_decide _ = true |- _ =>
        rewrite Hlaw in E; apply bool_decide_eq_true in E;
        split; [intros Hoff; discriminate Hoff | intros Hne; destruct (Hne E)]
    | E : bool_decide _ = false |- _ =>
        rewrite Hlaw in E; apply bool_decide_eq_false in E;
        split; [intros _; exact E | reflexivity]
    end.
Qed.

(** X15: [RegisterObserver] never panics.  When the client has no
    registry it first assigns a new one to the [observers] field; it adds
    the observer to the registry of the client and returns what the
    registry returns; only then does it launch the goroutine of its
    notification, once, whether the addition has failed or not, with the
    error of the addition and with the id of the observer under
    [observerID].  The trace entry comes before and the trace exit after,
    when tracing.  This holds for the three clients. *)
Theorem RegisterObserver_registers_before_it_notifies :
  (∀ observer ck (client : G2engine),
     let registry := default subject.SubjectImpl (g2engine.observers client) in
     let added := subject.RegisterObserver registry observer in
     let outcome := g2engine.RegisterObserver engineId observer ck client in
     value_of outcome = Some (snd added)
     ∧ trace_of outcome
       = ((if g2engine.isTrace client
           then [Log 157 [VString (GetObserverId observer)]] else [])
          ++ (if g2engine.observers client is None
              then [AssignObservers (Some subject.SubjectImpl)] else [])
          ++ [RegistryRegister registry observer;
              Go 8076 (snd added)
                (λ _, {[ "observerID" := GetObserverId observer ]})]
          ++ (if g2engine.isTrace client
              then [Log 158
                      [VString (GetObserverId observer);
                       VError (snd added); VDuration (Since ck)]]
              else []))%list) ∧
  (∀ observer ck (client : G2configmgr),
     let registry := default subject.SubjectImpl (g2configmgr.observers client) in
     let added := subject.RegisterObserver registry observer in
     let outcome := g2configmgr.RegisterObserver configmgrId observer ck client in
     value_of outcome = Some (snd added)
     ∧ trace_of outcome
       = ((if g2configmgr.isTrace client
           then [Log 25 [VString (GetObserverId observer)]] else [])
          ++ (if g2configmgr.observers client is None
              then [AssignObservers (Some subject.SubjectImpl)] else [])
          ++ [RegistryRegister registry observer;
              Go 8010 (snd added)
                (λ _, {[ "observerID" := GetObserverId observer ]})]
          ++ (if g2configmgr.isTrace client
              then [Log 26
                      [VString (GetObserverId observer);
                       VError (snd added); VDuration (Since ck)]]
              else []))%list) ∧
  (∀ observer ck (client : G2product),
     let registry := default subject.SubjectImpl (g2product.observers client) in
     let added := subject.RegisterObserver registry observer in
     let outcome := g2product.RegisterObserver productId observer ck client in
     value_of outcome = Some (snd added)
     ∧ trace_of outcome
       = ((if g2product.isTrace client
           then [Log 21 [VString (GetObserverId observer)]] else [])
          ++ (if g2product.observers client is None
              then [AssignObservers (Some subject.SubjectImpl)] else [])
          ++ [RegistryRegister registry observer;
              Go 8008 (snd added)
                (λ _, {[ "observerID" := GetObserverId observer ]})]
          ++ (if g2product.isTrace client
              then [Log 22
                      [VString (GetObserverId observer);
                       VError (snd added); VDuration (Since ck)]]
              else []))%list).
Proof.
  repeat apply conj; intros observer ck client registry added outcome;
    subst registry added outcome; control client; run; split; reflexivity.
Qed.

(** X16: with tracing off and no registry, a method is a read of the
    client and nothing more: it returns, leaves every field as it is, logs
    nothing, launches no goroutine and makes no call on a collaborator.
    This holds for every method of the three clients but
    [RegisterObserver], [SetLogLevel] and [UnregisterObserver]. *)
Theorem quiet_client_is_only_read :
  (∀ call ck (client : G2engine),
     g2engine.isTrace client = false →
     g2engine.observers client = None →
     match call with
     | g2engine.call_RegisterObserver _
     | g2engine.call_SetLogLevel _
     | g2engine.call_UnregisterObserver _ => True
     | _ => ∃ r, g2engine.invoke engineId call ck client = Returned r client []
     end) ∧
  (∀ call ck (client : G2configmgr),
     g2configmgr.isTrace client = false →
     g2configmgr.observers client = None →
     match call with
     | g2configmgr.call_RegisterObserver _
     | g2configmgr.call_SetLogLevel _
     | g2configmgr.call_UnregisterObserver _ => True
     | _ => ∃ r, g2configmgr.invoke configmgrId call ck client = Returned r client []
     end) ∧
  (∀ call ck (client : G2product),
     g2product.isTrace client = false →
     g2product.observers client = None →
     match call with
     | g2product.call_RegisterObserver _
     | g2product.call_SetLogLevel _
     | g2product.call_UnregisterObserver _ => True
     | _ => ∃ r, g2product.invoke productId call ck client = Returned r client []
     end).
Proof.
  repeat apply conj; intros call ck client Hoff Hnone; destruct call;
    try exact I; destruct client as [t l o]; simpl in Hoff, Hnone;
    subst t o; eexists; reflexivity.
Qed.

(** The run of a goroutine on a client that has a registry. *)
Lemma goroutine_run :
  (∀ messageId err details ck (later : G2engine) registry,
     g2engine.observers later = Some registry →
     ∃ m,
       g2engine.goroutine engineId (Go messageId err details) ck later
       = Returned () later
           [if snd (json.Marshal m) is Some text
            then Printf ("Error: " +:+ text)
            else NotifyObservers registry (fst (json.Marshal m))]
       ∧ m !! "messageId" = Some (strconv.Itoa messageId)
       ∧ m !! "subjectId" = Some (strconv.Itoa engineId)
       ∧ m !! "messageTime" = Some (strconv.FormatInt (UnixNano ck) 10)) ∧
  (∀ messageId err details ck (later : G2configmgr) registry,
     g2configmgr.observers later = Some registry →
     ∃ m,
       g2configmgr.goroutine configmgrId (Go messageId err details) ck later
       = Returned () later
           [if snd (json.Marshal m) is Some text
            then Printf ("Error: " +:+ text)
            else NotifyObservers registry (fst (json.Marshal m))]
       ∧ m !! "messageId" = Some (strconv.Itoa messageId)
       ∧ m !! "subjectId" = Some (strconv.Itoa configmgrId)
       ∧ m !! "messageTime" = Some (strconv.FormatInt (UnixNano ck) 10)) ∧
  (∀ messageId err details ck (later : G2product) registry,
     g2product.observers later = Some registry →
     ∃ m,
       g2product.goroutine productId (Go messageId err details) ck later
       = Returned () later
           [if snd (json.Marshal m) is Some text
            then Printf ("Error: " +:+ text)
            else NotifyObservers registry (fst (json.Marshal m))]
       ∧ m !! "messageId" = Some (strconv.Itoa messageId)
       ∧ m !! "subjectId" = Some (strconv.Itoa productId)
       ∧ m !! "messageTime" = Some (strconv.FormatInt (UnixNano ck) 10)).
Proof.
  repeat apply conj; intros messageId err details ck later registry Hreg;
    (eexists; split;
     [| epose proof (notification_lookup _ (UnixNano ck) messageId err
                      (details later)) as (Hsub & Hid & Htime & _);
        split; [exact Hid | split; [exact Hsub | exact Htime]] ]);
    destruct later as [t l o]; simpl in Hreg; subst o;
    destruct err as [text|]; exec_all;
    first [ rewrite (proj2 (notification_assignments _ _ _ _))
          | rewrite (proj1 (notification_assignments _ _ _ _)) ];
    match goal with
    | |- context [snd (json.Marshal ?m)] =>
        destruct (snd (json.Marshal m)); reflexivity
    end.
Qed.

(** X17: the goroutine that a method launches, run on a client that has a
    registry, does one thing: it publishes one message on the registry that
    the client has when the goroutine runs, or reports that the
    serialization has failed.  The message carries the event id of the
    method, the product id of the package, and the clock reading of the
    time the goroutine runs, not of the time the method was called.  This
    holds for every method of the three clients. *)
Theorem goroutine_publishes_when_it_runs :
  (∀ call ck ck' (client later : G2engine) registry,
     g2engine.observers later = Some registry →
     Forall (λ e,
               ∃ m messageId,
                 g2engine.goroutine engineId e ck' later
                 = Returned () later
                     [if snd (json.Marshal m) is Some text
                      then Printf ("Error: " +:+ text)
                      else NotifyObservers registry (fst (json.Marshal m))]
                 ∧ launched (trace_of (g2engine.invoke engineId call ck client))
                   = [messageId]
                 ∧ m !! "messageId" = Some (strconv.Itoa messageId)
                 ∧ m !! "subjectId" = Some (strconv.Itoa engineId)
                 ∧ m !! "messageTime"
                   = Some (strconv.FormatInt (UnixNano ck') 10))
       (goroutines (trace_of (g2engine.invoke engineId call ck client)))) ∧
  (∀ call ck ck' (client later : G2configmgr) registry,
     g2configmgr.observers later = Some registry →
     Forall (λ e,
               ∃ m messageId,
                 g2configmgr.goroutine configmgrId e ck' later
                 = Returned () later
                     [if snd (json.Marshal m) is Some text
                      then Printf ("Error: " +:+ text)
                      else NotifyObservers registry (fst (json.Marshal m))]
                 ∧ launched (trace_of (g2configmgr.invoke configmgrId call ck client))
                   = [messageId]
                 ∧ m !! "messageId" = Some (strconv.Itoa messageId)
                 ∧ m !! "subjectId" = Some (strconv.Itoa configmgrId)
                 ∧ m !! "messageTime"
                   = Some (strconv.FormatInt (UnixNano ck') 10))
       (goroutines (trace_of (g2configmgr.invoke configmgrId call ck client)))) ∧
  (∀ call ck ck' (client later : G2product) registry,
     g2product.observers later = Some registry →
     Forall (λ e,
               ∃ m messageId,
                 g2product.goroutine productId e ck' later
                 = Returned () later
                     [if snd (json.Marshal m) is Some text
                      then Printf ("Error: " +:+ text)
                      else NotifyObservers registry (fst (json.Marshal m))]
                 ∧ launched (trace_of (g2product.invoke productId call ck client))
                   = [messageId]
                 ∧ m !! "messageId" = Some (strconv.Itoa messageId)
                 ∧ m !! "subjectId" = Some (strconv.Itoa productId)
                 ∧ m !! "messageTime"
                   = Some (strconv.FormatInt (UnixNano ck') 10))
       (goroutines (trace_of (g2product.invoke productId call ck client)))).
Proof.
  destruct goroutine_run as (He & Hc & Hp).
  repeat apply conj; intros call ck ck' client later registry Hreg;
    destruct call; try shared_body; control client; run;
    repeat first [apply Forall_nil_2 | apply Forall_cons_2];
    lazymatch goal with
    | |- ∃ m messageId, _ (Go ?id ?err ?details) _ _ = _ ∧ _ =>
        first
          [ destruct (He id err details ck' later registry Hreg)
              as (m & Hrun & Hid & Hsub & Htime)
          | destruct (Hc id err details ck' later registry Hreg)
              as (m & Hrun & Hid & Hsub & Htime)
          | destruct (Hp id err details ck' later registry Hreg)
              as (m & Hrun & Hid & Hsub & Htime) ];
        exists m, id;
        (split; [exact Hrun|]); (split; [reflexivity|]);
        (split; [exact Hid|]); split; [exact Hsub | exact Htime]
    end.
Qed.

(** X18: [SetLogLevel] makes its trace entry when the tracing flag is on
    as it is called, and its trace exit when the flag is on once the level
    is set; in between it launches the goroutine of its notification, when
    the client has a registry.  The notification names the level by its
    text, under [logLevel], and by the empty string when the level has no
    text.  This holds for the three clients. *)
Theorem SetLogLevel_traces_by_the_flag_it_sets :
  (∀ logLevel ck (client : G2engine),
     let outcome := g2engine.SetLogLevel engineId logLevel ck client in
     trace_of outcome
     = ((if g2engine.isTrace client then [Log 137 [VLevel logLevel]] else [])
        ++ (if g2engine.observers client is Some _
            then [Go 8077 None
                    (λ _, {[ "logLevel" :=
                               default "" (logger.LevelToTextMap !! logLevel)
                           ]})]
            else [])
        ++ (if g2engine.isTrace (state_of outcome)
            then [Log 138
                    [VLevel logLevel; VError None; VDuration (Since ck)]]
            else []))%list) ∧
  (∀ logLevel ck (client : G2configmgr),
     let outcome := g2configmgr.SetLogLevel configmgrId logLevel ck client in
     trace_of outcome
     = ((if g2configmgr.isTrace client then [Log 23 [VLevel logLevel]] else [])
        ++ (if g2configmgr.observers client is Some _
            then [Go 8011 None
                    (λ _, {[ "logLevel" :=
                               default "" (logger.LevelToTextMap !! logLevel)
                           ]})]
            else [])
        ++ (if g2configmgr.isTrace (state_of outcome)
            then [Log 24
                    [VLevel logLevel; VError None; VDuration (Since ck)]]
            else []))%list) ∧
  (∀ logLevel ck (client : G2product),
     let outcome := g2product.SetLogLevel productId logLevel ck client in
     trace_of outcome
     = ((if g2product.isTrace client then [Log 13 [VLevel logLevel]] else [])
        ++ (if g2product.observers client is Some _
            then [Go 8009 None
                    (λ _, {[ "logLevel" :=
                               default "" (logger.LevelToTextMap !! logLevel)
                           ]})]
            else [])
        ++ (if g2product.isTrace (state_of outcome)
            then [Log 14
                    [VLevel logLevel; VError None; VDuration (Since ck)]]
            else []))%list).
Proof.
  repeat apply conj; intros logLevel ck client outcome; subst outcome;
    control client; run; reflexivity.
Qed.

(** X19: with a registry present, [UnregisterObserver] returns, whether
    the serialization of its notification succeeds or not: it publishes at
    most one message, removes the observer from the registry once, returns
    what the removal returns, and stores the registry without the observer,
    or nil when that registry is empty.  This holds for the three
    clients. *)
Theorem UnregisterObserver_returns_with_a_registry :
  (∀ observer ck (client : G2engine) registry,
     g2engine.observers client = Some registry →
     let removal := subject.UnregisterObserver registry observer in
     let outcome := g2engine.UnregisterObserver engineId observer ck client in
     value_of outcome = Some (snd removal)
     ∧ List.filter
         (λ e, match e with
               | RegistryRegister _ _ | RegistryUnregister _ _ => true
               | _ => false
               end)
         (trace_of outcome)
       = [RegistryUnregister registry observer]
     ∧ (length (published (trace_of outcome)) ≤ 1)%nat
     ∧ g2engine.observers (state_of outcome)
       = if subject.HasObservers (fst removal)
         then Some (fst removal) else None) ∧
  (∀ observer ck (client : G2configmgr) registry,
     g2configmgr.observers client = Some registry →
     let removal := subject.UnregisterObserver registry observer in
     let outcome := g2configmgr.UnregisterObserver configmgrId observer ck client in
     value_of outcome = Some (snd removal)
     ∧ List.filter
         (λ e, match e with
               | RegistryRegister _ _ | RegistryUnregister _ _ => true
               | _ => false
               end)
         (trace_of outcome)
       = [RegistryUnregister registry observer]
     ∧ (length (published (trace_of outcome)) ≤ 1)%nat
     ∧ g2configmgr.observers (state_of outcome)
       = if subject.HasObservers (fst removal)
         then Some (fst removal) else None) ∧
  (∀ observer ck (client : G2product) registry,
     g2product.observers client = Some registry →
     let removal := subject.UnregisterObserver registry observer in
     let outcome := g2product.UnregisterObserver productId observer ck client in
     value_of outcome = Some (snd removal)
     ∧ List.filter
         (λ e, match e with
               | RegistryRegister _ _ | RegistryUnregister _ _ => true
               | _ => false
               end)
         (trace_of outcome)
       = [RegistryUnregister registry observer]
     ∧ (length (published (trace_of outcome)) ≤ 1)%nat
     ∧ g2product.observers (state_of outcome)
       = if subject.HasObservers (fst removal)
         then Some (fst removal) else None).
Proof.
  repeat apply conj; intros observer ck client registry Hreg removal outcome;
    subst removal outcome; destruct client as [t l o]; simpl in Hreg;
    subst o; destruct t, l; run;
    (split; [reflexivity|]); (split; [reflexivity|]);
    (split; [cbv [published omap mbind option_bind list_omap length]; lia|]);
    reflexivity.
Qed.

End properties.

(** * The properties on sample inputs *)

Section samples.
Import observer modelled.
Local Existing Instances
  modelled.registry modelled.levelLogger modelled.levels modelled.marshaler.

Local Abbreviation G2engine := (@g2engine.G2engine (gmap string Observer) Z).
Local Abbreviation G2configmgr :=
  (@g2configmgr.G2configmgr (gmap string Observer) Z).
Local Abbreviation G2product :=
  (@g2product.G2product (gmap string Observer) Z).

(** The modelled registry is not empty once an observer is added to it. *)
Lemma modelled_registry_not_empty registry observer :
  subject.HasObservers (fst (subject.RegisterObserver registry observer))
  = true.
Proof. apply bool_decide_eq_true, insert_non_empty. Qed.

(** Unregistering from the fresh clients panics before anything is done;
    so does unregistering [O1] a second time, once it has been registered
    and unregistered. *)
Lemma UnregisterObserver_without_registry_panics_witness :
  (∃ client' : G2engine,
     g2engine.UnregisterObserver engineId O1 clock g2engine.zero
     = Panicked client' []
     ∧ g2engine.observers client' = None) ∧
  (∃ client' : G2configmgr,
     g2configmgr.UnregisterObserver configmgrId O1 clock g2configmgr.zero
     = Panicked client' []
     ∧ g2configmgr.observers client' = None) ∧
  (∃ client' : G2product,
     g2product.UnregisterObserver productId O1 clock g2product.zero
     = Panicked client' []
     ∧ g2product.observers client' = None) ∧
  (let registered :=
     state_of (g2product.RegisterObserver productId O1 clock g2product.zero)
   in
   let unregistered :=
     state_of (g2product.UnregisterObserver productId O1 clock registered)
   in
   ∃ client' : G2product,
     g2product.UnregisterObserver productId O1 clock unregistered
     = Panicked client' []
     ∧ g2product.observers client' = None).
Proof.
  pose proof
    (UnregisterObserver_without_registry_panics engineId configmgrId
       productId) as (He & Hc & Hp).
  split; [|split; [|split]].
  - apply (He O1 clock g2engine.zero). reflexivity.
  - apply (Hc O1 clock g2configmgr.zero). reflexivity.
  - apply (Hp O1 clock g2product.zero). reflexivity.
  - intros registered unregistered.
    apply (Hp O1 clock unregistered). reflexivity.
Defined.

(** A fresh engine with [GetActiveConfigIDResult] set to 42 returns 42 and a
    nil error from [GetActiveConfigID], and 0 before the field is set; the
    configuration manager returns the 0 its [AddConfigResult] holds. *)
Lemma canned_result_is_returned_witness :
  value_of (g2engine.invoke engineId g2engine.call_GetActiveConfigID clock
              engine42)
  = Some (Ret_int64_error 42 None)
  ∧ value_of (g2engine.invoke engineId g2engine.call_GetActiveConfigID clock
                g2engine.zero)
    = Some (Ret_int64_error 0 None)
  ∧ value_of (g2configmgr.invoke configmgrId
                (g2configmgr.call_AddConfig "{}" "comment") clock configmgrO1)
    = Some (Ret_int64_error 0 None).
Proof.
  pose proof (canned_result_is_returned engineId configmgrId productId)
    as (He & Hc & _).
  destruct (He g2engine.call_GetActiveConfigID
              (Canned_int64 g2engine.GetActiveConfigIDResult) clock engine42
              eq_refl) as [Hset Hzero].
  split; [apply Hset; reflexivity | split; [exact Hzero|]].
  destruct (Hc (g2configmgr.call_AddConfig "{}" "comment")
              (Canned_int64 g2configmgr.AddConfigResult) clock configmgrO1
              eq_refl) as [Hheld _].
  apply Hheld. reflexivity.
Defined.

(** With [O1] registered, [notify] hands the serialized notification to
    the registry, which delivers it to [O1]. *)
Lemma notify_publishes_notification_witness :
  let m :=
    notification configmgrId (UnixNano clock) 8001 None
      {[ "configComments" := "comment" ]} in
  g2configmgr.notify configmgrId 8001 None
    {[ "configComments" := "comment" ]} clock configmgrO1
  = Returned () configmgrO1
      [NotifyObservers {[ "O1" := O1 ]} (fst (json.Marshal m))]
  ∧ subject.NotifyObservers ({[ "O1" := O1 ]} : gmap string Observer)
      (fst (json.Marshal m))
    = [("O1", fst (json.Marshal m))].
Proof.
  split.
  - apply (proj1 (proj2 (notify_publishes_notification engineId configmgrId
                           productId))); reflexivity.
  - reflexivity.
Defined.

(** Registering [O1] on a fresh configuration manager leaves a registry
    that is not empty; unregistering it again leaves no registry. *)
Lemma registry_is_absent_or_not_empty_witness :
  g2configmgr.registry_inv
    (state_of (g2configmgr.invoke configmgrId
                 (g2configmgr.call_RegisterObserver O1) clock
                 g2configmgr.zero))
  ∧ g2configmgr.observers
      (state_of (g2configmgr.UnregisterObserver configmgrId O1 clock
                   configmgrO1))
    = None.
Proof.
  pose proof (registry_is_absent_or_not_empty engineId configmgrId productId
                modelled_registry_not_empty)
    as ((_ & Hinv & _) & _ & (_ & Hun & _)).
  split.
  - apply Hinv. exact I.
  - rewrite (Hun O1 clock configmgrO1 {[ "O1" := O1 ]} eq_refl).
    reflexivity.
Defined.

(** Unregistering [O1], the only observer: the notification is published
    on the registry that still holds [O1], then [O1] is removed, then nil
    is assigned to the field, and the client is left without registry. *)
Lemma UnregisterObserver_notifies_before_removal_witness :
  let m :=
    notification productId (UnixNano clock) 8010 None
      {[ "observerID" := "O1" ]} in
  let outcome := g2product.UnregisterObserver productId O1 clock productO1 in
  value_of outcome = Some None
  ∧ trace_of outcome
    = [NotifyObservers {[ "O1" := O1 ]} (fst (json.Marshal m));
       RegistryUnregister {[ "O1" := O1 ]} O1;
       AssignObservers None]
  ∧ m !! "observerID" = Some "O1"
  ∧ g2product.observers (state_of outcome) = None.
Proof.
  pose proof (UnregisterObserver_notifies_before_removal engineId configmgrId
                productId) as (_ & _ & Hp).
  exact (Hp O1 clock productO1 {[ "O1" := O1 ]} eq_refl eq_refl).
Defined.

(** C9 as stated fails: tracing is off on a fresh engine, and
    [SetLogLevel] with the TRACE level makes its trace exit on it. *)
Lemma SetLogLevel_traces_its_exit :
  g2engine.isTrace (g2engine.zero : G2engine) = false
  ∧ logged (trace_of (g2engine.invoke engineId (g2engine.call_SetLogLevel 0)
                        clock g2engine.zero))
    = [Log 138 [VLevel 0; VError None; VDuration 1500]].
Proof. split; reflexivity. Qed.

(** With tracing off, [GetActiveConfigID] logs nothing, observers or not,
    and [SetLogLevel] with the INFO level logs nothing either. *)
Lemma no_trace_when_tracing_is_off_witness :
  logged (trace_of (g2engine.invoke engineId g2engine.call_GetActiveConfigID
                      clock engineO1))
  = []
  ∧ logged (trace_of (g2engine.invoke engineId (g2engine.call_SetLogLevel 2)
                        clock engineO1))
    = [].
Proof.
  pose proof (no_trace_when_tracing_is_off engineId configmgrId productId)
    as (He & _).
  split.
  - apply (He g2engine.call_GetActiveConfigID clock engineO1). reflexivity.
  - rewrite (He (g2engine.call_SetLogLevel 2) clock engineO1 eq_refl).
    reflexivity.
Defined.

(** [SetLogLevel] with the TRACE level turns the flag on; [GetSdkId] then
    leaves it on. *)
Lemma tracing_flag_follows_log_level_witness :
  let traced := state_of (g2product.SetLogLevel productId 0 clock productO1) in
  g2product.isTrace traced = true
  ∧ g2product.isTrace
      (state_of (g2product.invoke productId g2product.call_GetSdkId clock
                   traced))
    = true.
Proof.
  pose proof (tracing_flag_follows_log_level engineId configmgrId productId)
    as ((_ & _ & Hset) & (_ & _ & Hother)).
  intros traced. assert (g2product.isTrace traced = true) as Hon.
  { apply (Hset 0 clock productO1). reflexivity. }
  split; [exact Hon|].
  rewrite (Hother g2product.call_GetSdkId clock traced); [exact Hon|].
  intros logLevel; discriminate.
Defined.
End samples.

(** * Further properties on sample inputs *)

Section more_samples.
Import observer modelled.
Local Existing Instances
  modelled.registry modelled.levelLogger modelled.levels modelled.marshaler.

Local Abbreviation G2engine := (@g2engine.G2engine (gmap string Observer) Z).
Local Abbreviation G2product :=
  (@g2product.G2product (gmap string Observer) Z).

(** [Version] on a fresh client with the tracing flag on creates the
    logger, at the INFO level. *)
Lemma logger_is_created_once_witness :
  g2product.logger
    (state_of (g2product.invoke productId g2product.call_Version clock
                 (g2product.set_isTrace true g2product.zero)))
  = Some 2.
Proof.
  pose proof (logger_is_created_once engineId configmgrId productId)
    as (_ & _ & Hp).
  apply (Hp g2product.call_Version clock
           (g2product.set_isTrace true g2product.zero)).
  intros logLevel; discriminate.
Defined.

(** [License] on a fresh client with the tracing flag on: the entry 11,
    then the exit 12, which ends with the nil error and the time since the
    entry. *)
Lemma trace_entry_and_exit_bracket_the_call_witness :
  let outcome :=
    g2product.invoke productId g2product.call_License clock
      (g2product.set_isTrace true g2product.zero) in
  ∃ entry entryArgs exitArgs,
    trace_of outcome
    = (Log entry entryArgs
         :: List.filter (λ e, negb (is_Log e)) (trace_of outcome)
         ++ (if g2product.isTrace (state_of outcome)
             then [Log (entry + 1) exitArgs] else []))%list
    ∧ (g2product.isTrace (state_of outcome) = true →
       take (length entryArgs) exitArgs = entryArgs
       ∧ drop (length exitArgs - 2) exitArgs
         = [VError None; VDuration (Since clock)]).
Proof.
  pose proof (trace_entry_and_exit_bracket_the_call engineId configmgrId
                productId) as (_ & _ & Hp).
  exact (Hp g2product.call_License clock
           (g2product.set_isTrace true g2product.zero)
           (Ret_string_error "" None) eq_refl eq_refl).
Defined.

(** With [O1] registered, the notification of
    [AddRecordWithReturnedRecordID] holds the record id that the engine
    returns. *)
Lemma notification_reports_the_returned_id_witness :
  let outcome :=
    g2engine.AddRecordWithReturnedRecordID engineId "CUSTOMERS" "{}" "load"
      clock engineO1 in
  ∃ details recordID,
    goroutines (trace_of outcome) = [Go 8004 None details]
    ∧ value_of outcome = Some (recordID, None)
    ∧ details (state_of outcome) !! "recordID" = Some recordID.
Proof.
  pose proof (notification_reports_the_returned_id
                (Reg := gmap string Observer) (Lg := Z) engineId)
    as (_ & He & _).
  exact (He "CUSTOMERS" "{}" "load" clock engineO1 {[ "O1" := O1 ]} eq_refl).
Defined.

(** The modelled registry is empty once its only observer is removed. *)
Lemma modelled_registry_empty_again o :
  subject.HasObservers
    (fst (subject.UnregisterObserver
            (fst (subject.RegisterObserver subject.SubjectImpl o)) o))
  = false.
Proof.
  apply bool_decide_eq_false. intros Hne. apply Hne. simpl.
  rewrite delete_insert_eq. apply delete_empty.
Qed.

(** Register [O1] on a fresh client, call [Version], unregister [O1]: the
    notification of [Version] is published if it runs before [O1] is
    unregistered, and panics if it runs after. *)
Lemma pending_notification_panics_after_last_unregister_witness :
  let registered :=
    state_of (g2product.RegisterObserver productId O1 clock g2product.zero)
  in
  let outcome :=
    g2product.invoke productId g2product.call_Version clock registered in
  let unregistered :=
    state_of (g2product.UnregisterObserver productId O1 clock
                (state_of outcome)) in
  ∃ e,
    goroutines (trace_of outcome) = [e]
    ∧ (∃ message,
         g2product.goroutine productId e clock (state_of outcome)
         = Returned () (state_of outcome)
             [NotifyObservers
                (fst (subject.RegisterObserver subject.SubjectImpl O1))
                message])
    ∧ g2product.goroutine productId e clock unregistered
      = Panicked unregistered [].
Proof.
  pose proof (pending_notification_panics_after_last_unregister engineId
                configmgrId productId) as (_ & _ & Hp).
  exact (Hp g2product.call_Version O1 clock clock clock clock g2product.zero
           eq_refl (modelled_registry_empty_again O1) (λ _, eq_refl)).
Defined.

(** Registering [O1] on a fresh client and unregistering it leaves the
    fresh client. *)
Lemma register_then_unregister_restores_the_client_witness :
  state_of
    (g2product.UnregisterObserver productId O1 clock
       (state_of
          (g2product.RegisterObserver productId O1 clock g2product.zero)))
  = g2product.zero.
Proof.
  pose proof (register_then_unregister_restores_the_client engineId
                configmgrId productId) as (_ & _ & Hp).
  apply (Hp O1 clock clock g2product.zero eq_refl
           (modelled_registry_empty_again O1)).
  reflexivity.
Defined.

(** After [SetLogLevel] with the INFO level, [Version] logs nothing. *)
Lemma SetLogLevel_decides_tracing_of_later_calls_witness :
  logged
    (trace_of
       (g2product.invoke productId g2product.call_Version clock
          (state_of (g2product.SetLogLevel productId 2 clock
                       (g2product.set_isTrace true g2product.zero)))))
  = [].
Proof.
  pose proof (SetLogLevel_decides_tracing_of_later_calls engineId
                configmgrId productId) as (_ & _ & Hp).
  apply (Hp 2 g2product.call_Version clock clock
           (g2product.set_isTrace true g2product.zero)).
  - intros l level. reflexivity.
  - intros level. discriminate.
  - discriminate.
Defined.

(** [GetActiveConfigID] on the engine whose canned field holds 42 only
    reads the engine. *)
Lemma quiet_client_is_only_read_witness :
  ∃ r,
    g2engine.invoke engineId g2engine.call_GetActiveConfigID clock engine42
    = Returned r engine42 [].
Proof.
  pose proof (quiet_client_is_only_read engineId configmgrId productId)
    as (He & _).
  exact (He g2engine.call_GetActiveConfigID clock engine42 eq_refl eq_refl).
Defined.

(** The goroutine that [Version] launches on a client with [O1]
    registered, run on that client, publishes the event 8006 of the product
    5003. *)
Lemma goroutine_publishes_when_it_runs_witness :
  Forall (λ e,
            ∃ m messageId,
              g2product.goroutine productId e clock productO1
              = Returned () productO1
                  [if snd (json.Marshal m) is Some text
                   then Printf ("Error: " +:+ text)
                   else NotifyObservers {[ "O1" := O1 ]}
                          (fst (json.Marshal m))]
              ∧ launched
                  (trace_of (g2product.invoke productId
                               g2product.call_Version clock productO1))
                = [messageId]
              ∧ m !! "messageId" = Some (strconv.Itoa messageId)
              ∧ m !! "subjectId" = Some (strconv.Itoa productId)
              ∧ m !! "messageTime"
                = Some (strconv.FormatInt (UnixNano clock) 10))
    (goroutines
       (trace_of (g2product.invoke productId g2product.call_Version clock
                    productO1))).
Proof.
  pose proof (goroutine_publishes_when_it_runs engineId configmgrId
                productId) as (_ & _ & Hp).
  exact (Hp g2product.call_Version clock clock productO1 productO1
           {[ "O1" := O1 ]} eq_refl).
Defined.

(** Unregistering [O1], the only observer, returns and leaves no
    registry. *)
Lemma UnregisterObserver_returns_with_a_registry_witness :
  let outcome := g2product.UnregisterObserver productId O1 clock productO1 in
  value_of outcome = Some None
  ∧ List.filter
      (λ e, match e with
            | RegistryRegister _ _ | RegistryUnregister _ _ => true
            | _ => false
            end)
      (trace_of outcome)
    = [RegistryUnregister {[ "O1" := O1 ]} O1]
  ∧ (length (published (trace_of outcome)) ≤ 1)%nat
  ∧ g2product.observers (state_of outcome) = None.
Proof.
  pose proof (UnregisterObserver_returns_with_a_registry engineId
                configmgrId productId) as (_ & _ & Hp).
  exact (Hp O1 clock productO1 {[ "O1" := O1 ]} eq_refl).
Defined.
End more_samples.
